(** * blockchain-api: asset identifiers, unit conversion and provider dispatch

    A shallow embedding of [src/data/parser.ts], [src/provider/bitcoin.ts]
    and [src/service/blockchain.service.ts], with the properties the
    specification states about them.  The Alchemy and CoinGecko providers
    enter as the methods the service calls.

    Conventions of the embedding.
    - A JavaScript string is the list of its code units ([jsstring]); the
      model covers code units below 256.
    - [undefined] in an optional position is [None].
    - A function that may throw returns a [result]: [OK v] or [Throw e].
    - A [bigint] is a [Z]; [/] and [%] on bigints are [Z.quot] and [Z.rem].
    - A JavaScript number that holds a satoshi amount or a paging parameter is
      a [Z]: integers of magnitude below 2^53, on which number arithmetic is
      exact.  Prices are floating point and stay abstract. *)

From Stdlib Require Import List String Ascii ZArith Lia Bool.
Import ListNotations.

Set Implicit Arguments.

(* ================================================================= *)
(** ** JavaScript strings *)

Definition jsstring := list ascii.

(** A string literal of the source. *)
Definition str (s : string) : jsstring := list_ascii_of_string s.

(** [a === b] on strings. *)
Fixpoint streq (a b : jsstring) : bool :=
  match a, b with
  | [], [] => true
  | x :: a', y :: b' => Ascii.eqb x y && streq a' b'
  | _, _ => false
  end.

(** [s.includes(c)] for a one-character needle. *)
Definition includes (c : ascii) (s : jsstring) : bool :=
  existsb (Ascii.eqb c) s.

(** [s.split(sep)] for a one-character separator.  The result is never
    empty: the empty string splits into one empty segment. *)
Fixpoint split (sep : ascii) (s : jsstring) : list jsstring :=
  match s with
  | [] => [[]]
  | c :: s' =>
      if Ascii.eqb c sep then [] :: split sep s'
      else match split sep s' with
           | w :: ws => (c :: w) :: ws
           | [] => [[c]]
           end
  end.

(** [parts.join(sep)]. *)
Fixpoint join (sep : jsstring) (parts : list jsstring) : jsstring :=
  match parts with
  | [] => []
  | [w] => w
  | w :: ws => w ++ sep ++ join sep ws
  end.

(** Truthiness of a string: non-empty. *)
Definition truthy (s : jsstring) : bool :=
  match s with [] => false | _ => true end.

(** Truthiness of an optional string: defined and non-empty. *)
Definition truthy_opt (o : option jsstring) : bool :=
  match o with Some s => truthy s | None => false end.

(** A template-literal hole filled with a possibly undefined string. *)
Definition show_opt (o : option jsstring) : jsstring :=
  match o with Some s => s | None => str "undefined" end.

(* ================================================================= *)
(** ** Thrown values and results *)

(** An [Error] object as the handlers read it: its [message], and the
    upstream payload [response?.data] the provider handlers copy into
    [details]. *)
Record JSError := mkError {
  thrown_message : option jsstring;
  thrown_response_data : option jsstring
}.

(** [new Error(msg)]. *)
Definition new_Error (msg : jsstring) : JSError :=
  {| thrown_message := Some msg; thrown_response_data := None |}.

Inductive result (A : Type) : Type :=
| OK (a : A)
| Throw (e : JSError).

Arguments OK {A} a.
Arguments Throw {A} e.

(* ================================================================= *)
(** ** Asset identifiers ([parser.ts]) *)

Inductive AssetType := native | erc20 | erc721 | erc1155 | bitcoin.

Definition AssetType_eqb (a b : AssetType) : bool :=
  match a, b with
  | native, native | erc20, erc20 | erc721, erc721
  | erc1155, erc1155 | bitcoin, bitcoin => true
  | _, _ => false
  end.

(** The value of [networkId].  It is a string on every path but one:
    [chainIdMap[chainReference]] on a plain object literal also finds the
    members inherited from [Object.prototype] (for the reference
    [constructor], say), which are functions or objects, truthy, and so
    are what [||] keeps. *)
Inductive NetworkId :=
| net (name : jsstring)
| inherited_member (key : jsstring).

Record AssetInfo := mkAssetInfo {
  assetId : jsstring;
  networkId : NetworkId;
  contractAddress : option jsstring;
  tokenId : option jsstring;
  type : AssetType
}.

(** The property names of [Object.prototype]. *)
Definition object_prototype_keys : list jsstring :=
  map str [ "constructor"; "__defineGetter__"; "__defineSetter__";
            "hasOwnProperty"; "__lookupGetter__"; "__lookupSetter__";
            "isPrototypeOf"; "propertyIsEnumerable"; "toString";
            "valueOf"; "__proto__"; "toLocaleString" ]%string.

Definition is_object_prototype_key (k : jsstring) : bool :=
  existsb (streq k) object_prototype_keys.

(** The own properties of [chainIdMap]. *)
Definition chainIdMap : list (jsstring * jsstring) :=
  [ (str "1", str "ethereum"); (str "137", str "polygon");
    (str "42161", str "arbitrum"); (str "10", str "optimism");
    (str "8453", str "base") ].

Fixpoint own_property (A : Type) (k : jsstring) (o : list (jsstring * A))
  : option A :=
  match o with
  | [] => None
  | (k', v) :: o' => if streq k k' then Some v else own_property k o'
  end.

(** [chainIdMap[chainReference] || `eip155:${chainReference}`]. *)
Definition resolve_chain (chainReference : option jsstring) : NetworkId :=
  let key := show_opt chainReference in
  match own_property key chainIdMap with
  | Some name => net name
  | None =>
      if is_object_prototype_key key then inherited_member key
      else net (str "eip155:" ++ key)
  end.

(** [const parts = assetReference.split(':')] and the branch on
    [parts.length === 2], shared by the erc721 and erc1155 cases. *)
Definition contract_and_token (assetReference : jsstring)
  : option jsstring * option jsstring :=
  match split ":" assetReference with
  | [c; t] => (Some c, Some t)
  | _ => (Some assetReference, None)
  end.

Definition parseCAIPAssetId (assetId : jsstring) : result AssetInfo :=
  match split "/" assetId with
  | chainPart :: assetPart :: _ =>
      let chainParts := split ":" chainPart in
      let chainNamespace := hd [] chainParts in
      let chainReference := nth_error chainParts 1 in
      let assetParts := split ":" assetPart in
      let assetNamespace := hd [] assetParts in
      let assetReference := join (str ":") (tl assetParts) in
      (* Determine network *)
      let network :=
        if streq chainNamespace (str "bip122") then OK (net (str "bitcoin"))
        else if streq chainNamespace (str "eip155") then
          OK (resolve_chain chainReference)
        else Throw (new_Error
                      (str "Unsupported chain namespace: " ++ chainNamespace))
      in
      match network with
      | Throw e => Throw e
      | OK networkId =>
          (* Determine asset type *)
          if streq assetNamespace (str "slip44") then
            OK (mkAssetInfo assetId networkId None None
                  (match networkId with
                   | net n => if streq n (str "bitcoin") then bitcoin
                              else native
                   | inherited_member _ => native
                   end))
          else if streq assetNamespace (str "erc20") then
            OK (mkAssetInfo assetId networkId (Some assetReference) None erc20)
          else if streq assetNamespace (str "erc721") then
            let (c, t) := contract_and_token assetReference in
            OK (mkAssetInfo assetId networkId c t erc721)
          else if streq assetNamespace (str "erc1155") then
            let (c, t) := contract_and_token assetReference in
            OK (mkAssetInfo assetId networkId c t erc1155)
          else Throw (new_Error
                        (str "Unsupported asset namespace: " ++ assetNamespace))
      end
  | _ =>
      (* [assetPart] is undefined: [assetPart.split] is a TypeError.
         Not reachable from [parseAssetId], which checks for the slash. *)
      Throw (new_Error
               (str "Cannot read properties of undefined (reading 'split')"))
  end.

Definition parseAssetId (assetId : jsstring) : result AssetInfo :=
  (* Check if it's CAIP format *)
  if includes "/" assetId then parseCAIPAssetId assetId
  else
    (* Legacy format parsing *)
    let parts := split ":" assetId in
    if streq assetId (str "bitcoin") then
      OK (mkAssetInfo assetId (net (str "bitcoin")) None None bitcoin)
    else
      match parts with
      | [p0] => OK (mkAssetInfo assetId (net p0) None None native)
      | [p0; p1] => OK (mkAssetInfo assetId (net p0) (Some p1) None erc20)
      | [p0; p1; p2] =>
          OK (mkAssetInfo assetId (net p0) (Some p1) (Some p2) erc721)
      | _ => Throw (new_Error (str "Invalid assetId format: " ++ assetId))
      end.

(** [buildAssetId(networkId, contractAddress?, tokenId?)].  [!x] is true
    of undefined and of the empty string. *)
Definition buildAssetId (networkId : jsstring)
    (contractAddress tokenId : option jsstring) : jsstring :=
  if streq networkId (str "bitcoin") then str "bitcoin"
  else if negb (truthy_opt contractAddress) then networkId
  else if negb (truthy_opt tokenId) then
    networkId ++ str ":" ++ show_opt contractAddress
  else networkId ++ str ":" ++ show_opt contractAddress
                 ++ str ":" ++ show_opt tokenId.

(* ================================================================= *)
(** ** Arbitrary-precision integers and their strings *)

Local Open Scope Z_scope.

(** The code units that [StringToBigInt] trims: tab, line feed, vertical
    tab, form feed, carriage return, space and no-break space. *)
Definition is_white_space (c : ascii) : bool :=
  match N_of_ascii c with
  | 9 | 10 | 11 | 12 | 13 | 32 | 160 => true
  | _ => false
  end%N.

Fixpoint trim_start (s : jsstring) : jsstring :=
  match s with
  | c :: s' => if is_white_space c then trim_start s' else s
  | [] => []
  end.

Definition trim (s : jsstring) : jsstring :=
  rev (trim_start (rev (trim_start s))).

(** The value of a digit in the largest radix, 16. *)
Definition digit_value (c : ascii) : option Z :=
  let n := Z.of_N (N_of_ascii c) in
  if (48 <=? n) && (n <=? 57) then Some (n - 48)
  else if (97 <=? n) && (n <=? 102) then Some (n - 87)
  else if (65 <=? n) && (n <=? 70) then Some (n - 55)
  else None.

Fixpoint digits_value (radix acc : Z) (s : jsstring) : option Z :=
  match s with
  | [] => Some acc
  | c :: s' =>
      match digit_value c with
      | Some d => if d <? radix then digits_value radix (acc * radix + d) s'
                  else None
      | None => None
      end
  end.

(** One digit at least. *)
Definition parse_digits (radix : Z) (s : jsstring) : option Z :=
  match s with
  | [] => None
  | _ => digits_value radix 0 s
  end.

(** The radix a literal announces by its first two code units, with the
    digits that follow: [0x], [0o] and [0b], in either case. *)
Definition radix_prefix (s : jsstring) : option (Z * jsstring) :=
  match s with
  | zero :: letter :: ds =>
      if Ascii.eqb zero "0" then
        if Ascii.eqb letter "x" || Ascii.eqb letter "X" then Some (16, ds)
        else if Ascii.eqb letter "o" || Ascii.eqb letter "O" then Some (8, ds)
        else if Ascii.eqb letter "b" || Ascii.eqb letter "B" then Some (2, ds)
        else None
      else None
  | _ => None
  end.

(** [StringToBigInt]: white space around nothing is zero; otherwise an
    unsigned literal with a radix prefix, or a decimal literal with an
    optional sign. *)
Definition StringToBigInt (s : jsstring) : option Z :=
  match trim s with
  | [] => Some 0
  | c :: rest =>
      match radix_prefix (c :: rest) with
      | Some (radix, ds) => parse_digits radix ds
      | None =>
          if Ascii.eqb c "+" then parse_digits 10 rest
          else if Ascii.eqb c "-" then option_map Z.opp (parse_digits 10 rest)
          else parse_digits 10 (c :: rest)
      end
  end.

(** [BigInt(s)], a SyntaxError on anything else. *)
Definition BigInt (s : jsstring) : result Z :=
  match StringToBigInt s with
  | Some z => OK z
  | None => Throw (new_Error (str "Cannot convert " ++ s ++ str " to a BigInt"))
  end.

Definition digit_char (d : Z) : ascii := ascii_of_N (Z.to_N (48 + d)).

(** The decimal digits of a natural number, most significant first,
    prepended to [acc].  [fuel] bounds the number of digits. *)
Fixpoint to_digits (fuel : nat) (n : Z) (acc : jsstring) : jsstring :=
  match fuel with
  | O => acc
  | S f =>
      let acc' := digit_char (n mod 10) :: acc in
      if n <? 10 then acc' else to_digits f (n / 10) acc'
  end.

(** A number below [2^fuel] has at most [fuel] decimal digits. *)
Definition digits_fuel (n : Z) : nat := S (Z.to_nat (Z.log2 n)).

(** [z.toString()] of a bigint, and of a number that holds an integer. *)
Definition toString (z : Z) : jsstring :=
  if z <? 0 then "-"%char :: to_digits (digits_fuel (- z)) (- z) []
  else to_digits (digits_fuel z) z [].

Definition padStart (n : nat) (c : ascii) (s : jsstring) : jsstring :=
  repeat c (n - List.length s) ++ s.

Definition padEnd (n : nat) (c : ascii) (s : jsstring) : jsstring :=
  s ++ repeat c (n - List.length s).

Fixpoint drop_zeros (s : jsstring) : jsstring :=
  match s with
  | c :: s' => if Ascii.eqb c "0" then drop_zeros s' else s
  | [] => []
  end.

(** [s.replace(/0+$/, '')]. *)
Definition strip_trailing_zeros (s : jsstring) : jsstring :=
  rev (drop_zeros (rev s)).

(* ================================================================= *)
(** ** Unit conversion ([parser.ts]) *)

Definition weiToEther (wei : jsstring) : result jsstring :=
  match BigInt wei with
  | Throw e => Throw e
  | OK weiBigInt =>
      let etherBigInt := Z.quot weiBigInt (10 ^ 18) in
      let remainder := Z.rem weiBigInt (10 ^ 18) in
      if remainder =? 0 then OK (toString etherBigInt)
      else
        let remainderStr := padStart 18 "0" (toString remainder) in
        let decimalPart := strip_trailing_zeros remainderStr in
        if streq decimalPart [] then OK (toString etherBigInt)
        else OK (toString etherBigInt ++ str "." ++ decimalPart)
  end.

Definition etherToWei (ether : jsstring) : result jsstring :=
  let parts := split "." ether in
  let integerPart := hd [] parts in
  (* [decimalPart = ''] when the second element is undefined *)
  let decimalPart := nth 1 parts [] in
  let paddedDecimal := firstn 18 (padEnd 18 "0" decimalPart) in
  match BigInt integerPart with
  | Throw e => Throw e
  | OK i =>
      match BigInt paddedDecimal with
      | Throw e => Throw e
      | OK f => OK (toString (i * 10 ^ 18 + f))
      end
  end.

Definition satoshiToBitcoin (satoshi : jsstring) : result jsstring :=
  match BigInt satoshi with
  | Throw e => Throw e
  | OK satoshiBigInt =>
      let bitcoinBigInt := Z.quot satoshiBigInt (10 ^ 8) in
      let remainder := Z.rem satoshiBigInt (10 ^ 8) in
      if remainder =? 0 then OK (toString bitcoinBigInt)
      else
        let remainderStr := padStart 8 "0" (toString remainder) in
        let decimalPart := strip_trailing_zeros remainderStr in
        if streq decimalPart [] then OK (toString bitcoinBigInt)
        else OK (toString bitcoinBigInt ++ str "." ++ decimalPart)
  end.

Definition bitcoinToSatoshi (bitcoin : jsstring) : result jsstring :=
  let parts := split "." bitcoin in
  let integerPart := hd [] parts in
  let decimalPart := nth 1 parts [] in
  let paddedDecimal := firstn 8 (padEnd 8 "0" decimalPart) in
  match BigInt integerPart with
  | Throw e => Throw e
  | OK i =>
      match BigInt paddedDecimal with
      | Throw e => Throw e
      | OK f => OK (toString (i * 10 ^ 8 + f))
      end
  end.

(* ================================================================= *)
(** ** Response types ([types.ts]) *)

(** [ApiError.details] is [any]: null, the caught error itself, or the
    payload of the upstream response. *)
Inductive Details :=
| details_null
| details_error (e : JSError)
| details_payload (d : jsstring).

Record ApiError := mkApiError {
  code : jsstring;
  message : jsstring;
  details : Details
}.

Record ApiResponse (T : Type) := mkApiResponse {
  success : bool;
  data : option T;
  error : option ApiError;
  timestamp : Z
}.

Module BalanceResponse.
Record t := mk {
  balance : jsstring;
  balanceFormatted : jsstring;
  assetId : jsstring;
  networkId : jsstring;
  timestamp : Z
}.
End BalanceResponse.

Inductive TransactionStatus := status_success | status_pending | status_failed.
Inductive TransactionType := send | receive.

Module Transaction.
(** [timestamp] and [blockNumber] are [None] where the source computes
    with an undefined [block_time] or copies an undefined
    [block_height]. *)
Record t := mk {
  hash : jsstring;
  from : jsstring;
  to : jsstring;
  value : jsstring;
  valueFormatted : jsstring;
  timestamp : option Z;
  blockNumber : option Z;
  gasUsed : jsstring;
  gasPrice : jsstring;
  status : TransactionStatus;
  type : TransactionType
}.
End Transaction.

Module HistoryResponse.
Record t := mk {
  assetId : jsstring;
  networkId : jsstring;
  transactions : list Transaction.t;
  total : Z;
  page : Z;
  limit : Z
}.
End HistoryResponse.

Module TokenMetadataResponse.
Record t := mk {
  name : jsstring;
  symbol : jsstring;
  decimals : Z;
  totalSupply : option jsstring;
  contractAddress : option jsstring;
  assetId : jsstring;
  networkId : jsstring;
  type : AssetType;
  logo : option jsstring
}.
End TokenMetadataResponse.

Module PriceResponse.
Record t (Num : Type) := mk {
  price : Num;
  priceChange24h : Num;
  priceChangePercentage24h : Num;
  marketCap : Num;
  volume24h : Num;
  assetId : jsstring;
  currency : jsstring;
  timestamp : Z
}.
End PriceResponse.

Inductive GasMode := legacy | eip1559.

(** The three envelope shapes the sources build. *)
Definition failure (T : Type) (c m : jsstring) (d : Details) (now : Z)
  : ApiResponse T :=
  {| success := false; data := None;
     error := Some (mkApiError c m d); timestamp := now |}.

Definition succeed (T : Type) (v : T) (now : Z) : ApiResponse T :=
  {| success := true; data := Some v; error := None; timestamp := now |}.

(** Exactly one of [data] and [error] is populated, and [data] is the one
    exactly when [success] holds. *)
Definition well_formed (T : Type) (r : ApiResponse T) : bool :=
  match data r, error r with
  | Some _, None => success r
  | None, Some _ => negb (success r)
  | _, _ => false
  end.

(** [error.message || fallback]. *)
Definition message_or (e : JSError) (fallback : jsstring) : jsstring :=
  match thrown_message e with
  | Some m => if truthy m then m else fallback
  | None => fallback
  end.

(** [error.response?.data]. *)
Definition response_details (e : JSError) : Details :=
  match thrown_response_data e with
  | Some d => details_payload d
  | None => details_null
  end.

(* ================================================================= *)
(** ** Objects used as maps *)

(** An object created by [{}] and filled by [o[k] = v] with object values:
    its own properties, and its prototype when an assignment to the key
    [__proto__] has replaced [Object.prototype] by a value. *)
Record JSObject (T : Type) := mkObject {
  own : list (jsstring * T);
  proto : option T
}.

Definition empty_object (T : Type) : JSObject T :=
  {| own := []; proto := None |}.

(** [o[k] = v] for an object [v]. *)
Definition obj_set (T : Type) (k : jsstring) (v : T) (o : JSObject T)
  : JSObject T :=
  if streq k (str "__proto__") then {| own := own o; proto := Some v |}
  else {| own := (k, v) :: own o; proto := proto o |}.

(** What [o[k]] evaluates to: a record of the map, some other truthy
    value (an inherited function, object or non-empty primitive), or a
    falsy value (undefined, an empty string, zero). *)
Inductive Lookup (T : Type) :=
| found (v : T)
| foreign
| falsy.

Arguments foreign {T}.
Arguments falsy {T}.

(** [o[k]].  [field_truthy v k] is the truthiness of [v]'s own property
    [k], if it has one. *)
Definition obj_get (T : Type) (field_truthy : T -> jsstring -> option bool)
    (k : jsstring) (o : JSObject T) : Lookup T :=
  match own_property k (own o) with
  | Some v => found v
  | None =>
      let from_object_prototype :=
        if is_object_prototype_key k then foreign else falsy in
      match proto o with
      | None => from_object_prototype
      | Some p =>
          if streq k (str "__proto__") then found p
          else match field_truthy p k with
               | Some true => foreign
               | Some false => falsy
               | None => from_object_prototype
               end
      end
  end.

Definition Z_truthy (z : Z) : bool := negb (z =? 0).

Definition BalanceResponse_field (b : BalanceResponse.t) (k : jsstring)
  : option bool :=
  if streq k (str "balance") then Some (truthy (BalanceResponse.balance b))
  else if streq k (str "balanceFormatted") then
    Some (truthy (BalanceResponse.balanceFormatted b))
  else if streq k (str "assetId") then
    Some (truthy (BalanceResponse.assetId b))
  else if streq k (str "networkId") then
    Some (truthy (BalanceResponse.networkId b))
  else if streq k (str "timestamp") then
    Some (Z_truthy (BalanceResponse.timestamp b))
  else None.

(* ================================================================= *)
(** ** The Blockstream responses the Bitcoin provider reads *)

(** Amounts, fees, heights and times are numbers in the responses.  The
    records hold them as integers, and the sums, the differences and the
    [toString] of the provider below are those of the code as long as every
    number it reads or forms is a safe integer, at most [2^53 - 1] in
    magnitude.  Past that the doubles of the code round, and from [10^21]
    they print with an exponent, which [BigInt] rejects.  The properties of
    the provider that speak of amounts or offsets carry the bound as a
    hypothesis. *)

Record TxOut := mkTxOut {
  scriptpubkey_address : option jsstring;
  out_value : Z
}.

Record TxIn := mkTxIn {
  prevout : option TxOut
}.

Record TxStatus := mkTxStatus {
  confirmed : bool;
  block_height : option Z;
  block_time : option Z
}.

Record RawTx := mkRawTx {
  txid : jsstring;
  vin : list TxIn;
  vout : list TxOut;
  fee : option Z;
  tx_status : TxStatus
}.

Record ChainStats := mkChainStats {
  funded_txo_sum : Z;
  spent_txo_sum : Z
}.

(* ================================================================= *)
(** ** Effects: upstream calls, the clock, and the log of provider calls *)

(** A call of a provider method by the service. *)
Inductive Call :=
| bitcoin_getBalance (address : jsstring)
| bitcoin_getHistory (address : jsstring) (page limit : Z)
| alchemy_getBalance (address assetId : jsstring)
| alchemy_getGas (networkId : jsstring) (mode : GasMode)
| alchemy_getHistory (address assetId : jsstring) (page limit : Z)
| alchemy_getNftOwners (contractAddress networkId : jsstring)
                       (tokenId : option jsstring)
| alchemy_getNftsForOwner (owner networkId : jsstring)
                          (contractAddress : option jsstring)
| alchemy_getTokenMetadata (assetId : jsstring)
| alchemy_getNftMetadata (assetId : jsstring)
| coingecko_getPrice (assetId currency : jsstring)
| coingecko_getPriceHistory (assetId : jsstring) (days : Z)
                            (currency : jsstring)
| coingecko_getMultiplePrices (assetIds : list jsstring)
                              (currency : jsstring).

Section Effects.

(** The state of everything outside the process. *)
Variable World : Type.

Record State := mkState {
  world : World;
  calls : list Call
}.

(** A computation reads and changes the state and returns or throws. *)
Definition M (A : Type) : Type := State -> result A * State.

Definition ret (A : Type) (a : A) : M A := fun s => (OK a, s).

Definition throw (A : Type) (e : JSError) : M A := fun s => (Throw e, s).

Definition bind (A B : Type) (m : M A) (k : A -> M B) : M B :=
  fun s =>
    match m s with
    | (OK a, s') => k a s'
    | (Throw e, s') => (Throw e, s')
    end.

(** [try { m } catch (error) { h error }]. *)
Definition try_catch (A : Type) (m : M A) (h : JSError -> M A) : M A :=
  fun s =>
    match m s with
    | (OK a, s') => (OK a, s')
    | (Throw e, s') => h e s'
    end.

Definition lift (A : Type) (r : result A) : M A := fun s => (r, s).

(** An awaited request to the outside. *)
Definition request (A : Type) (f : World -> result A * World) : M A :=
  fun s =>
    let (r, w) := f (world s) in
    (r, {| world := w; calls := calls s |}).

(** Entering a provider method. *)
Definition record_call (c : Call) : M unit :=
  fun s => (OK tt, {| world := world s; calls := calls s ++ [c] |}).

End Effects.

Arguments ret {World A} a.
Arguments throw {World A} e.
Arguments lift {World A} r.
Arguments request {World A} f.
Arguments record_call {World} c.

Declare Scope js_scope.
Delimit Scope js_scope with js.
Notation "x <- m ;; k" := (bind m (fun x => k))
  (at level 61, m at next level, right associativity) : js_scope.
Notation "m ;; k" := (bind m (fun _ => k))
  (at level 61, right associativity) : js_scope.

Local Open Scope js_scope.

(** [xs.map(f)] with a callback that may throw: the first exception ends
    the loop. *)
Fixpoint map_result (A B : Type) (f : A -> result B) (xs : list A)
  : result (list B) :=
  match xs with
  | [] => OK []
  | x :: xs' =>
      match f x with
      | Throw e => Throw e
      | OK y =>
          match map_result f xs' with
          | Throw e => Throw e
          | OK ys => OK (y :: ys)
          end
      end
  end.

(* ================================================================= *)
(** ** The Bitcoin provider ([bitcoin.ts]) *)

(** [input.prevout?.scriptpubkey_address === address]. *)
Definition spends_from (address : jsstring) (input : TxIn) : bool :=
  match prevout input with
  | Some o =>
      match scriptpubkey_address o with
      | Some a => streq a address
      | None => false
      end
  | None => false
  end.

(** [output.scriptpubkey_address === address]. *)
Definition pays_to (address : jsstring) (output : TxOut) : bool :=
  match scriptpubkey_address output with
  | Some a => streq a address
  | None => false
  end.

Definition is_some (A : Type) (o : option A) : bool :=
  match o with Some _ => true | None => false end.

(** [x || ''] for an optional string. *)
Definition or_empty (o : option jsstring) : jsstring :=
  match o with Some s => s | None => [] end.

(** The callback of [response.data.map] in [getHistory]. *)
Definition history_entry (address : jsstring) (tx : RawTx)
  : result Transaction.t :=
  (* Find the relevant input/output for this address *)
  let relevantInput := find (spends_from address) (vin tx) in
  let relevantOutput := find (pays_to address) (vout tx) in
  let isSend := is_some relevantInput && negb (is_some relevantOutput) in
  let isReceive := negb (is_some relevantInput) && is_some relevantOutput in
  let value :=
    if isSend then
      (* Calculate total output value (amount sent) *)
      toString (fold_left (fun sum output => sum + out_value output)
                          (vout tx) 0)
    else if isReceive then
      match relevantOutput with
      | Some o => toString (out_value o)
      | None => str "0"
      end
    else str "0" in
  let type := if isSend then send else if isReceive then receive else send in
  match satoshiToBitcoin value with
  | Throw e => Throw e
  | OK valueFormatted =>
      OK {| Transaction.hash := txid tx;
            Transaction.from :=
              if isSend then address
              else or_empty (match hd_error (vin tx) with
                             | Some i =>
                                 match prevout i with
                                 | Some o => scriptpubkey_address o
                                 | None => None
                                 end
                             | None => None
                             end);
            Transaction.to :=
              if isReceive then address
              else or_empty (match hd_error (vout tx) with
                             | Some o => scriptpubkey_address o
                             | None => None
                             end);
            Transaction.value := value;
            Transaction.valueFormatted := valueFormatted;
            Transaction.timestamp :=
              option_map (fun t => t * 1000) (block_time (tx_status tx));
            Transaction.blockNumber := block_height (tx_status tx);
            Transaction.gasUsed :=
              match fee tx with
              | Some f => toString f
              | None => str "0"
              end;
            Transaction.gasPrice := str "0";
            Transaction.status :=
              if confirmed (tx_status tx) then status_success
              else status_pending;
            Transaction.type := type |}
  end.

(** Everything the two classes reach outside themselves: the clock, the
    Blockstream endpoints the Bitcoin provider reads, floating-point
    numbers, and the methods of the Alchemy and CoinGecko providers, which
    the service only calls and whose envelopes it only forwards.  A request
    may change the world, and returns or throws. *)
Record Upstream := mkUpstream {
  World : Type;
  (** [Date.now()]. *)
  clock : World -> Z;
  (** [this.client.get(`/address/${address}`)], its body read as
      [chain_stats]; a failed request, or a body of another shape, ends in
      the handler and is a [Throw] here. *)
  get_address : jsstring -> World -> result ChainStats * World;
  (** [this.client.get(`/address/${address}/txs`, {params: {offset, limit}})],
      likewise. *)
  get_address_txs :
    jsstring -> Z -> Z -> World -> result (list RawTx) * World;
  (** Numbers that are not integers: prices and portfolio values. *)
  Num : Type;
  num_zero : Num;
  num_nan : Num;
  num_add : Num -> Num -> Num;
  num_mul : Num -> Num -> Num;
  num_truthy : Num -> bool;
  parseFloat : jsstring -> Num;
  (** Payloads the service forwards without reading. *)
  GasPriceResponse : Type;
  NftOwnerResponse : Type;
  NftMetadataResponse : Type;
  Json : Type;
  AlchemyProvider_getBalance :
    jsstring -> jsstring ->
    World -> result (ApiResponse BalanceResponse.t) * World;
  AlchemyProvider_getGas :
    jsstring -> GasMode ->
    World -> result (ApiResponse GasPriceResponse) * World;
  AlchemyProvider_getHistory :
    jsstring -> jsstring -> Z -> Z ->
    World -> result (ApiResponse HistoryResponse.t) * World;
  AlchemyProvider_getNftOwners :
    jsstring -> jsstring -> option jsstring ->
    World -> result (ApiResponse NftOwnerResponse) * World;
  AlchemyProvider_getNftsForOwner :
    jsstring -> jsstring -> option jsstring ->
    World -> result (ApiResponse Json) * World;
  AlchemyProvider_getTokenMetadata :
    jsstring -> World -> result (ApiResponse TokenMetadataResponse.t) * World;
  AlchemyProvider_getNftMetadata :
    jsstring -> World -> result (ApiResponse NftMetadataResponse) * World;
  CoinGeckoProvider_getPrice :
    jsstring -> jsstring ->
    World -> result (ApiResponse (PriceResponse.t Num)) * World;
  CoinGeckoProvider_getPriceHistory :
    jsstring -> Z -> jsstring ->
    World -> result (ApiResponse (list Json)) * World;
  CoinGeckoProvider_getMultiplePrices :
    list jsstring -> jsstring ->
    World -> result (ApiResponse (JSObject (PriceResponse.t Num))) * World
}.

Section BitcoinProvider.

Variable up : Upstream.

(** [Date.now()]: the time is read off the world, which only a request
    changes; two reads with no request between them give one value, where
    the clock of the code may have moved on. *)
Definition Date_now : M (World up) Z :=
  fun s => (OK (clock up (world s)), s).

Definition BitcoinProvider_getBalance (address : jsstring)
  : M (World up) (ApiResponse BalanceResponse.t) :=
  record_call (bitcoin_getBalance address) ;;
  try_catch
    (chain_stats <- request (get_address up address) ;;
     let balance := funded_txo_sum chain_stats - spent_txo_sum chain_stats in
     balanceFormatted <- lift (satoshiToBitcoin (toString balance)) ;;
     t <- Date_now ;;
     let balanceResponse :=
       {| BalanceResponse.balance := toString balance;
          BalanceResponse.balanceFormatted := balanceFormatted;
          BalanceResponse.assetId := str "bitcoin";
          BalanceResponse.networkId := str "bitcoin";
          BalanceResponse.timestamp := t |} in
     now <- Date_now ;;
     ret (succeed balanceResponse now))
    (fun error =>
       now <- Date_now ;;
       ret (failure _ (str "BITCOIN_BALANCE_FETCH_ERROR")
              (message_or error (str "Failed to fetch Bitcoin balance"))
              (response_details error) now)).

Definition BitcoinProvider_getHistory (address : jsstring) (page limit : Z)
  : M (World up) (ApiResponse HistoryResponse.t) :=
  record_call (bitcoin_getHistory address page limit) ;;
  try_catch
    (let offset := (page - 1) * limit in
     response <- request (get_address_txs up address offset limit) ;;
     transactions <- lift (map_result (history_entry address) response) ;;
     let historyResponse :=
       {| HistoryResponse.assetId := str "bitcoin";
          HistoryResponse.networkId := str "bitcoin";
          HistoryResponse.transactions := transactions;
          HistoryResponse.total := Z.of_nat (List.length transactions);
          HistoryResponse.page := page;
          HistoryResponse.limit := limit |} in
     now <- Date_now ;;
     ret (succeed historyResponse now))
    (fun error =>
       now <- Date_now ;;
       ret (failure _ (str "BITCOIN_HISTORY_FETCH_ERROR")
              (message_or error
                 (str "Failed to fetch Bitcoin transaction history"))
              (response_details error) now)).

End BitcoinProvider.

(* ================================================================= *)
(** ** The service ([blockchain.service.ts]) *)

Module PortfolioEntry.
(** An element of [portfolio].  [balance], [price] and [priceChange24h]
    are undefined when they are read off a value that is not a record of
    the map. *)
Record t (Num : Type) := mk {
  assetId : jsstring;
  balance : option jsstring;
  price : option Num;
  value : Num;
  priceChange24h : option Num
}.
End PortfolioEntry.

Module PortfolioSummary.
Record t (Num : Type) := mk {
  totalValue : Num;
  currency : jsstring;
  portfolio : list (PortfolioEntry.t Num);
  timestamp : Z
}.
End PortfolioSummary.

Section BlockchainService.

Variable up : Upstream.

Local Notation "'IO'" := (M (World up)).
Local Notation "'now'" := (Date_now up).

(** The handler every method ends with: the envelope of the caught
    error under the method's code. *)
Definition service_error (T : Type) (c fallback : jsstring)
    (error : JSError) : IO (ApiResponse T) :=
  t <- now ;;
  ret (failure T c (message_or error fallback) (details_error error) t).

(** The envelope built in place for an operation Bitcoin does not have. *)
Definition unsupported (T : Type) (c m : jsstring) : IO (ApiResponse T) :=
  t <- now ;;
  ret (failure T c m details_null t).

(** A parameter with a default value. *)
Definition default (A : Type) (d : A) (o : option A) : A :=
  match o with Some a => a | None => d end.

Definition getBalance (address assetId : jsstring)
  : IO (ApiResponse BalanceResponse.t) :=
  try_catch
    (assetInfo <- lift (parseAssetId assetId) ;;
     if AssetType_eqb (type assetInfo) bitcoin then
       BitcoinProvider_getBalance up address
     else
       record_call (alchemy_getBalance address assetId) ;;
       request (AlchemyProvider_getBalance up address assetId))
    (service_error _ (str "BALANCE_SERVICE_ERROR")
       (str "Failed to get balance")).

Definition getGas (networkId : jsstring) (type : option GasMode)
  : IO (ApiResponse (GasPriceResponse up)) :=
  let type := default eip1559 type in
  try_catch
    (if streq networkId (str "bitcoin") then
       unsupported _ (str "UNSUPPORTED_NETWORK")
         (str "Gas price not applicable for Bitcoin")
     else
       record_call (alchemy_getGas networkId type) ;;
       request (AlchemyProvider_getGas up networkId type))
    (service_error _ (str "GAS_SERVICE_ERROR")
       (str "Failed to get gas price")).

Definition getPrice (assetId : jsstring) (currency : option jsstring)
  : IO (ApiResponse (PriceResponse.t (Num up))) :=
  let currency := default (str "usd") currency in
  try_catch
    (record_call (coingecko_getPrice assetId currency) ;;
     request (CoinGeckoProvider_getPrice up assetId currency))
    (service_error _ (str "PRICE_SERVICE_ERROR")
       (str "Failed to get price")).

Definition getPriceHistory (assetId : jsstring) (days : option Z)
    (currency : option jsstring) : IO (ApiResponse (list (Json up))) :=
  let days := default 7 days in
  let currency := default (str "usd") currency in
  try_catch
    (record_call (coingecko_getPriceHistory assetId days currency) ;;
     request (CoinGeckoProvider_getPriceHistory up assetId days currency))
    (service_error _ (str "PRICE_HISTORY_SERVICE_ERROR")
       (str "Failed to get price history")).

Definition getHistory (address assetId : jsstring) (page limit : option Z)
  : IO (ApiResponse HistoryResponse.t) :=
  let page := default 1 page in
  let limit := default 50 limit in
  try_catch
    (assetInfo <- lift (parseAssetId assetId) ;;
     if AssetType_eqb (type assetInfo) bitcoin then
       BitcoinProvider_getHistory up address page limit
     else
       record_call (alchemy_getHistory address assetId page limit) ;;
       request (AlchemyProvider_getHistory up address assetId page limit))
    (service_error _ (str "HISTORY_SERVICE_ERROR")
       (str "Failed to get transaction history")).

Definition getNftOwners (contractAddress networkId : jsstring)
    (tokenId : option jsstring) : IO (ApiResponse (NftOwnerResponse up)) :=
  try_catch
    (if streq networkId (str "bitcoin") then
       unsupported _ (str "UNSUPPORTED_NETWORK")
         (str "NFTs not supported on Bitcoin")
     else
       record_call (alchemy_getNftOwners contractAddress networkId tokenId) ;;
       request
         (AlchemyProvider_getNftOwners up contractAddress networkId tokenId))
    (service_error _ (str "NFT_OWNERS_SERVICE_ERROR")
       (str "Failed to get NFT owners")).

Definition getNftsForOwner (owner networkId : jsstring)
    (contractAddress : option jsstring) : IO (ApiResponse (Json up)) :=
  try_catch
    (if streq networkId (str "bitcoin") then
       unsupported _ (str "UNSUPPORTED_NETWORK")
         (str "NFTs not supported on Bitcoin")
     else
       record_call (alchemy_getNftsForOwner owner networkId contractAddress) ;;
       request
         (AlchemyProvider_getNftsForOwner up owner networkId contractAddress))
    (service_error _ (str "NFTS_FOR_OWNER_SERVICE_ERROR")
       (str "Failed to fetch NFTs for owner")).

Definition getTokenMetadata (assetId : jsstring)
  : IO (ApiResponse TokenMetadataResponse.t) :=
  try_catch
    (assetInfo <- lift (parseAssetId assetId) ;;
     if AssetType_eqb (type assetInfo) bitcoin then
       let metadata :=
         {| TokenMetadataResponse.name := str "Bitcoin";
            TokenMetadataResponse.symbol := str "BTC";
            TokenMetadataResponse.decimals := 8;
            TokenMetadataResponse.totalSupply := None;
            TokenMetadataResponse.contractAddress := None;
            TokenMetadataResponse.assetId := str "bitcoin";
            TokenMetadataResponse.networkId := str "bitcoin";
            TokenMetadataResponse.type := native;
            TokenMetadataResponse.logo := None |} in
       t <- now ;;
       ret (succeed metadata t)
     else
       record_call (alchemy_getTokenMetadata assetId) ;;
       request (AlchemyProvider_getTokenMetadata up assetId))
    (service_error _ (str "TOKEN_METADATA_SERVICE_ERROR")
       (str "Failed to get token metadata")).

Definition getNftMetadata (assetId : jsstring)
  : IO (ApiResponse (NftMetadataResponse up)) :=
  try_catch
    (assetInfo <- lift (parseAssetId assetId) ;;
     if AssetType_eqb (type assetInfo) bitcoin then
       unsupported _ (str "UNSUPPORTED_ASSET_TYPE")
         (str "NFTs not supported on Bitcoin")
     else
       record_call (alchemy_getNftMetadata assetId) ;;
       request (AlchemyProvider_getNftMetadata up assetId))
    (service_error _ (str "NFT_METADATA_SERVICE_ERROR")
       (str "Failed to get NFT metadata")).

(** The callback of [assetIds.map] in [getMultipleBalances]: it keeps
    the balance of a successful envelope and drops any other. *)
Definition collect_balance (address : jsstring)
    (results : JSObject BalanceResponse.t) (assetId : jsstring)
  : IO (JSObject BalanceResponse.t) :=
  result <- getBalance address assetId ;;
  match success result, data result with
  | true, Some d => ret (obj_set assetId d results)
  | _, _ => ret results
  end.

(** [await Promise.all(assetIds.map(...))].  The callbacks start in the
    order of the list and each awaits one [getBalance]; they are run to
    completion here in that order. *)
Fixpoint collect_balances (address : jsstring)
    (results : JSObject BalanceResponse.t) (assetIds : list jsstring)
  : IO (JSObject BalanceResponse.t) :=
  match assetIds with
  | [] => ret results
  | assetId :: rest =>
      results' <- collect_balance address results assetId ;;
      collect_balances address results' rest
  end.

Definition getMultipleBalances (address : jsstring)
    (assetIds : list jsstring)
  : IO (ApiResponse (JSObject BalanceResponse.t)) :=
  try_catch
    (results <- collect_balances address (empty_object _) assetIds ;;
     t <- now ;;
     ret (succeed results t))
    (service_error _ (str "MULTIPLE_BALANCES_SERVICE_ERROR")
       (str "Failed to get multiple balances")).

Definition getMultiplePrices (assetIds : list jsstring)
    (currency : option jsstring)
  : IO (ApiResponse (JSObject (PriceResponse.t (Num up)))) :=
  let currency := default (str "usd") currency in
  try_catch
    (record_call (coingecko_getMultiplePrices assetIds currency) ;;
     request (CoinGeckoProvider_getMultiplePrices up assetIds currency))
    (service_error _ (str "MULTIPLE_PRICES_SERVICE_ERROR")
       (str "Failed to get multiple prices")).

Definition PriceResponse_field (p : PriceResponse.t (Num up))
    (k : jsstring) : option bool :=
  if streq k (str "price") then
    Some (num_truthy up (PriceResponse.price p))
  else if streq k (str "priceChange24h") then
    Some (num_truthy up (PriceResponse.priceChange24h p))
  else if streq k (str "priceChangePercentage24h") then
    Some (num_truthy up (PriceResponse.priceChangePercentage24h p))
  else if streq k (str "marketCap") then
    Some (num_truthy up (PriceResponse.marketCap p))
  else if streq k (str "volume24h") then
    Some (num_truthy up (PriceResponse.volume24h p))
  else if streq k (str "assetId") then
    Some (truthy (PriceResponse.assetId p))
  else if streq k (str "currency") then
    Some (truthy (PriceResponse.currency p))
  else if streq k (str "timestamp") then
    Some (Z_truthy (PriceResponse.timestamp p))
  else None.

(** [balance.balanceFormatted], [price.price] and
    [price.priceChangePercentage24h] of a truthy value. *)
Definition field_of (T A : Type) (f : T -> A) (v : Lookup T) : option A :=
  match v with found r => Some (f r) | _ => None end.

(** [parseFloat(s)] of a possibly undefined [s]. *)
Definition parseFloat_opt (s : option jsstring) : Num up :=
  match s with Some s' => parseFloat up s' | None => num_nan up end.

(** [x * y] with a possibly undefined [y]. *)
Definition times (x : Num up) (y : option (Num up)) : Num up :=
  match y with Some y' => num_mul up x y' | None => num_nan up end.

Definition is_truthy (T : Type) (v : Lookup T) : bool :=
  match v with falsy => false | _ => true end.

(** One turn of the loop over [assetIds] in [getPortfolioSummary].
    [prices] is [pricesResult.data!]: reading a property of undefined
    throws. *)
Definition portfolio_step
    (balances : JSObject BalanceResponse.t)
    (prices : option (JSObject (PriceResponse.t (Num up))))
    (acc : Num up * list (PortfolioEntry.t (Num up)))
    (assetId : jsstring)
  : result (Num up * list (PortfolioEntry.t (Num up))) :=
  let balance := obj_get BalanceResponse_field assetId balances in
  match prices with
  | None =>
      Throw (new_Error
               (str "Cannot read properties of undefined (reading '"
                  ++ assetId ++ str "')"))
  | Some prices =>
      let price := obj_get PriceResponse_field assetId prices in
      if is_truthy balance && is_truthy price then
        let balanceFormatted :=
          field_of BalanceResponse.balanceFormatted balance in
        let value :=
          times (parseFloat_opt balanceFormatted)
                (field_of (@PriceResponse.price _) price) in
        OK (num_add up (fst acc) value,
            snd acc ++
            [ {| PortfolioEntry.assetId := assetId;
                 PortfolioEntry.balance := balanceFormatted;
                 PortfolioEntry.price :=
                   field_of (@PriceResponse.price _) price;
                 PortfolioEntry.value := value;
                 PortfolioEntry.priceChange24h :=
                   field_of (@PriceResponse.priceChangePercentage24h _)
                            price |} ])
      else OK acc
  end.

Fixpoint portfolio_loop
    (balances : JSObject BalanceResponse.t)
    (prices : option (JSObject (PriceResponse.t (Num up))))
    (acc : Num up * list (PortfolioEntry.t (Num up)))
    (assetIds : list jsstring)
  : result (Num up * list (PortfolioEntry.t (Num up))) :=
  match assetIds with
  | [] => OK acc
  | assetId :: rest =>
      match portfolio_step balances prices acc assetId with
      | Throw e => Throw e
      | OK acc' => portfolio_loop balances prices acc' rest
      end
  end.

Definition getPortfolioSummary (address : jsstring)
    (assetIds : list jsstring) (currency : option jsstring)
  : IO (ApiResponse (PortfolioSummary.t (Num up))) :=
  let currency := default (str "usd") currency in
  try_catch
    (balancesResult <- getMultipleBalances address assetIds ;;
     pricesResult <- getMultiplePrices assetIds (Some currency) ;;
     if negb (success balancesResult) || negb (success pricesResult) then
       throw (new_Error (str "Failed to fetch portfolio data"))
     else
       match data balancesResult with
       | None =>
           (* [balances[assetId]] on undefined; [getMultipleBalances]
              never succeeds without data *)
           match assetIds with
           | [] =>
               t1 <- now ;;
               t2 <- now ;;
               ret (succeed
                      {| PortfolioSummary.totalValue := num_zero up;
                         PortfolioSummary.currency := currency;
                         PortfolioSummary.portfolio := [];
                         PortfolioSummary.timestamp := t1 |} t2)
           | assetId :: _ =>
               throw (new_Error
                        (str "Cannot read properties of undefined (reading '"
                           ++ assetId ++ str "')"))
           end
       | Some balances =>
           acc <- lift (portfolio_loop balances (data pricesResult)
                          (num_zero up, []) assetIds) ;;
           t1 <- now ;;
           t2 <- now ;;
           ret (succeed
                  {| PortfolioSummary.totalValue := fst acc;
                     PortfolioSummary.currency := currency;
                     PortfolioSummary.portfolio := snd acc;
                     PortfolioSummary.timestamp := t1 |} t2)
       end)
    (service_error _ (str "PORTFOLIO_SUMMARY_SERVICE_ERROR")
       (str "Failed to get portfolio summary")).

End BlockchainService.

(* ================================================================= *)
(** ** Vocabulary of the properties *)

(** The parts of a CAIP identifier as [parseCAIPAssetId] cuts them. *)
Definition chain_namespace (assetId : jsstring) : jsstring :=
  hd [] (split ":" (hd [] (split "/" assetId))).

Definition asset_namespace (assetId : jsstring) : jsstring :=
  hd [] (split ":" (nth 1 (split "/" assetId) [])).

(** The asset namespaces [parseCAIPAssetId] has a branch for. *)
Definition supported_asset_namespace (ns : jsstring) : bool :=
  streq ns (str "slip44") || streq ns (str "erc20")
  || streq ns (str "erc721") || streq ns (str "erc1155").

(** [weiToEther] and [satoshiToBitcoin] are the same text but for the
    exponent, 18 or 8, and so are [etherToWei] and [bitcoinToSatoshi]:
    the two texts, with the exponent for a parameter. *)
Definition base_to_human (decimals : nat) (amount : jsstring)
  : result jsstring :=
  match BigInt amount with
  | Throw e => Throw e
  | OK amountBigInt =>
      let unit := 10 ^ Z.of_nat decimals in
      let whole := Z.quot amountBigInt unit in
      let remainder := Z.rem amountBigInt unit in
      if remainder =? 0 then OK (toString whole)
      else
        let remainderStr := padStart decimals "0" (toString remainder) in
        let decimalPart := strip_trailing_zeros remainderStr in
        if streq decimalPart [] then OK (toString whole)
        else OK (toString whole ++ str "." ++ decimalPart)
  end.

Definition human_to_base (decimals : nat) (amount : jsstring)
  : result jsstring :=
  let parts := split "." amount in
  let integerPart := hd [] parts in
  let decimalPart := nth 1 parts [] in
  let paddedDecimal := firstn decimals (padEnd decimals "0" decimalPart) in
  match BigInt integerPart with
  | Throw e => Throw e
  | OK i =>
      match BigInt paddedDecimal with
      | Throw e => Throw e
      | OK f => OK (toString (i * 10 ^ Z.of_nat decimals + f))
      end
  end.

(** The decimal digits. *)
Definition is_decimal (c : ascii) : bool :=
  existsb (Ascii.eqb c) ["0"; "1"; "2"; "3"; "4"; "5"; "6"; "7"; "8"; "9"]%char.

(** The text after the first decimal point, if there is one. *)
Definition fraction (amount : jsstring) : option jsstring :=
  match split "." amount with
  | _ :: f :: _ => Some f
  | _ => None
  end.

Definition ends_with_zero (s : jsstring) : bool :=
  match rev s with
  | c :: _ => Ascii.eqb c "0"
  | [] => false
  end.

(** The segments of a legacy identifier. *)
Definition segments (assetId : jsstring) : list jsstring :=
  split ":" assetId.


(** The address owns an output some input of the transaction spends. *)
Definition appears_in_inputs (address : jsstring) (tx : RawTx) : Prop :=
  exists i o, In i (vin tx) /\ prevout i = Some o
              /\ scriptpubkey_address o = Some address.

(** The address owns an output of the transaction. *)
Definition appears_in_outputs (address : jsstring) (tx : RawTx) : Prop :=
  exists o, In o (vout tx) /\ scriptpubkey_address o = Some address.

(** The sum of all output values. *)
Definition total_output (tx : RawTx) : Z :=
  fold_right Z.add 0 (map out_value (vout tx)).

(** [Number.MAX_SAFE_INTEGER], and the integers a double holds exactly
    together with their neighbours. *)
Definition MAX_SAFE_INTEGER : Z := 2 ^ 53 - 1.

Definition safe_integer (z : Z) : Prop :=
  - MAX_SAFE_INTEGER <= z <= MAX_SAFE_INTEGER.

(** The outputs of a transaction are amounts, none below zero, and they
    add up to a safe integer: every sum the provider forms of them is then
    exact. *)
Definition safe_outputs (tx : RawTx) : Prop :=
  (forall o, In o (vout tx) -> 0 <= out_value o)
  /\ total_output tx <= MAX_SAFE_INTEGER.

(** The page, the limit and the offset the provider computes of them are
    safe integers. *)
Definition safe_page (page limit : Z) : Prop :=
  safe_integer page /\ safe_integer limit
  /\ safe_integer ((page - 1) * limit).

(** The two sums of an address and their difference are safe integers. *)
Definition safe_stats (stats : ChainStats) : Prop :=
  safe_integer (funded_txo_sum stats)
  /\ safe_integer (spent_txo_sum stats)
  /\ safe_integer (funded_txo_sum stats - spent_txo_sum stats).

(** The classification the specification gives of a history entry: sent
    with the total of the outputs when the address is among the inputs
    only; received with the value of its output, the first if it has
    several, when it is among the outputs only; sent with the value [0]
    when it is among both or neither. *)
Definition classified (address : jsstring) (tx : RawTx) (t : Transaction.t)
  : Prop :=
  (appears_in_inputs address tx /\ ~ appears_in_outputs address tx ->
   Transaction.type t = send
   /\ Transaction.value t = toString (total_output tx))
  /\ (~ appears_in_inputs address tx /\ appears_in_outputs address tx ->
      Transaction.type t = receive
      /\ exists o, find (pays_to address) (vout tx) = Some o
                   /\ In o (vout tx)
                   /\ scriptpubkey_address o = Some address
                   /\ Transaction.value t = toString (out_value o))
  /\ ((appears_in_inputs address tx /\ appears_in_outputs address tx)
      \/ (~ appears_in_inputs address tx /\ ~ appears_in_outputs address tx) ->
      Transaction.type t = send /\ Transaction.value t = str "0").

(** Every envelope the Alchemy and CoinGecko providers return is well
    formed. *)
Definition providers_well_formed (up : Upstream) : Prop :=
  (forall a i w r w',
      AlchemyProvider_getBalance up a i w = (OK r, w') ->
      well_formed r = true)
  /\ (forall n m w r w',
         AlchemyProvider_getGas up n m w = (OK r, w') -> well_formed r = true)
  /\ (forall a i p l w r w',
         AlchemyProvider_getHistory up a i p l w = (OK r, w') ->
         well_formed r = true)
  /\ (forall c n t w r w',
         AlchemyProvider_getNftOwners up c n t w = (OK r, w') ->
         well_formed r = true)
  /\ (forall o n c w r w',
         AlchemyProvider_getNftsForOwner up o n c w = (OK r, w') ->
         well_formed r = true)
  /\ (forall i w r w',
         AlchemyProvider_getTokenMetadata up i w = (OK r, w') ->
         well_formed r = true)
  /\ (forall i w r w',
         AlchemyProvider_getNftMetadata up i w = (OK r, w') ->
         well_formed r = true)
  /\ (forall i c w r w',
         CoinGeckoProvider_getPrice up i c w = (OK r, w') ->
         well_formed r = true)
  /\ (forall i d c w r w',
         CoinGeckoProvider_getPriceHistory up i d c w = (OK r, w') ->
         well_formed r = true)
  /\ (forall l c w r w',
         CoinGeckoProvider_getMultiplePrices up l c w = (OK r, w') ->
         well_formed r = true).

(** An operation returns an envelope from every state, and a well-formed
    one when the providers' envelopes are. *)
Definition enveloped (up : Upstream) (T : Type)
    (operation : M (World up) (ApiResponse T)) : Prop :=
  forall s, exists r,
    fst (operation s) = OK r
    /\ (providers_well_formed up -> well_formed r = true).

(** The body of a [try] block either throws or returns an envelope that
    is well formed when the providers' envelopes are. *)
Definition guarded (up : Upstream) (T : Type)
    (body : M (World up) (ApiResponse T)) : Prop :=
  forall s,
    match fst (body s) with
    | OK r => providers_well_formed up -> well_formed r = true
    | Throw _ => True
    end.

(** The outcome is a failure envelope with the given error code. *)
Definition failure_with_code (T : Type) (c : jsstring)
    (outcome : result (ApiResponse T)) : Prop :=
  exists m d t, outcome = OK (failure T c m d t).

(** The sub-calls of [getMultipleBalances] in the run from a state: for
    each asset of the list, in order, what [getBalance] returns from the
    state the sub-call before it has left. *)
Fixpoint sub_calls (up : Upstream) (address : jsstring)
    (assetIds : list jsstring) (s : State (World up))
  : list (jsstring * result (ApiResponse BalanceResponse.t)) :=
  match assetIds with
  | [] => []
  | assetId :: rest =>
      (assetId, fst (getBalance up address assetId s))
      :: sub_calls up address rest (snd (getBalance up address assetId s))
  end.

(** What a sub-call has for the data of [getMultipleBalances]: the data
    of a success envelope, and nothing otherwise. *)
Definition kept (T : Type) (outcome : result (ApiResponse T)) : option T :=
  match outcome with
  | OK r => if success r then data r else None
  | Throw _ => None
  end.

(* ================================================================= *)
(** ** An upstream to run the examples on *)

Definition sample_transactions : list RawTx :=
  let out a v := mkTxOut (Some (str a)) v in
  let status := mkTxStatus true (Some 800000) (Some 1700000000) in
  [ (* spent by A, paid to B and C *)
    mkRawTx (str "t1") [mkTxIn (Some (out "A" 500))]
            [out "B" 300; out "C" 150] (Some 50) status;
    (* spent by B, paid to A, change to B *)
    mkRawTx (str "t2") [mkTxIn (Some (out "B" 700))]
            [out "A" 600; out "B" 50] (Some 50) status;
    (* spent by A, paid to B, change to A *)
    mkRawTx (str "t3") [mkTxIn (Some (out "A" 500))]
            [out "B" 100; out "A" 380] (Some 20) status ]%string.

Definition sample_price (assetId currency : jsstring) (t : Z)
  : PriceResponse.t Z :=
  {| PriceResponse.price := 2;
     PriceResponse.priceChange24h := 0;
     PriceResponse.priceChangePercentage24h := 0;
     PriceResponse.marketCap := 0;
     PriceResponse.volume24h := 0;
     PriceResponse.assetId := assetId;
     PriceResponse.currency := currency;
     PriceResponse.timestamp := t |}.

(** The world is the number of requests made so far, which the clock
    shows.  Blockstream knows one address history; the Alchemy provider has
    a balance for [ethereum] alone and no API key for the rest; CoinGecko
    prices everything at 2.  Numbers are whole, with 0 for NaN. *)
Definition sample_upstream : Upstream :=
  {| World := nat;
     clock := Z.of_nat;
     get_address := fun _ w => (OK (mkChainStats 150000000 50000000), S w);
     get_address_txs := fun _ _ _ w => (OK sample_transactions, S w);
     Num := Z;
     num_zero := 0;
     num_nan := 0;
     num_add := Z.add;
     num_mul := Z.mul;
     num_truthy := Z_truthy;
     parseFloat := fun s => match StringToBigInt s with
                            | Some z => z
                            | None => 0
                            end;
     GasPriceResponse := unit;
     NftOwnerResponse := unit;
     NftMetadataResponse := unit;
     Json := unit;
     AlchemyProvider_getBalance := fun _ assetId w =>
       (OK (if streq assetId (str "ethereum") then
              succeed {| BalanceResponse.balance := str "3000000000000000000";
                         BalanceResponse.balanceFormatted := str "3";
                         BalanceResponse.assetId := assetId;
                         BalanceResponse.networkId := str "ethereum";
                         BalanceResponse.timestamp := Z.of_nat w |}
                      (Z.of_nat w)
            else
              failure _ (str "BALANCE_FETCH_ERROR")
                (str "Unsupported network: " ++ assetId) details_null
                (Z.of_nat w)),
        S w);
     AlchemyProvider_getGas := fun _ _ w =>
       (OK (failure _ (str "MISSING_API_KEY") (str "no key") details_null
              (Z.of_nat w)), w);
     AlchemyProvider_getHistory := fun _ _ _ _ w =>
       (OK (failure _ (str "HISTORY_FETCH_ERROR") (str "no key") details_null
              (Z.of_nat w)), w);
     AlchemyProvider_getNftOwners := fun _ _ _ w =>
       (OK (failure _ (str "NFT_OWNERS_FETCH_ERROR") (str "no key")
              details_null (Z.of_nat w)), w);
     AlchemyProvider_getNftsForOwner := fun _ _ _ w =>
       (OK (failure _ (str "NFTS_FOR_OWNER_FETCH_ERROR") (str "no key")
              details_null (Z.of_nat w)), w);
     AlchemyProvider_getTokenMetadata := fun _ w =>
       (OK (failure _ (str "TOKEN_METADATA_FETCH_ERROR") (str "no key")
              details_null (Z.of_nat w)), w);
     AlchemyProvider_getNftMetadata := fun _ w =>
       (OK (failure _ (str "NFT_METADATA_FETCH_ERROR") (str "no key")
              details_null (Z.of_nat w)), w);
     CoinGeckoProvider_getPrice := fun assetId currency w =>
       (OK (succeed (sample_price assetId currency (Z.of_nat w))
              (Z.of_nat w)), S w);
     CoinGeckoProvider_getPriceHistory := fun _ _ _ w =>
       (OK (succeed [] (Z.of_nat w)), S w);
     CoinGeckoProvider_getMultiplePrices := fun assetIds currency w =>
       (OK (succeed
              (fold_left
                 (fun o i => obj_set i (sample_price i currency (Z.of_nat w)) o)
                 assetIds (empty_object _))
              (Z.of_nat w)), S w) |}.

Definition sample_state : State (World sample_upstream) :=
  {| world := 0%nat; calls := [] |}.

(* ================================================================= *)
(** ** The network registry ([networks.ts]) *)

Module NativeCurrency.
Record t := mk {
  name : jsstring;
  symbol : jsstring;
  decimals : Z
}.
End NativeCurrency.

Module Network.
Record t := mk {
  id : jsstring;
  name : jsstring;
  chainId : Z;
  rpcUrl : jsstring;
  explorerUrl : jsstring;
  nativeCurrency : NativeCurrency.t;
  isTestnet : bool
}.
End Network.

(** The own properties of [NETWORKS]. *)
Definition NETWORKS : list (jsstring * Network.t) :=
  let entry k n c rpc explorer cn cs cd :=
    (str k,
     Network.mk (str k) (str n) c (str rpc) (str explorer)
       (NativeCurrency.mk (str cn) (str cs) cd) false) in
  [ entry "ethereum" "Ethereum" 1 "https://eth-mainnet.g.alchemy.com/v2"
      "https://etherscan.io" "Ethereum" "ETH" 18;
    entry "polygon" "Polygon" 137 "https://polygon-mainnet.g.alchemy.com/v2"
      "https://polygonscan.com" "Polygon" "MATIC" 18;
    entry "arbitrum" "Arbitrum One" 42161
      "https://arb-mainnet.g.alchemy.com/v2" "https://arbiscan.io"
      "Ethereum" "ETH" 18;
    entry "optimism" "Optimism" 10 "https://opt-mainnet.g.alchemy.com/v2"
      "https://optimistic.etherscan.io" "Ethereum" "ETH" 18;
    entry "base" "Base" 8453 "https://base-mainnet.g.alchemy.com/v2"
      "https://basescan.org" "Ethereum" "ETH" 18;
    entry "bitcoin" "Bitcoin" 0 "https://blockstream.info/api"
      "https://blockstream.info" "Bitcoin" "BTC" 8 ]%string.

Definition COINGECKO_COIN_IDS : list (jsstring * jsstring) :=
  [ (str "ethereum", str "ethereum"); (str "polygon", str "matic-network");
    (str "arbitrum", str "arbitrum"); (str "optimism", str "optimism");
    (str "base", str "base"); (str "bitcoin", str "bitcoin") ].

Definition ALCHEMY_NETWORKS : list (jsstring * jsstring) :=
  [ (str "ethereum", str "eth-mainnet"); (str "polygon", str "polygon-mainnet");
    (str "arbitrum", str "arb-mainnet"); (str "optimism", str "opt-mainnet");
    (str "base", str "base-mainnet") ].

(** [table[k]] on an object literal: an own property, else a member
    inherited from [Object.prototype], else undefined. *)
Definition table_get (T : Type) (k : jsstring) (table : list (jsstring * T))
  : Lookup T :=
  obj_get (fun _ _ => None) k {| own := table; proto := None |}.

(* ================================================================= *)
(** ** Address validation ([parser.ts]) *)

Definition in_range (lo hi : N) (c : ascii) : bool :=
  (lo <=? N_of_ascii c)%N && (N_of_ascii c <=? hi)%N.

(** [[a-fA-F0-9]]. *)
Definition is_hex_digit (c : ascii) : bool :=
  in_range 97 102 c || in_range 65 70 c || in_range 48 57 c.

(** [/^0x[a-fA-F0-9]{40}$/.test(address)]. *)
Definition isValidEthereumAddress (address : jsstring) : bool :=
  match address with
  | zero :: x :: digits =>
      Ascii.eqb zero "0" && Ascii.eqb x "x"
      && Nat.eqb (List.length digits) 40 && forallb is_hex_digit digits
  | _ => false
  end.

(** [[a-km-zA-HJ-NP-Z1-9]]. *)
Definition is_base58_digit (c : ascii) : bool :=
  in_range 97 107 c || in_range 109 122 c || in_range 65 72 c
  || in_range 74 78 c || in_range 80 90 c || in_range 49 57 c.

(** [[a-z0-9]]. *)
Definition is_bech32_digit (c : ascii) : bool :=
  in_range 97 122 c || in_range 48 57 c.

Definition length_between (lo hi : nat) (s : jsstring) : bool :=
  Nat.leb lo (List.length s) && Nat.leb (List.length s) hi.

(** [/^[13][a-km-zA-HJ-NP-Z1-9]{25,34}$|^bc1[a-z0-9]{39,59}$/.test(address)]. *)
Definition isValidBitcoinAddress (address : jsstring) : bool :=
  match address with
  | first :: rest =>
      (Ascii.eqb first "1" || Ascii.eqb first "3")
      && length_between 25 34 rest && forallb is_base58_digit rest
  | [] => false
  end
  || match address with
     | b :: c :: one :: rest =>
         Ascii.eqb b "b" && Ascii.eqb c "c" && Ascii.eqb one "1"
         && length_between 39 59 rest && forallb is_bech32_digit rest
     | _ => false
     end.

(** [toLowerCase] of one code unit below 256: the letters A to Z, and
    the capital letters of Latin-1 (all of C0 to DE but the multiplication
    sign D7). *)
Definition lower_unit (c : ascii) : ascii :=
  if in_range 65 90 c || in_range 192 214 c || in_range 216 222 c
  then ascii_of_N (N_of_ascii c + 32)
  else c.

Definition toLowerCase (s : jsstring) : jsstring := map lower_unit s.

Definition toChecksumAddress (address : jsstring) : result jsstring :=
  if negb (isValidEthereumAddress address) then
    Throw (new_Error (str "Invalid Ethereum address"))
  else
    (* Simple checksum implementation *)
    OK (toLowerCase address).

(* ================================================================= *)
(** ** Coin identifiers of the price provider ([coingecko.ts]) *)

(** A string, or a member inherited from [Object.prototype] that a
    lookup found under the key. *)
Inductive CoinId :=
| coin (text : jsstring)
| inherited_coin (key : jsstring).

(** [table[k] || fallback] for a table of strings. *)
Definition coin_or (k : jsstring) (table : list (jsstring * jsstring))
    (fallback : jsstring) : CoinId :=
  match table_get k table with
  | found v => if truthy v then coin v else coin fallback
  | foreign => inherited_coin k
  | falsy => coin fallback
  end.

(** The [chainIdMap] of [getCoinGeckoId]. *)
Definition coin_chainIdMap : list (jsstring * jsstring) :=
  [ (str "1", str "ethereum"); (str "137", str "matic-network");
    (str "42161", str "arbitrum"); (str "10", str "optimism");
    (str "8453", str "base") ].

(** The statements of [getCoinGeckoId] after the CAIP block. *)
Definition coin_id_legacy (assetId : jsstring) : CoinId :=
  (* Handle Bitcoin *)
  if streq assetId (str "bitcoin") then coin (str "bitcoin")
  else
    (* Handle native coins *)
    match table_get assetId COINGECKO_COIN_IDS with
    | found v => coin v
    | foreign => inherited_coin assetId
    | falsy =>
        (* Handle contract addresses (for tokens) *)
        if includes ":" assetId then
          let networkId := hd [] (split ":" assetId) in
          coin_or networkId COINGECKO_COIN_IDS networkId
        else coin assetId
    end.

Definition getCoinGeckoId (assetId : jsstring) : result CoinId :=
  (* Handle CAIP format *)
  if includes "/" assetId then
    match split "/" assetId with
    | chainPart :: assetPart :: _ =>
        let chainParts := split ":" chainPart in
        let chainNamespace := hd [] chainParts in
        let chainReference := nth_error chainParts 1 in
        let assetNamespace := hd [] (split ":" assetPart) in
        if streq chainNamespace (str "bip122") then OK (coin (str "bitcoin"))
        else if streq chainNamespace (str "eip155")
                && streq assetNamespace (str "slip44") then
          OK (coin_or (show_opt chainReference) coin_chainIdMap
                (str "ethereum"))
        else OK (coin_id_legacy assetId)
    | _ =>
        Throw (new_Error
                 (str "Cannot read properties of undefined (reading 'split')"))
    end
  else OK (coin_id_legacy assetId).

(* ================================================================= *)
(** ** The other requests of the Bitcoin provider ([bitcoin.ts]) *)

Module NetworkStats.
(** The data of [getNetworkStats]; [blockInfo] is the [data] of the
    envelope [getBlock] returns, absent when that is a failure. *)
Record t (Json : Type) := mk {
  currentHeight : Json;
  blockHash : Json;
  blockInfo : option Json
}.
End NetworkStats.

Section BitcoinQueries.

Variable up : Upstream.

(** [this.client.get(path)] read as its body, which these methods forward
    without looking into it. *)
Variable client_get : jsstring -> World up -> result (Json up) * World up.

(** A body in the hole of a template literal. *)
Variable template : Json up -> jsstring.

Local Notation "'IO'" := (M (World up)).

(** The handler of the methods: the envelope of the caught error under
    the method's code. *)
Definition fetch_error (T : Type) (c fallback : jsstring) (error : JSError)
  : IO (ApiResponse T) :=
  now <- Date_now up ;;
  ret (failure T c (message_or error fallback) (response_details error) now).

Definition BitcoinProvider_getTransaction (txHash : jsstring)
  : IO (ApiResponse (Json up)) :=
  try_catch
    (response <- request (client_get (str "/tx/" ++ txHash)) ;;
     now <- Date_now up ;;
     ret (succeed response now))
    (fetch_error _ (str "BITCOIN_TX_FETCH_ERROR")
       (str "Failed to fetch Bitcoin transaction")).

Definition BitcoinProvider_getBlock (blockHash : jsstring)
  : IO (ApiResponse (Json up)) :=
  try_catch
    (response <- request (client_get (str "/block/" ++ blockHash)) ;;
     now <- Date_now up ;;
     ret (succeed response now))
    (fetch_error _ (str "BITCOIN_BLOCK_FETCH_ERROR")
       (str "Failed to fetch Bitcoin block")).

(** The path of the second request of [getNetworkStats]; its template
    literal runs over a line break. *)
Definition block_height_path (currentHeight : Json up) : jsstring :=
  str "/block" ++ ["010"%char] ++ str "height/" ++ template currentHeight.

(** [getBlock] is handed the body of the second response, which it puts
    into its own template literal. *)
Definition BitcoinProvider_getNetworkStats
  : IO (ApiResponse (NetworkStats.t (Json up))) :=
  try_catch
    (currentHeight <- request (client_get (str "/blocks/tip/height")) ;;
     (* Get block info *)
     blockHash <- request (client_get (block_height_path currentHeight)) ;;
     blockInfo <- BitcoinProvider_getBlock (template blockHash) ;;
     now <- Date_now up ;;
     ret (succeed
            {| NetworkStats.currentHeight := currentHeight;
               NetworkStats.blockHash := blockHash;
               NetworkStats.blockInfo := data blockInfo |} now))
    (fetch_error _ (str "BITCOIN_NETWORK_STATS_ERROR")
       (str "Failed to fetch Bitcoin network stats")).

Definition BitcoinProvider_getAddressInfo (address : jsstring)
  : IO (ApiResponse (Json up)) :=
  try_catch
    (response <- request (client_get (str "/address/" ++ address)) ;;
     now <- Date_now up ;;
     ret (succeed response now))
    (fetch_error _ (str "BITCOIN_ADDRESS_INFO_ERROR")
       (str "Failed to fetch Bitcoin address info")).

End BitcoinQueries.

(* ================================================================= *)
(** ** The controller ([blockchain.controller.ts]) *)

(** What a handler sends: [res.status(code).json(body)].  Sending is taken
    not to throw. *)
Record HttpResponse (T : Type) := mkHttpResponse {
  http_status : Z;
  http_body : ApiResponse T
}.

Module BlockchainController.

Section Handlers.

Variable up : Upstream.

Local Notation "'IO'" := (M (World up)).

(** [!p] for a route parameter, a string or undefined. *)
Definition param_missing (p : option jsstring) : bool :=
  negb (truthy_opt p).

(** The parameter as the string the service is handed once the check has
    passed. *)
Definition param_value (p : option jsstring) : jsstring :=
  match p with Some v => v | None => [] end.

(** The answer to a request that lacks a parameter. *)
Definition invalid_params (T : Type) (m : jsstring) : IO (HttpResponse T) :=
  t <- Date_now up ;;
  ret {| http_status := 400;
         http_body := failure T (str "INVALID_PARAMS") m details_null t |}.

(** [res.status(result.success ? 200 : 400).json(result)]. *)
Definition send (T : Type) (result : ApiResponse T) : IO (HttpResponse T) :=
  ret {| http_status := if success result then 200 else 400;
         http_body := result |}.

(** The handler every method ends with. *)
Definition controller_error (T : Type) (fallback : jsstring)
    (error : JSError) : IO (HttpResponse T) :=
  t <- Date_now up ;;
  ret {| http_status := 500;
         http_body := failure T (str "CONTROLLER_ERROR")
                        (message_or error fallback) (details_error error) t |}.

Definition getBalance (address assetId : option jsstring)
  : IO (HttpResponse BalanceResponse.t) :=
  try_catch
    (if param_missing address || param_missing assetId then
       invalid_params _ (str "Address and assetId are required")
     else
       result <- getBalance up (param_value address) (param_value assetId) ;;
       send result)
    (controller_error _ (str "Failed to get balance")).

Definition getNftMetadata (assetId : option jsstring)
  : IO (HttpResponse (NftMetadataResponse up)) :=
  try_catch
    (if param_missing assetId then
       invalid_params _ (str "AssetId is required")
     else
       result <- getNftMetadata up (param_value assetId) ;;
       send result)
    (controller_error _ (str "Failed to get NFT metadata")).

Definition getNftsForOwner (owner networkId : option jsstring)
  : IO (HttpResponse (Json up)) :=
  try_catch
    (if param_missing owner || param_missing networkId then
       invalid_params _ (str "Owner address and networkId are required")
     else
       result <- getNftsForOwner up (param_value owner)
                   (param_value networkId) None ;;
       send result)
    (controller_error _ (str "Failed to get NFTs for owner")).

Definition getTokenMetadata (assetId : option jsstring)
  : IO (HttpResponse TokenMetadataResponse.t) :=
  try_catch
    (if param_missing assetId then
       invalid_params _ (str "AssetId is required")
     else
       result <- getTokenMetadata up (param_value assetId) ;;
       send result)
    (controller_error _ (str "Failed to get token metadata")).

End Handlers.

End BlockchainController.

(* ================================================================= *)
(** ** Vocabulary of the further properties *)

(** The chain reference and the asset reference of a CAIP identifier, as
    [parseCAIPAssetId] cuts them. *)
Definition chain_reference (assetId : jsstring) : option jsstring :=
  nth_error (split ":" (hd [] (split "/" assetId))) 1.

Definition asset_reference (assetId : jsstring) : jsstring :=
  join (str ":") (tl (split ":" (nth 1 (split "/" assetId) []))).

(** The number a string of decimal digits writes. *)
Definition decimal_value (s : jsstring) : Z :=
  match digits_value 10 0 s with
  | Some v => v
  | None => 0
  end.

Definition all_decimal (s : jsstring) : Prop :=
  Forall (fun c => is_decimal c = true) s.

(** No capital letter A to Z. *)
Definition no_capital (s : jsstring) : Prop :=
  Forall (fun c => in_range 65 90 c = false) s.

(** A Blockstream client to run the examples on: it knows the tip and its
    hash and has lost the block. *)
Definition sample_client_get (path : jsstring) (w : World sample_upstream)
  : result (Json sample_upstream) * World sample_upstream :=
  if streq path (str "/block/tip") then
    (Throw (mkError (Some (str "Request failed with status code 404"))
              (Some (str "Block not found"))), S w)
  else (OK tt, S w).

Definition sample_template (body : Json sample_upstream) : jsstring :=
  str "tip".

(** The handler answered a request with the given status and error code. *)
Definition answered (T : Type) (status : Z) (c : jsstring)
    (outcome : result (HttpResponse T)) : Prop :=
  exists m d t,
    outcome = OK {| http_status := status;
                    http_body := failure T c m d t |}.


(** The assets the loop of [getPortfolioSummary] has an entry for: those
    with a truthy balance and a truthy price. *)
Definition in_portfolio (up : Upstream)
    (balances : JSObject BalanceResponse.t)
    (prices : option (JSObject (PriceResponse.t (Num up))))
    (assetId : jsstring) : bool :=
  match prices with
  | Some prices =>
      is_truthy (obj_get BalanceResponse_field assetId balances)
      && is_truthy (obj_get (PriceResponse_field up) assetId prices)
  | None => false
  end.

(** An entry of the portfolio is read off the balance and the price its
    asset has in the two maps: the formatted balance, the price and its
    change in a day, and for the value the balance times the price. *)
Definition listed (up : Upstream)
    (balances : JSObject BalanceResponse.t)
    (prices : option (JSObject (PriceResponse.t (Num up))))
    (e : PortfolioEntry.t (Num up)) : Prop :=
  match prices with
  | Some prices =>
      let balance :=
        obj_get BalanceResponse_field (PortfolioEntry.assetId e) balances in
      let price :=
        obj_get (PriceResponse_field up) (PortfolioEntry.assetId e) prices in
      PortfolioEntry.balance e
      = field_of BalanceResponse.balanceFormatted balance
      /\ PortfolioEntry.price e = field_of (@PriceResponse.price _) price
      /\ PortfolioEntry.priceChange24h e
         = field_of (@PriceResponse.priceChangePercentage24h _) price
      /\ PortfolioEntry.value e
         = times up (parseFloat_opt up (PortfolioEntry.balance e))
             (PortfolioEntry.price e)
  | None => False
  end.

(** [total += value] over the entries, from zero. *)
Definition sum_of_values (up : Upstream)
    (entries : list (PortfolioEntry.t (Num up))) : Num up :=
  fold_left (num_add up) (map (@PortfolioEntry.value _) entries)
    (num_zero up).

(** The summary of the sample portfolio: one bitcoin and three ether at
    the price of 2, and nothing for an identifier nobody knows. *)
Definition sample_summary : PortfolioSummary.t (Num sample_upstream) :=
  {| PortfolioSummary.totalValue := 8;
     PortfolioSummary.currency := str "usd";
     PortfolioSummary.portfolio :=
       [ {| PortfolioEntry.assetId := str "bitcoin";
            PortfolioEntry.balance := Some (str "1");
            PortfolioEntry.price := Some 2;
            PortfolioEntry.value := 2;
            PortfolioEntry.priceChange24h := Some 0 |};
         {| PortfolioEntry.assetId := str "ethereum";
            PortfolioEntry.balance := Some (str "3");
            PortfolioEntry.price := Some 2;
            PortfolioEntry.value := 6;
            PortfolioEntry.priceChange24h := Some 0 |} ];
     PortfolioSummary.timestamp := 3 |}.

(** How a handler answers: with the status 200 for a success envelope and
    400 for any other; when a parameter is missing, with the error code
    INVALID_PARAMS and without touching the state; otherwise with the
    envelope the service returns, in the state the service leaves. *)
Definition handled (up : Upstream) (T : Type)
    (handler : M (World up) (HttpResponse T)) (missing : bool)
    (service : M (World up) (ApiResponse T)) : Prop :=
  forall s, exists response,
    fst (handler s) = OK response
    /\ http_status response
       = (if success (http_body response) then 200 else 400)
    /\ if missing then
         snd (handler s) = s
         /\ exists m,
              http_body response
              = failure T (str "INVALID_PARAMS") m details_null
                  (clock up (world s))
       else service s = (OK (http_body response), snd (handler s)).

(** A method of the service that only forwards: it logs the call, asks
    the provider, and returns the provider's envelope as it is, or, should
    the provider throw, the failure envelope of its own code. *)
Definition forwarded_call (up : Upstream) (T : Type) (c : Call)
    (provider : World up -> result (ApiResponse T) * World up)
    (code fallback : jsstring) (s : State (World up))
  : result (ApiResponse T) * State (World up) :=
  (OK match fst (provider (world s)) with
      | OK envelope => envelope
      | Throw e =>
          failure T code (message_or e fallback) (details_error e)
            (clock up (snd (provider (world s))))
      end,
   {| world := snd (provider (world s)); calls := calls s ++ [c] |}).

(* ================================================================= *)
(** * Properties *)

Unset Implicit Arguments.

(** ** Strings *)

Lemma streq_refl (a : jsstring) : streq a a = true.
Proof.
  induction a as [|c a IH]; simpl; [reflexivity|].
  now rewrite Ascii.eqb_refl, IH.
Qed.

Lemma streq_eq (a b : jsstring) : streq a b = true <-> a = b.
Proof.
  split.
  - revert b; induction a as [|x a IH]; intros [|y b]; simpl;
      try discriminate; [reflexivity|].
    intros H. apply andb_true_iff in H. destruct H as [Hxy Hab].
    apply Ascii.eqb_eq in Hxy. apply IH in Hab. now subst.
  - intros ->. apply streq_refl.
Qed.

Lemma streq_neq (a b : jsstring) : streq a b = false <-> a <> b.
Proof.
  split.
  - intros H E. apply streq_eq in E. congruence.
  - intros H. destruct (streq a b) eqn:E; [|reflexivity].
    apply streq_eq in E. contradiction.
Qed.

Lemma split_not_nil (sep : ascii) (s : jsstring) : split sep s <> [].
Proof.
  destruct s as [|c s]; simpl; [discriminate|].
  destruct (Ascii.eqb c sep); [discriminate|].
  destruct (split sep s); discriminate.
Qed.

(** Joining the segments with the separator gives the string back. *)
Lemma join_split (sep : ascii) (s : jsstring) :
  join [sep] (split sep s) = s.
Proof.
  induction s as [|c s IH]; simpl; [reflexivity|].
  destruct (Ascii.eqb c sep) eqn:E.
  - apply Ascii.eqb_eq in E. subst c.
    destruct (split sep s) as [|w ws] eqn:Es.
    + now apply split_not_nil in Es.
    + simpl in *. now rewrite IH.
  - destruct (split sep s) as [|w ws] eqn:Es.
    + now apply split_not_nil in Es.
    + destruct ws; simpl in *; now rewrite <- IH.
Qed.

(** A string with the separator in it has two segments at least. *)
Lemma split_includes (sep : ascii) (s : jsstring) :
  includes sep s = true ->
  exists a b rest, split sep s = a :: b :: rest.
Proof.
  unfold includes.
  induction s as [|c s IH]; simpl; [discriminate|].
  rewrite (Ascii.eqb_sym sep c).
  destruct (Ascii.eqb c sep) eqn:E; simpl.
  - intros _. destruct (split sep s) as [|w ws] eqn:Es.
    + now apply split_not_nil in Es.
    + now exists [], w, ws.
  - intros H. destruct (IH H) as (a & b & rest & ->).
    now exists (c :: a), b, rest.
Qed.

(** ** The parser *)

(** Unfolds one test of a string against a literal, both ways. *)
Ltac case_streq a b :=
  let E := fresh "E" in
  destruct (streq a b) eqn:E;
  [apply streq_eq in E | apply streq_neq in E].

(** On the CAIP path with chain namespace bip122, the network is bitcoin
    and the outcome is decided by the asset namespace alone. *)
Lemma parseCAIPAssetId_bip122 (x chainPart assetPart : jsstring)
    (rest : list jsstring) :
  split "/" x = chainPart :: assetPart :: rest ->
  hd [] (split ":" chainPart) = str "bip122" ->
  parseCAIPAssetId x =
    let assetParts := split ":" assetPart in
    let assetNamespace := hd [] assetParts in
    let assetReference := join (str ":") (tl assetParts) in
    if streq assetNamespace (str "slip44") then
      OK (mkAssetInfo x (net (str "bitcoin")) None None bitcoin)
    else if streq assetNamespace (str "erc20") then
      OK (mkAssetInfo x (net (str "bitcoin")) (Some assetReference) None erc20)
    else if streq assetNamespace (str "erc721") then
      OK (mkAssetInfo x (net (str "bitcoin"))
            (fst (contract_and_token assetReference))
            (snd (contract_and_token assetReference)) erc721)
    else if streq assetNamespace (str "erc1155") then
      OK (mkAssetInfo x (net (str "bitcoin"))
            (fst (contract_and_token assetReference))
            (snd (contract_and_token assetReference)) erc1155)
    else Throw (new_Error
                  (str "Unsupported asset namespace: " ++ assetNamespace)).
Proof.
  intros Hs Hc. unfold parseCAIPAssetId. rewrite Hs, Hc. cbv zeta.
  change (streq (str "bip122") (str "bip122")) with true. cbv iota.
  change (streq (str "bitcoin") (str "bitcoin")) with true. cbv iota.
  repeat match goal with
         | |- context [if ?b then _ else _] => destruct b; try reflexivity
         end;
  destruct (contract_and_token _); reflexivity.
Qed.

(** C1, as amended.  For a CAIP identifier whose chain namespace is
    bip122: with the asset namespace slip44 the parser returns network
    bitcoin and type bitcoin, with no contract address and no token id;
    whenever the parser returns at all the network is bitcoin; and it
    throws exactly when the asset namespace is none of slip44, erc20,
    erc721 and erc1155, and what it throws then is the error whose message
    is [Unsupported asset namespace: ] followed by the namespace. *)
Theorem C1_bip122_network_and_type (x : jsstring) :
  includes "/" x = true ->
  chain_namespace x = str "bip122" ->
  (asset_namespace x = str "slip44" ->
   parseAssetId x = OK (mkAssetInfo x (net (str "bitcoin")) None None bitcoin))
  /\ (forall info, parseAssetId x = OK info ->
                   networkId info = net (str "bitcoin"))
  /\ ((exists e, parseAssetId x = Throw e) <->
      supported_asset_namespace (asset_namespace x) = false)
  /\ (forall e, parseAssetId x = Throw e ->
                e = new_Error (str "Unsupported asset namespace: "
                                 ++ asset_namespace x)).
Proof.
  intros Hslash Hns. unfold parseAssetId. rewrite Hslash.
  destruct (split_includes "/" x Hslash) as (cp & ap & rest & Hs).
  unfold chain_namespace in Hns. rewrite Hs in Hns. simpl in Hns.
  rewrite (parseCAIPAssetId_bip122 x cp ap rest Hs Hns). cbv zeta.
  unfold asset_namespace, supported_asset_namespace. rewrite Hs. simpl nth.
  set (ns := hd [] (split ":" ap)).
  repeat split.
  - intros ->. reflexivity.
  - intros info.
    repeat match goal with
           | |- context [if ?b then _ else _] => destruct b
           end; intros [= <-]; reflexivity || discriminate.
  - intros [e He]. revert He.
    repeat match goal with
           | |- context [if ?b then _ else _] => destruct b
           end; simpl; intros; discriminate || reflexivity.
  - repeat match goal with
           | |- context [if ?b then _ else _] => destruct b
           end; simpl; intros; discriminate || eauto.
  - intros e.
    repeat match goal with
           | |- context [if ?b then _ else _] => destruct b
           end; intros [= <-]; reflexivity.
Qed.

Lemma C1_bip122_network_and_type_witness :
  includes "/" (str "bip122:000000000019d6689c085ae165831e93/slip44:0") = true
  /\ chain_namespace (str "bip122:000000000019d6689c085ae165831e93/slip44:0")
     = str "bip122"
  /\ parseAssetId (str "bip122:000000000019d6689c085ae165831e93/slip44:0") =
       OK (mkAssetInfo
             (str "bip122:000000000019d6689c085ae165831e93/slip44:0")
             (net (str "bitcoin")) None None bitcoin).
Proof.
  split; [reflexivity|]. split; [reflexivity|].
  apply (C1_bip122_network_and_type
           (str "bip122:000000000019d6689c085ae165831e93/slip44:0"));
    reflexivity.
Defined.

(** C1 as the specification states it fails: a bip122 identifier with
    the asset namespace erc20 is parsed to type erc20, and one with an
    unknown asset namespace is rejected. *)
Lemma C1_bip122_counterexample :
  includes "/" (str "bip122:000000000019d6689c085ae165831e93/foo:0") = true
  /\ chain_namespace (str "bip122:000000000019d6689c085ae165831e93/foo:0")
     = str "bip122"
  /\ ~ (exists info,
          parseAssetId (str "bip122:000000000019d6689c085ae165831e93/foo:0")
            = OK info
          /\ networkId info = net (str "bitcoin") /\ type info = bitcoin).
Proof.
  split; [reflexivity|]. split; [reflexivity|].
  intros (info & H & _). vm_compute in H. discriminate.
Qed.

(** The other way C1 fails, by the overwritten type. *)
Lemma bip122_erc20_is_typed_erc20 :
  parseAssetId (str "bip122:000000000019d6689c085ae165831e93/erc20:0xabc") =
    OK (mkAssetInfo
          (str "bip122:000000000019d6689c085ae165831e93/erc20:0xabc")
          (net (str "bitcoin")) (Some (str "0xabc")) None erc20).
Proof. reflexivity. Qed.

Lemma contract_and_token_fst (r : jsstring) :
  fst (contract_and_token r) <> None.
Proof.
  unfold contract_and_token.
  destruct (split ":" r) as [|a [|b [|c l]]]; simpl; discriminate.
Qed.

(** C2.  Whenever the parser returns, under either grammar, the optional
    fields fit the type: native and bitcoin have neither a contract
    address nor a token id, erc20 has a contract address and no token id,
    erc721 and erc1155 have a contract address. *)
Theorem C2_optional_fields_fit_type (x : jsstring) (info : AssetInfo) :
  parseAssetId x = OK info ->
  (type info = native \/ type info = bitcoin ->
   contractAddress info = None /\ tokenId info = None)
  /\ (type info = erc20 ->
      contractAddress info <> None /\ tokenId info = None)
  /\ (type info = erc721 \/ type info = erc1155 ->
      contractAddress info <> None).
Proof.
  unfold parseAssetId, parseCAIPAssetId.
  destruct (includes "/" x).
  - destruct (split "/" x) as [|cp [|ap rest]]; try discriminate.
    set (ref := join (str ":") (tl (split ":" ap))).
    pose proof (contract_and_token_fst ref) as Hc.
    destruct (contract_and_token ref) as [c t]. simpl in Hc.
    repeat match goal with
           | |- context [if ?b then _ else _] => destruct b
           | |- context [match ?n with net _ => _ | inherited_member _ => _ end]
             => destruct n
           end;
    intros [= <-]; simpl; repeat split; intros; intuition congruence.
  - destruct (streq x (str "bitcoin")).
    + intros [= <-]; simpl; repeat split; intros; intuition congruence.
    + destruct (split ":" x) as [|p0 [|p1 [|p2 [|p3 l]]]];
        intros [= <-]; simpl; repeat split; intros; intuition congruence.
Qed.

Lemma C2_optional_fields_fit_type_witness :
  parseAssetId (str "eip155:1/erc721:0xABC:7") =
    OK (mkAssetInfo (str "eip155:1/erc721:0xABC:7") (net (str "ethereum"))
          (Some (str "0xABC")) (Some (str "7")) erc721)
  /\
  (type (mkAssetInfo (str "eip155:1/erc721:0xABC:7") (net (str "ethereum"))
           (Some (str "0xABC")) (Some (str "7")) erc721) = erc721
   \/ type (mkAssetInfo (str "eip155:1/erc721:0xABC:7") (net (str "ethereum"))
           (Some (str "0xABC")) (Some (str "7")) erc721) = erc1155 ->
   contractAddress
     (mkAssetInfo (str "eip155:1/erc721:0xABC:7") (net (str "ethereum"))
        (Some (str "0xABC")) (Some (str "7")) erc721) <> None).
Proof.
  split; [reflexivity|].
  apply (C2_optional_fields_fit_type (str "eip155:1/erc721:0xABC:7")).
  reflexivity.
Defined.

Lemma legacy_bitcoin_segments : split ":" (str "bitcoin") = [str "bitcoin"].
Proof. reflexivity. Qed.

(** C10.  Without a slash the parser throws exactly when the string has
    four colon-separated segments or more; the empty string is accepted as
    a native asset on the network named by the empty string. *)
Theorem C10_legacy_rejects_four_segments (x : jsstring) :
  includes "/" x = false ->
  ((exists e, parseAssetId x = Throw e) <->
   (4 <= List.length (segments x))%nat)
  /\ parseAssetId [] = OK (mkAssetInfo [] (net []) None None native).
Proof.
  intros Hslash. split; [|reflexivity].
  unfold parseAssetId, segments. rewrite Hslash.
  case_streq x (str "bitcoin").
  - subst x. rewrite legacy_bitcoin_segments. simpl. split.
    + intros [e He]. discriminate.
    + lia.
  - pose proof (split_not_nil ":" x) as Hne.
    destruct (split ":" x) as [|p0 [|p1 [|p2 [|p3 l]]]]; simpl;
      try contradiction; split;
      try (intros [e He]; discriminate); try lia; eauto.
Qed.

Lemma C10_legacy_rejects_four_segments_witness :
  includes "/" (str "invalid:::::") = false
  /\ ((exists e, parseAssetId (str "invalid:::::") = Throw e) <->
      (4 <= List.length (segments (str "invalid:::::")))%nat)
  /\ parseAssetId [] = OK (mkAssetInfo [] (net []) None None native).
Proof.
  split; [reflexivity|].
  apply (C10_legacy_rejects_four_segments (str "invalid:::::")).
  reflexivity.
Defined.

(** ** Rebuilding a legacy identifier *)

(** Strings of different lengths differ. *)
Lemma length_differs (a b : jsstring) :
  List.length a <> List.length b -> a <> b.
Proof. intros H E. now subst. Qed.

(** A legacy identifier the parser accepts is its segments joined, one to
    three of them, and the record holds exactly those. *)
Lemma parseAssetId_legacy (x : jsstring) (info : AssetInfo) :
  includes "/" x = false ->
  parseAssetId x = OK info ->
  x = str "bitcoin" /\ info = mkAssetInfo x (net x) None None bitcoin
  \/ x <> str "bitcoin" /\
     ((exists p0, segments x = [p0]
                  /\ info = mkAssetInfo x (net p0) None None native)
      \/ (exists p0 p1, segments x = [p0; p1]
                  /\ info = mkAssetInfo x (net p0) (Some p1) None erc20)
      \/ (exists p0 p1 p2, segments x = [p0; p1; p2]
                  /\ info = mkAssetInfo x (net p0) (Some p1) (Some p2) erc721)).
Proof.
  intros Hslash. unfold parseAssetId, segments. rewrite Hslash.
  case_streq x (str "bitcoin").
  - intros [= <-]. left. subst x. split; reflexivity.
  - intros H. right. split; [assumption|].
    destruct (split ":" x) as [|p0 [|p1 [|p2 [|p3 l]]]]; try discriminate;
      injection H as <-; eauto 8.
Qed.

(** C3, as amended.  For a legacy identifier [x] the parser accepts,
    [buildAssetId] applied to the parsed network, contract address and
    token id gives [x] back exactly when [x] is [bitcoin], or its first
    segment is not [bitcoin] and none of its later segments is empty. *)
Theorem C3_rebuild_legacy (x : jsstring) (info : AssetInfo) :
  includes "/" x = false ->
  parseAssetId x = OK info ->
  exists n,
    networkId info = net n
    /\ (buildAssetId n (contractAddress info) (tokenId info) = x <->
        x = str "bitcoin"
        \/ (n <> str "bitcoin"
            /\ Forall (fun s => s <> []) (tl (segments x)))).
Proof.
  intros Hslash Hparse.
  pose proof (join_split ":" x) as Hjoin. fold (segments x) in Hjoin.
  destruct (parseAssetId_legacy x info Hslash Hparse)
    as [[Hx ->] | [Hx [(p0 & Hs & ->) | [(p0 & p1 & Hs & ->)
                                       | (p0 & p1 & p2 & Hs & ->)]]]];
    [| rewrite Hs in *; cbn [join app] in Hjoin ..];
    cbn [networkId contractAddress tokenId tl];
    unfold buildAssetId, truthy_opt, show_opt.
  - exists x. split; [reflexivity|]. subst x. split; auto.
  - exists p0. split; [reflexivity|]. subst p0.
    apply streq_neq in Hx. rewrite Hx. apply streq_neq in Hx.
    cbn [negb]. split; auto.
  - exists p0. split; [reflexivity|].
    case_streq p0 (str "bitcoin").
    + split; [congruence|]. intros [?|[? _]]; congruence.
    + destruct p1 as [|c p1]; cbn [truthy negb].
      * split.
        -- intros E0. exfalso. rewrite <- Hjoin in E0.
           revert E0. apply length_differs.
           unfold str; simpl; rewrite ?length_app; simpl;
           rewrite ?length_app; simpl; lia.
        -- intros [?|[_ HF]]; [congruence|].
           inversion HF; subst. congruence.
      * split; [|intros _; exact Hjoin].
        intros _. right. split; [assumption|].
        constructor; [discriminate|constructor].
  - exists p0. split; [reflexivity|].
    case_streq p0 (str "bitcoin").
    + split; [congruence|]. intros [?|[? _]]; congruence.
    + destruct p1 as [|c p1]; cbn [truthy negb].
      * split.
        -- intros E0. exfalso. rewrite <- Hjoin in E0.
           revert E0. apply length_differs.
           unfold str; simpl; rewrite ?length_app; simpl;
           rewrite ?length_app; simpl; lia.
        -- intros [?|[_ HF]]; [congruence|].
           inversion HF; subst. congruence.
      * destruct p2 as [|d p2]; cbn [truthy negb].
        -- split.
           ++ intros E0. exfalso. rewrite <- Hjoin in E0.
              revert E0. apply length_differs.
           unfold str; simpl; rewrite ?length_app; simpl;
           rewrite ?length_app; simpl; lia.
           ++ intros [?|[_ HF]]; [congruence|].
              inversion HF as [|? ? _ HF']; subst.
              inversion HF'; subst. congruence.
        -- split; [|intros _; exact Hjoin].
           intros _. right. split; [assumption|].
           repeat constructor; discriminate.
Qed.

Lemma C3_rebuild_legacy_witness :
  includes "/" (str "ethereum:0xabc:12") = false
  /\ parseAssetId (str "ethereum:0xabc:12") =
       OK (mkAssetInfo (str "ethereum:0xabc:12") (net (str "ethereum"))
             (Some (str "0xabc")) (Some (str "12")) erc721)
  /\ exists n,
       net (str "ethereum") = net n
       /\ (buildAssetId n (Some (str "0xabc")) (Some (str "12"))
           = str "ethereum:0xabc:12" <->
           str "ethereum:0xabc:12" = str "bitcoin"
           \/ (n <> str "bitcoin"
               /\ Forall (fun s => s <> [])
                         (tl (segments (str "ethereum:0xabc:12"))))).
Proof.
  split; [reflexivity|]. split; [reflexivity|].
  exact (C3_rebuild_legacy (str "ethereum:0xabc:12")
           (mkAssetInfo (str "ethereum:0xabc:12") (net (str "ethereum"))
              (Some (str "0xabc")) (Some (str "12")) erc721)
           eq_refl eq_refl).
Defined.

(** C3 as the specification states it fails: [bitcoin:0xabc] is accepted
    as an erc20 asset on the network bitcoin, and is rebuilt as [bitcoin],
    another string, which the parser reads as another asset. *)
Lemma C3_rebuild_counterexample :
  includes "/" (str "bitcoin:0xabc") = false
  /\ parseAssetId (str "bitcoin:0xabc") =
       OK (mkAssetInfo (str "bitcoin:0xabc") (net (str "bitcoin"))
             (Some (str "0xabc")) None erc20)
  /\ buildAssetId (str "bitcoin") (Some (str "0xabc")) None = str "bitcoin"
  /\ str "bitcoin" <> str "bitcoin:0xabc"
  /\ parseAssetId (str "bitcoin") =
       OK (mkAssetInfo (str "bitcoin") (net (str "bitcoin")) None None bitcoin).
Proof. repeat split; try reflexivity. discriminate. Qed.

(** An empty later segment is lost as well. *)
Lemma rebuild_drops_empty_segment :
  parseAssetId (str "ethereum:") =
    OK (mkAssetInfo (str "ethereum:") (net (str "ethereum")) (Some []) None
          erc20)
  /\ buildAssetId (str "ethereum") (Some []) None = str "ethereum".
Proof. split; reflexivity. Qed.

(** ** Decimal digits *)

Local Open Scope Z_scope.

Lemma decimal_cases (c : ascii) :
  is_decimal c = true ->
  In c ["0"; "1"; "2"; "3"; "4"; "5"; "6"; "7"; "8"; "9"]%char.
Proof.
  unfold is_decimal. intros H. apply existsb_exists in H.
  destruct H as (d & Hin & E). apply Ascii.eqb_eq in E. now subst.
Qed.

(** Runs a goal about one decimal digit through the ten of them. *)
Ltac each_decimal H :=
  apply decimal_cases in H; simpl in H;
  repeat (destruct H as [H|H]; [subst; try reflexivity|]);
  try contradiction.

Lemma decimal_not_white_space (c : ascii) :
  is_decimal c = true -> is_white_space c = false.
Proof. intros H. each_decimal H. Qed.

Lemma decimal_not_point (c : ascii) :
  is_decimal c = true -> Ascii.eqb "." c = false.
Proof. intros H. each_decimal H. Qed.

Lemma decimal_not_sign (c : ascii) :
  is_decimal c = true -> Ascii.eqb c "+" = false /\ Ascii.eqb c "-" = false.
Proof. intros H. each_decimal H; split; reflexivity. Qed.

Lemma decimal_not_radix_letter (c : ascii) :
  is_decimal c = true ->
  Ascii.eqb c "x" || Ascii.eqb c "X" = false
  /\ Ascii.eqb c "o" || Ascii.eqb c "O" = false
  /\ Ascii.eqb c "b" || Ascii.eqb c "B" = false.
Proof. intros H. each_decimal H; repeat split; reflexivity. Qed.

Lemma decimal_digit_value (c : ascii) :
  is_decimal c = true -> exists d, digit_value c = Some d /\ 0 <= d < 10.
Proof.
  intros H. apply decimal_cases in H. simpl in H.
  repeat (destruct H as [H|H];
          [subst; eexists; split; [vm_compute; reflexivity|lia]|]).
  contradiction.
Qed.

Lemma digit_char_decimal (d : Z) :
  0 <= d < 10 -> is_decimal (digit_char d) = true.
Proof.
  intros H.
  assert (d = 0 \/ d = 1 \/ d = 2 \/ d = 3 \/ d = 4 \/ d = 5 \/ d = 6
          \/ d = 7 \/ d = 8 \/ d = 9) as C by lia.
  repeat (destruct C as [C|C]; [subst; reflexivity|]). subst; reflexivity.
Qed.

Lemma digit_char_value (d : Z) :
  0 <= d < 10 -> digit_value (digit_char d) = Some d.
Proof.
  intros H.
  assert (d = 0 \/ d = 1 \/ d = 2 \/ d = 3 \/ d = 4 \/ d = 5 \/ d = 6
          \/ d = 7 \/ d = 8 \/ d = 9) as C by lia.
  repeat (destruct C as [C|C]; [subst; reflexivity|]). subst; reflexivity.
Qed.

Lemma digits_value_app (radix acc : Z) (l1 l2 : jsstring) :
  digits_value radix acc (l1 ++ l2) =
    match digits_value radix acc l1 with
    | Some v => digits_value radix v l2
    | None => None
    end.
Proof.
  revert acc. induction l1 as [|c l1 IH]; intros acc; simpl; [reflexivity|].
  destruct (digit_value c) as [d|]; [|reflexivity].
  destruct (d <? radix); [apply IH|reflexivity].
Qed.

(** Leading zeros do not change the value. *)
Lemma digits_value_zeros (k : nat) (l : jsstring) :
  digits_value 10 0 (repeat "0"%char k ++ l) = digits_value 10 0 l.
Proof. induction k as [|k IH]; simpl; [reflexivity|exact IH]. Qed.

(** ** Printing a natural number *)

Lemma to_digits_app (fuel : nat) (n : Z) (acc : jsstring) :
  to_digits fuel n acc = to_digits fuel n [] ++ acc.
Proof.
  revert n acc. induction fuel as [|f IH]; intros n acc; simpl; [reflexivity|].
  destruct (n <? 10); [reflexivity|].
  rewrite (IH _ (_ :: acc)), (IH _ [_]), <- app_assoc. reflexivity.
Qed.

Lemma to_digits_decimal (fuel : nat) (n : Z) :
  0 <= n -> Forall (fun c => is_decimal c = true) (to_digits fuel n []).
Proof.
  revert n. induction fuel as [|f IH]; intros n Hn; simpl; [constructor|].
  assert (is_decimal (digit_char (n mod 10)) = true) as Hd
    by (apply digit_char_decimal, Z.mod_pos_bound; lia).
  destruct (n <? 10).
  - constructor; [exact Hd|constructor].
  - rewrite to_digits_app. apply Forall_app. split.
    + apply IH. apply Z.div_pos; lia.
    + constructor; [exact Hd|constructor].
Qed.

Lemma to_digits_not_nil (fuel : nat) (n : Z) : to_digits (S fuel) n [] <> [].
Proof.
  simpl. destruct (n <? 10); [discriminate|].
  rewrite to_digits_app. intros E. apply app_eq_nil in E.
  destruct E; discriminate.
Qed.

(** With enough fuel the digits printed are those of the number. *)
Lemma to_digits_value (fuel : nat) (n : Z) :
  0 <= n < 2 ^ Z.of_nat fuel ->
  digits_value 10 0 (to_digits fuel n []) = Some n.
Proof.
  revert n. induction fuel as [|f IH]; intros n Hn.
  - simpl in *. f_equal. lia.
  - cbn [to_digits]. rewrite Nat2Z.inj_succ, Z.pow_succ_r in Hn by lia.
    pose proof (Z.mod_pos_bound n 10 ltac:(lia)) as Hm.
    destruct (n <? 10) eqn:E.
    + apply Z.ltb_lt in E. rewrite Z.mod_small by lia.
      simpl. rewrite digit_char_value by lia.
      replace (n <? 10) with true by (symmetry; apply Z.ltb_lt; lia).
      f_equal.
    + rewrite to_digits_app, digits_value_app.
      rewrite IH.
      * simpl. rewrite digit_char_value by lia.
        replace (n mod 10 <? 10) with true by (symmetry; apply Z.ltb_lt; lia).
        f_equal. pose proof (Z.div_mod n 10 ltac:(lia)). lia.
      * split; [apply Z.div_pos; lia|].
        apply Z.div_lt_upper_bound; lia.
Qed.

(** A number below [10^d] prints in at most [d] digits. *)
Lemma to_digits_length (fuel d : nat) (n : Z) :
  (1 <= d)%nat -> 0 <= n < 10 ^ Z.of_nat d ->
  (List.length (to_digits fuel n []) <= d)%nat.
Proof.
  revert d n. induction fuel as [|f IH]; intros d n Hd Hn; simpl; [lia|].
  destruct (n <? 10) eqn:E; [simpl; lia|].
  apply Z.ltb_ge in E.
  rewrite to_digits_app, length_app. simpl.
  destruct d as [|[|d]]; [lia| simpl in Hn; lia |].
  assert (List.length (to_digits f (n / 10) []) <= S d)%nat; [|lia].
  apply IH; [lia|].
  split; [apply Z.div_pos; lia|].
  apply Z.div_lt_upper_bound; [lia|].
  rewrite <- Z.pow_succ_r by lia. rewrite <- Nat2Z.inj_succ. lia.
Qed.

Lemma digits_fuel_enough (n : Z) :
  0 <= n -> n < 2 ^ Z.of_nat (digits_fuel n).
Proof.
  intros Hn. unfold digits_fuel.
  rewrite Nat2Z.inj_succ, Z2Nat.id by apply Z.log2_nonneg.
  destruct (Z.eq_dec n 0) as [->|Hz]; [reflexivity|].
  apply Z.log2_spec. lia.
Qed.

Lemma toString_nonneg (z : Z) :
  0 <= z -> toString z = to_digits (digits_fuel z) z [].
Proof.
  intros H. unfold toString.
  replace (z <? 0) with false by (symmetry; apply Z.ltb_ge; lia).
  reflexivity.
Qed.

Lemma toString_decimal (z : Z) :
  0 <= z -> Forall (fun c => is_decimal c = true) (toString z).
Proof. intros H. rewrite toString_nonneg by lia. now apply to_digits_decimal. Qed.

Lemma toString_not_nil (z : Z) : toString z <> [].
Proof.
  unfold toString. destruct (z <? 0); [discriminate|].
  apply to_digits_not_nil.
Qed.

Lemma toString_value (z : Z) :
  0 <= z -> digits_value 10 0 (toString z) = Some z.
Proof.
  intros H. rewrite toString_nonneg by lia.
  apply to_digits_value. split; [lia|now apply digits_fuel_enough].
Qed.

(** ** Reading a decimal string *)

Lemma trim_start_no_space (s : jsstring) :
  Forall (fun c => is_white_space c = false) s -> trim_start s = s.
Proof. intros H. destruct H as [|c r Hc _]; simpl; [|rewrite Hc]; reflexivity. Qed.

Lemma trim_no_space (s : jsstring) :
  Forall (fun c => is_white_space c = false) s -> trim s = s.
Proof.
  intros H. unfold trim. rewrite (trim_start_no_space s H).
  rewrite trim_start_no_space by now apply Forall_rev.
  apply rev_involutive.
Qed.

Lemma decimal_no_space (l : jsstring) :
  Forall (fun c => is_decimal c = true) l ->
  Forall (fun c => is_white_space c = false) l.
Proof.
  intros H. eapply Forall_impl; [|exact H].
  intros c. apply decimal_not_white_space.
Qed.

Lemma radix_prefix_decimal (l : jsstring) :
  Forall (fun c => is_decimal c = true) l -> radix_prefix l = None.
Proof.
  intros H. destruct H as [|c r Hc Hr]; [reflexivity|].
  destruct Hr as [|x ds Hx _]; [reflexivity|]. simpl.
  destruct (decimal_not_radix_letter x Hx) as (-> & -> & ->).
  now destruct (Ascii.eqb c "0").
Qed.

(** A non-empty string of decimal digits is read as its value. *)
Lemma StringToBigInt_decimal (l : jsstring) :
  l <> [] -> Forall (fun c => is_decimal c = true) l ->
  StringToBigInt l = digits_value 10 0 l.
Proof.
  intros Hne H. unfold StringToBigInt.
  rewrite trim_no_space by now apply decimal_no_space.
  destruct l as [|c rest]; [contradiction|].
  rewrite radix_prefix_decimal by assumption.
  inversion H as [|? ? Hc _]; subst.
  destruct (decimal_not_sign c Hc) as [-> ->]. reflexivity.
Qed.

Lemma BigInt_nonneg (z : Z) : 0 <= z -> BigInt (toString z) = OK z.
Proof.
  intros H. unfold BigInt.
  rewrite StringToBigInt_decimal
    by (apply toString_not_nil || now apply toString_decimal).
  now rewrite toString_value.
Qed.

(** Every integer printed is read back: [BigInt(z.toString())] is [z]. *)
Lemma BigInt_toString (z : Z) : BigInt (toString z) = OK z.
Proof.
  destruct (Z.ltb_spec z 0) as [Hneg|Hpos]; [|now apply BigInt_nonneg].
  unfold BigInt, toString.
  replace (z <? 0) with true by (symmetry; apply Z.ltb_lt; lia).
  rewrite <- toString_nonneg by lia.
  pose proof (toString_decimal (- z) ltac:(lia)) as Hd.
  pose proof (toString_not_nil (- z)) as Hne.
  unfold StringToBigInt. rewrite trim_no_space.
  - destruct (toString (- z)) as [|c rest] eqn:E; [contradiction|].
    cbn [radix_prefix]. change (Ascii.eqb "-" "0") with false. cbv iota.
    change (Ascii.eqb "-" "+") with false.
    change (Ascii.eqb "-" "-") with true. cbv iota.
    unfold parse_digits. rewrite <- E, toString_value by lia.
    simpl. now rewrite Z.opp_involutive.
  - constructor; [reflexivity|now apply decimal_no_space].
Qed.

Lemma padStart_decimal (d : nat) (l : jsstring) :
  Forall (fun c => is_decimal c = true) l ->
  Forall (fun c => is_decimal c = true) (padStart d "0" l).
Proof.
  intros H. unfold padStart. apply Forall_app. split; [|exact H].
  apply Forall_forall. intros c Hc. apply repeat_spec in Hc. now subst.
Qed.

Lemma padStart_length (d : nat) (l : jsstring) :
  (List.length l <= d)%nat -> List.length (padStart d "0" l) = d.
Proof. intros H. unfold padStart. rewrite length_app, repeat_length. lia. Qed.

(** A remainder padded with leading zeros is read as the remainder. *)
Lemma BigInt_padStart (d : nat) (r : Z) :
  0 <= r -> BigInt (padStart d "0" (toString r)) = OK r.
Proof.
  intros H. unfold BigInt.
  rewrite StringToBigInt_decimal.
  - unfold padStart. now rewrite digits_value_zeros, toString_value.
  - unfold padStart. intros E. apply app_eq_nil in E.
    now apply (toString_not_nil r).
  - now apply padStart_decimal, toString_decimal.
Qed.

(** ** Trailing zeros *)

Lemma drop_zeros_repeat (s : jsstring) :
  exists k, s = repeat "0"%char k ++ drop_zeros s.
Proof.
  induction s as [|c s [k IH]]; [now exists 0%nat|]. simpl.
  destruct (Ascii.eqb c "0") eqn:E.
  - apply Ascii.eqb_eq in E. subst c. exists (S k). simpl. now f_equal.
  - now exists 0%nat.
Qed.

(** What is stripped is zeros: padding them back restores the string. *)
Lemma padEnd_strip (s : jsstring) :
  padEnd (List.length s) "0" (strip_trailing_zeros s) = s.
Proof.
  unfold padEnd, strip_trailing_zeros.
  destruct (drop_zeros_repeat (rev s)) as [k Hk].
  assert (s = rev (drop_zeros (rev s)) ++ repeat "0"%char k) as Hs.
  { rewrite <- (rev_involutive s) at 1. rewrite Hk at 1.
    rewrite rev_app_distr, rev_repeat. reflexivity. }
  set (t := rev (drop_zeros (rev s))) in *.
  assert (List.length s = List.length t + k)%nat as Hlen.
  { rewrite Hs at 1. now rewrite length_app, repeat_length. }
  rewrite Hlen.
  replace (List.length t + k - List.length t)%nat with k by lia.
  now symmetry.
Qed.

Lemma drop_zeros_head (s : jsstring) (c : ascii) (r : jsstring) :
  drop_zeros s = c :: r -> Ascii.eqb c "0" = false.
Proof.
  induction s as [|x s IH]; simpl; [discriminate|].
  destruct (Ascii.eqb x "0") eqn:E; [exact IH|].
  intros [= <- <-]. exact E.
Qed.

(** What is left after stripping does not end in a zero. *)
Lemma strip_no_trailing_zero (s : jsstring) :
  ends_with_zero (strip_trailing_zeros s) = false.
Proof.
  unfold ends_with_zero, strip_trailing_zeros. rewrite rev_involutive.
  destruct (drop_zeros (rev s)) as [|c r] eqn:E; [reflexivity|].
  now apply drop_zeros_head in E.
Qed.

Lemma drop_zeros_Forall (P : ascii -> Prop) (s : jsstring) :
  Forall P s -> Forall P (drop_zeros s).
Proof.
  induction 1 as [|c s Hc Hs IH]; simpl; [constructor|].
  destruct (Ascii.eqb c "0"); [exact IH|now constructor].
Qed.

Lemma strip_Forall (P : ascii -> Prop) (s : jsstring) :
  Forall P s -> Forall P (strip_trailing_zeros s).
Proof.
  intros H. unfold strip_trailing_zeros.
  now apply Forall_rev, drop_zeros_Forall, Forall_rev.
Qed.

(** ** Splitting at the decimal point *)

Lemma split_without (sep : ascii) (s : jsstring) :
  includes sep s = false -> split sep s = [s].
Proof.
  unfold includes. induction s as [|c s IH]; simpl; [reflexivity|].
  rewrite (Ascii.eqb_sym sep c). intros H. apply orb_false_iff in H.
  destruct H as [-> H]. now rewrite (IH H).
Qed.

Lemma split_at_first (sep : ascii) (a b : jsstring) :
  includes sep a = false ->
  split sep (a ++ sep :: b) = a :: split sep b.
Proof.
  unfold includes. induction a as [|c a IH]; simpl.
  - intros _. now rewrite Ascii.eqb_refl.
  - rewrite (Ascii.eqb_sym sep c). intros H. apply orb_false_iff in H.
    destruct H as [-> H]. now rewrite (IH H).
Qed.

Lemma includes_Forall (sep : ascii) (s : jsstring) :
  Forall (fun c => Ascii.eqb sep c = false) s -> includes sep s = false.
Proof.
  unfold includes. induction 1 as [|c s Hc _ IH]; simpl; [reflexivity|].
  now rewrite Hc, IH.
Qed.

Lemma decimal_no_point (l : jsstring) :
  Forall (fun c => is_decimal c = true) l -> includes "." l = false.
Proof.
  intros H. apply includes_Forall. eapply Forall_impl; [|exact H].
  intros c. apply decimal_not_point.
Qed.

(** No integer prints with a decimal point. *)
Lemma toString_no_point (z : Z) :
  Forall (fun c => Ascii.eqb "." c = false) (toString z).
Proof.
  assert (forall n, 0 <= n ->
            Forall (fun c => Ascii.eqb "." c = false) (toString n)) as Hpos.
  { intros n Hn. eapply Forall_impl; [|now apply toString_decimal].
    intros c. apply decimal_not_point. }
  destruct (Z.ltb_spec z 0) as [Hneg|Hge]; [|now apply Hpos].
  unfold toString.
  replace (z <? 0) with true by (symmetry; apply Z.ltb_lt; lia).
  rewrite <- toString_nonneg by lia.
  constructor; [reflexivity|apply Hpos; lia].
Qed.

(** ** Unit conversion *)

Lemma weiToEther_shape (wei : jsstring) :
  weiToEther wei = base_to_human 18 wei.
Proof. reflexivity. Qed.

Lemma etherToWei_shape (ether : jsstring) :
  etherToWei ether = human_to_base 18 ether.
Proof. reflexivity. Qed.

Lemma satoshiToBitcoin_shape (satoshi : jsstring) :
  satoshiToBitcoin satoshi = base_to_human 8 satoshi.
Proof. reflexivity. Qed.

Lemma bitcoinToSatoshi_shape (bitcoin : jsstring) :
  bitcoinToSatoshi bitcoin = human_to_base 8 bitcoin.
Proof. reflexivity. Qed.

Lemma zeros_value (k : nat) : digits_value 10 0 (repeat "0"%char k) = Some 0.
Proof.
  rewrite <- (app_nil_r (repeat "0"%char k)). now rewrite digits_value_zeros.
Qed.

Lemma BigInt_zeros (k : nat) : BigInt (repeat "0"%char k) = OK 0.
Proof.
  destruct k as [|k]; [reflexivity|].
  unfold BigInt. rewrite StringToBigInt_decimal.
  - now rewrite zeros_value.
  - discriminate.
  - apply Forall_forall. intros c Hc. apply repeat_spec in Hc. now subst.
Qed.

(** The decimal part of a non-zero remainder is not empty. *)
Lemma strip_padded_not_nil (d : nat) (r : Z) :
  0 < r -> strip_trailing_zeros (padStart d "0" (toString r)) <> [].
Proof.
  intros Hr E.
  pose proof (padEnd_strip (padStart d "0" (toString r))) as Hp.
  rewrite E in Hp. unfold padEnd in Hp. simpl in Hp.
  pose proof (BigInt_padStart d r ltac:(lia)) as Hv.
  rewrite <- Hp, BigInt_zeros in Hv. injection Hv. lia.
Qed.

(** What [base_to_human] prints of a natural number: the quotient, then,
    unless the remainder is zero, a point and the remainder in [decimals]
    digits less its trailing zeros. *)
Lemma base_to_human_nonneg (decimals : nat) (b : Z) :
  0 <= b ->
  base_to_human decimals (toString b) =
    OK (if b mod 10 ^ Z.of_nat decimals =? 0
        then toString (b / 10 ^ Z.of_nat decimals)
        else toString (b / 10 ^ Z.of_nat decimals) ++ str "."
             ++ strip_trailing_zeros
                  (padStart decimals "0"
                     (toString (b mod 10 ^ Z.of_nat decimals)))).
Proof.
  intros Hb. unfold base_to_human. rewrite BigInt_toString. cbv zeta.
  assert (0 < 10 ^ Z.of_nat decimals) as Hp by (apply Z.pow_pos_nonneg; lia).
  rewrite Z.quot_div_nonneg, Z.rem_mod_nonneg by lia.
  destruct (Z.eqb_spec (b mod 10 ^ Z.of_nat decimals) 0) as [E|E];
    [reflexivity|].
  pose proof (Z.mod_pos_bound b _ Hp) as Hm.
  case_streq (strip_trailing_zeros
                (padStart decimals "0"
                   (toString (b mod 10 ^ Z.of_nat decimals)))) (@nil ascii).
  - exfalso. revert E0. apply strip_padded_not_nil. lia.
  - reflexivity.
Qed.

(** Converting a natural number of base units to human units and back
    gives the number, for any positive count of decimals. *)
Lemma unit_round_trip (decimals : nat) (b : Z) :
  (1 <= decimals)%nat -> 0 <= b ->
  exists human,
    base_to_human decimals (toString b) = OK human
    /\ human_to_base decimals human = OK (toString b).
Proof.
  intros Hd Hb. eexists. split; [now apply base_to_human_nonneg|].
  assert (0 < 10 ^ Z.of_nat decimals) as Hp by (apply Z.pow_pos_nonneg; lia).
  pose proof (Z.mod_pos_bound b _ Hp) as Hm.
  pose proof (Z.div_pos b _ Hb Hp) as Hq.
  pose proof (Z.div_mod b (10 ^ Z.of_nat decimals) ltac:(lia)) as Hdm.
  set (q := b / 10 ^ Z.of_nat decimals) in *.
  set (r := b mod 10 ^ Z.of_nat decimals) in *.
  unfold human_to_base.
  destruct (Z.eqb_spec r 0) as [E|E].
  - rewrite split_without
      by (apply decimal_no_point; now apply toString_decimal).
    cbn [hd nth]. unfold padEnd. cbn [app List.length].
    rewrite Nat.sub_0_r.
    rewrite firstn_all2 by (rewrite repeat_length; lia).
    rewrite BigInt_nonneg, BigInt_zeros by lia.
    do 2 f_equal. lia.
  - set (s := padStart decimals "0" (toString r)).
    assert (List.length s = decimals) as Hlen.
    { apply padStart_length. rewrite toString_nonneg by lia.
      apply to_digits_length; lia. }
    assert (Forall (fun c => is_decimal c = true) s) as Hs.
    { apply padStart_decimal, toString_decimal. lia. }
    change (str ".") with ["."%char]. cbn [app].
    rewrite split_at_first
      by (apply decimal_no_point; now apply toString_decimal).
    rewrite split_without by (apply decimal_no_point; now apply strip_Forall).
    cbn [hd nth].
    replace (padEnd decimals "0" (strip_trailing_zeros s)) with s
      by (rewrite <- Hlen; symmetry; apply padEnd_strip).
    rewrite firstn_all2 by lia.
    rewrite BigInt_nonneg by lia.
    unfold s. rewrite BigInt_padStart by lia.
    do 2 f_equal. lia.
Qed.

(** C4.  For every natural number [b], converting [b] wei to ether and
    back gives [b], and converting [b] satoshi to bitcoin and back gives
    [b]. *)
Theorem C4_unit_conversion_round_trip (b : Z) :
  0 <= b ->
  (exists ether,
      weiToEther (toString b) = OK ether
      /\ etherToWei ether = OK (toString b))
  /\ (exists btc,
         satoshiToBitcoin (toString b) = OK btc
         /\ bitcoinToSatoshi btc = OK (toString b)).
Proof.
  intros Hb. split.
  - destruct (unit_round_trip 18 b ltac:(lia) Hb) as (h & H1 & H2).
    exists h. now rewrite weiToEther_shape, etherToWei_shape.
  - destruct (unit_round_trip 8 b ltac:(lia) Hb) as (h & H1 & H2).
    exists h. now rewrite satoshiToBitcoin_shape, bitcoinToSatoshi_shape.
Qed.

Lemma C4_unit_conversion_round_trip_witness :
  0 <= 1234500000000000000678
  /\ (exists ether,
         weiToEther (toString 1234500000000000000678) = OK ether
         /\ etherToWei ether = OK (toString 1234500000000000000678))
  /\ (exists btc,
         satoshiToBitcoin (toString 1234500000000000000678) = OK btc
         /\ bitcoinToSatoshi btc = OK (toString 1234500000000000000678)).
Proof.
  split; [lia|].
  apply (C4_unit_conversion_round_trip 1234500000000000000678). lia.
Defined.

(** The amount printed has no decimal point when the remainder is zero,
    and otherwise a fraction that is not empty and does not end in a
    zero; this for any string [BigInt] accepts, of either sign. *)
Lemma base_to_human_shape (decimals : nat) (amount : jsstring) (b : Z) :
  BigInt amount = OK b ->
  exists human,
    base_to_human decimals amount = OK human
    /\ (Z.rem b (10 ^ Z.of_nat decimals) = 0 ->
        human = toString (Z.quot b (10 ^ Z.of_nat decimals))
        /\ includes "." human = false)
    /\ match fraction human with
       | Some f => f <> [] /\ ends_with_zero f = false
       | None => True
       end.
Proof.
  intros HB. unfold base_to_human. rewrite HB. cbv zeta.
  set (q := Z.quot b (10 ^ Z.of_nat decimals)).
  set (r := Z.rem b (10 ^ Z.of_nat decimals)).
  assert (includes "." (toString q) = false) as Hq
    by apply includes_Forall, toString_no_point.
  assert (fraction (toString q) = None) as Hf
    by (unfold fraction; now rewrite split_without).
  destruct (Z.eqb_spec r 0) as [E|E].
  - eexists. split; [reflexivity|]. rewrite Hf. auto.
  - set (dec := strip_trailing_zeros (padStart decimals "0" (toString r))).
    case_streq dec (@nil ascii).
    + eexists. split; [reflexivity|]. rewrite Hf. split; [contradiction|auto].
    + eexists. split; [reflexivity|]. split; [contradiction|].
      unfold fraction. change (str ".") with ["."%char]. cbn [app].
      rewrite split_at_first by assumption.
      rewrite split_without.
      * split; [assumption|apply strip_no_trailing_zero].
      * apply includes_Forall, strip_Forall. unfold padStart.
        apply Forall_app. split; [|apply toString_no_point].
        apply Forall_forall. intros c Hc. apply repeat_spec in Hc.
        now subst.
Qed.

(** C9.  Whatever amount [weiToEther] or [satoshiToBitcoin] is given,
    the text it returns has no decimal point when the remainder is zero,
    and otherwise a fractional part that is not empty and does not end in
    a zero; and the four amounts of the specification print as [0], [1],
    [1.5] and [1]. *)
Theorem C9_no_trailing_zeros (amount : jsstring) (b : Z) :
  BigInt amount = OK b ->
  (exists ether,
      weiToEther amount = OK ether
      /\ (Z.rem b (10 ^ 18) = 0 ->
          ether = toString (Z.quot b (10 ^ 18))
          /\ includes "." ether = false)
      /\ match fraction ether with
         | Some f => f <> [] /\ ends_with_zero f = false
         | None => True
         end)
  /\ (exists btc,
         satoshiToBitcoin amount = OK btc
         /\ (Z.rem b (10 ^ 8) = 0 ->
             btc = toString (Z.quot b (10 ^ 8))
             /\ includes "." btc = false)
         /\ match fraction btc with
            | Some f => f <> [] /\ ends_with_zero f = false
            | None => True
            end)
  /\ weiToEther (str "0") = OK (str "0")
  /\ weiToEther (str "1000000000000000000") = OK (str "1")
  /\ weiToEther (str "1500000000000000000") = OK (str "1.5")
  /\ satoshiToBitcoin (str "100000000") = OK (str "1").
Proof.
  intros HB. split; [|split].
  - rewrite weiToEther_shape. exact (base_to_human_shape 18 amount b HB).
  - rewrite satoshiToBitcoin_shape.
    exact (base_to_human_shape 8 amount b HB).
  - repeat split; vm_compute; reflexivity.
Qed.

Lemma C9_no_trailing_zeros_witness :
  BigInt (str "1500000000000000000") = OK 1500000000000000000
  /\ exists ether,
       weiToEther (str "1500000000000000000") = OK ether
       /\ (Z.rem 1500000000000000000 (10 ^ 18) = 0 ->
           ether = toString (Z.quot 1500000000000000000 (10 ^ 18))
           /\ includes "." ether = false)
       /\ match fraction ether with
          | Some f => f <> [] /\ ends_with_zero f = false
          | None => True
          end.
Proof.
  split; [reflexivity|].
  apply (C9_no_trailing_zeros (str "1500000000000000000")
           1500000000000000000).
  reflexivity.
Defined.

(** ** Bitcoin transaction history *)

Lemma base_to_human_returns (decimals : nat) (z : Z) :
  exists human, base_to_human decimals (toString z) = OK human.
Proof.
  destruct (base_to_human_shape decimals (toString z) z (BigInt_toString z))
    as (h & H & _).
  now exists h.
Qed.

Lemma is_some_find (A : Type) (f : A -> bool) (l : list A) :
  is_some (find f l) = existsb f l.
Proof.
  induction l as [|x l IH]; simpl; [reflexivity|].
  destruct (f x); [reflexivity|exact IH].
Qed.

Lemma spends_from_iff (address : jsstring) (tx : RawTx) :
  existsb (spends_from address) (vin tx) = true <->
  appears_in_inputs address tx.
Proof.
  unfold appears_in_inputs. rewrite existsb_exists. split.
  - intros (i & Hin & H). unfold spends_from in H.
    destruct (prevout i) as [o|] eqn:Ep; [|discriminate].
    destruct (scriptpubkey_address o) as [a|] eqn:Ea; [|discriminate].
    apply streq_eq in H. subst a. now exists i, o.
  - intros (i & o & Hin & Hp & Ha). exists i. split; [assumption|].
    unfold spends_from. rewrite Hp, Ha. apply streq_refl.
Qed.

Lemma pays_to_iff (address : jsstring) (tx : RawTx) :
  existsb (pays_to address) (vout tx) = true <->
  appears_in_outputs address tx.
Proof.
  unfold appears_in_outputs. rewrite existsb_exists. split.
  - intros (o & Hin & H). unfold pays_to in H.
    destruct (scriptpubkey_address o) as [a|] eqn:Ea; [|discriminate].
    apply streq_eq in H. subst a. now exists o.
  - intros (o & Hin & Ha). exists o. split; [assumption|].
    unfold pays_to. rewrite Ha. apply streq_refl.
Qed.

(** The loop of [reduce] adds up the same total. *)
Lemma reduce_total (outs : list TxOut) (acc : Z) :
  fold_left (fun sum output => sum + out_value output) outs acc =
  acc + fold_right Z.add 0 (map out_value outs).
Proof.
  revert acc. induction outs as [|o outs IH]; intros acc; simpl; [lia|].
  rewrite IH. lia.
Qed.

Lemma find_pays_to (address : jsstring) (outs : list TxOut) (o : TxOut) :
  find (pays_to address) outs = Some o ->
  In o outs /\ scriptpubkey_address o = Some address.
Proof.
  intros H. apply find_some in H. destruct H as [Hin H]. split; [exact Hin|].
  unfold pays_to in H. destruct (scriptpubkey_address o) as [a|];
    [|discriminate].
  apply streq_eq in H. now subst.
Qed.

(** Every transaction gets an entry, classified as specified. *)
Lemma history_entry_classified (address : jsstring) (tx : RawTx) :
  exists t, history_entry address tx = OK t /\ classified address tx t.
Proof.
  unfold history_entry, classified.
  pose proof (spends_from_iff address tx) as Hin.
  pose proof (pays_to_iff address tx) as Hout.
  rewrite <- (is_some_find _ (spends_from address) (vin tx)) in Hin.
  rewrite <- (is_some_find _ (pays_to address) (vout tx)) in Hout.
  pose proof (find_pays_to address (vout tx)) as Hfind.
  destruct (find (spends_from address) (vin tx)) as [i|];
    destruct (find (pays_to address) (vout tx)) as [o|];
    cbn [is_some negb andb] in *.
  - (* among both *)
    change (satoshiToBitcoin (str "0")) with (OK (A := jsstring) (str "0")).
    eexists. split; [reflexivity|]. cbn.
    repeat split; try reflexivity; exfalso; intuition congruence.
  - (* among the inputs only *)
    destruct (base_to_human_returns 8
                (fold_left (fun sum output => sum + out_value output)
                           (vout tx) 0)) as [h Hh].
    rewrite satoshiToBitcoin_shape, Hh.
    eexists. split; [reflexivity|]. cbn.
    repeat split; try reflexivity;
      try solve [exfalso; intuition congruence].
    rewrite reduce_total. reflexivity.
  - (* among the outputs only *)
    destruct (base_to_human_returns 8 (out_value o)) as [h Hh].
    rewrite satoshiToBitcoin_shape, Hh.
    eexists. split; [reflexivity|]. cbn.
    destruct (Hfind o eq_refl) as [Ho Ha].
    repeat split; try reflexivity;
      try solve [exfalso; intuition congruence].
    exists o. repeat split; assumption || reflexivity.
  - (* among neither *)
    change (satoshiToBitcoin (str "0")) with (OK (A := jsstring) (str "0")).
    eexists. split; [reflexivity|]. cbn.
    repeat split; try reflexivity; exfalso; intuition congruence.
Qed.

Lemma map_history_entry (address : jsstring) (txs : list RawTx) :
  exists ts, map_result (history_entry address) txs = OK ts
             /\ Forall2 (classified address) txs ts.
Proof.
  induction txs as [|tx txs (ts & Hts & HF)]; simpl.
  - exists []. split; [reflexivity|constructor].
  - destruct (history_entry_classified address tx) as (t & Ht & Hc).
    rewrite Ht, Hts. exists (t :: ts). split; [reflexivity|].
    now constructor.
Qed.

(** C8.  When the page is safe and the upstream answers the request
    for the transactions of an address with transactions whose outputs are
    not negative and add up to a safe integer, [getHistory] of the Bitcoin
    provider returns a success envelope with one entry for each
    transaction, in order, and each entry is classified as the
    specification says: [send] with the sum of all output values when the
    address is among the spent inputs and not among the outputs, [receive]
    with the value of its output when it is among the outputs only, and
    [send] with the value [0] when it is among both or neither.  Within
    these bounds the sums of the provider are those of the integers. *)
Theorem C8_bitcoin_history_classification (up : Upstream)
    (address : jsstring) (page limit : Z) (s : State (World up))
    (txs : list RawTx) (w : World up) :
  safe_page page limit ->
  get_address_txs up address ((page - 1) * limit) limit (world s)
    = (OK txs, w) ->
  Forall safe_outputs txs ->
  exists h t,
    fst (BitcoinProvider_getHistory up address page limit s)
      = OK (succeed h t)
    /\ Forall2 (classified address) txs (HistoryResponse.transactions h).
Proof.
  intros _ Hreq _.
  destruct (map_history_entry address txs) as (ts & Hts & HF).
  unfold BitcoinProvider_getHistory, bind, try_catch, record_call, request,
    lift, ret, Date_now.
  cbn [world calls]. rewrite Hreq, Hts. cbn.
  eexists. eexists. split; [reflexivity|]. exact HF.
Qed.

(** ** The Bitcoin provider returns envelopes *)

(** [getBalance] of the Bitcoin provider logs its call and returns a
    well-formed envelope, whatever the upstream does. *)
Lemma BitcoinProvider_getBalance_returns (up : Upstream)
    (address : jsstring) (s : State (World up)) :
  exists r w,
    BitcoinProvider_getBalance up address s
      = (OK r, {| world := w; calls := calls s ++ [bitcoin_getBalance address] |})
    /\ well_formed r = true.
Proof.
  unfold BitcoinProvider_getBalance, bind, try_catch, record_call, request,
    lift, ret, Date_now. cbn [world calls].
  destruct (get_address up address (world s)) as [[stats|e] w]; cbn.
  - rewrite satoshiToBitcoin_shape.
    destruct (base_to_human_returns 8
                (funded_txo_sum stats - spent_txo_sum stats)) as [h ->].
    cbn. eexists. eexists. split; reflexivity.
  - eexists. eexists. split; reflexivity.
Qed.

Lemma BitcoinProvider_getHistory_returns (up : Upstream)
    (address : jsstring) (page limit : Z) (s : State (World up)) :
  exists r w,
    BitcoinProvider_getHistory up address page limit s
      = (OK r, {| world := w;
                  calls := calls s ++ [bitcoin_getHistory address page limit] |})
    /\ well_formed r = true.
Proof.
  unfold BitcoinProvider_getHistory, bind, try_catch, record_call, request,
    lift, ret, Date_now. cbn [world calls].
  destruct (get_address_txs up address ((page - 1) * limit) limit (world s))
    as [[txs|e] w]; cbn.
  - destruct (map_history_entry address txs) as (ts & -> & _).
    cbn. eexists. eexists. split; reflexivity.
  - eexists. eexists. split; reflexivity.
Qed.

(** ** Guarded bodies *)

Section Guarded.

Variable up : Upstream.

Lemma guarded_bind (A T : Type) (m : M (World up) A)
    (k : A -> M (World up) (ApiResponse T)) :
  (forall a, guarded up (k a)) -> guarded up (bind m k).
Proof.
  intros Hk s. unfold bind. destruct (m s) as [[a|e] s']; [apply Hk|exact I].
Qed.

Lemma guarded_ret (T : Type) (r : ApiResponse T) :
  well_formed r = true -> guarded up (ret r).
Proof. intros H s. cbn. auto. Qed.

Lemma guarded_throw (T : Type) (e : JSError) :
  guarded up (throw e : M (World up) (ApiResponse T)).
Proof. intros s. exact I. Qed.

Lemma guarded_unsupported (T : Type) (c m : jsstring) :
  guarded up (unsupported up T c m).
Proof. intros s. cbn. auto. Qed.

Lemma guarded_request (T : Type)
    (f : World up -> result (ApiResponse T) * World up) :
  (providers_well_formed up ->
   forall w r w', f w = (OK r, w') -> well_formed r = true) ->
  guarded up (request f).
Proof.
  intros H s. unfold request.
  destruct (f (world s)) as [[r|e] w] eqn:E; cbn; [|exact I].
  intros Hp. exact (H Hp _ _ _ E).
Qed.

Lemma guarded_BitcoinProvider_getBalance (address : jsstring) :
  guarded up (BitcoinProvider_getBalance up address).
Proof.
  intros s.
  destruct (BitcoinProvider_getBalance_returns up address s)
    as (r & w & -> & H).
  cbn. auto.
Qed.

Lemma guarded_BitcoinProvider_getHistory (address : jsstring)
    (page limit : Z) :
  guarded up (BitcoinProvider_getHistory up address page limit).
Proof.
  intros s.
  destruct (BitcoinProvider_getHistory_returns up address page limit s)
    as (r & w & -> & H).
  cbn. auto.
Qed.

(** The handler turns whatever the body throws into an envelope. *)
Lemma try_catch_enveloped (T : Type) (body : M (World up) (ApiResponse T))
    (c fallback : jsstring) :
  guarded up body ->
  enveloped up (try_catch body (service_error up T c fallback)).
Proof.
  intros Hb s. unfold try_catch. specialize (Hb s).
  destruct (body s) as [[r|e] s']; cbn in *.
  - now exists r.
  - eexists. split; [reflexivity|]. reflexivity.
Qed.

End Guarded.

(** Reduces the goal that a method returns an envelope to the requests
    it forwards. *)
Ltac envelope :=
  apply try_catch_enveloped;
  repeat first
    [ apply guarded_unsupported
    | apply guarded_BitcoinProvider_getBalance
    | apply guarded_BitcoinProvider_getHistory
    | apply guarded_throw
    | apply guarded_ret; reflexivity
    | apply guarded_bind; intros
    | match goal with
      | |- guarded _ (if ?b then _ else _) => destruct b
      | |- guarded _ (match ?x with _ => _ end) => destruct x
      end ].

(** ** Every method of the service returns an envelope *)

Section Enveloped.

Variable up : Upstream.

Lemma getBalance_enveloped (address assetId : jsstring) :
  enveloped up (getBalance up address assetId).
Proof.
  unfold getBalance. envelope. apply guarded_request.
  intros Hp w r w' E. now apply Hp in E.
Qed.

Lemma getGas_enveloped (networkId : jsstring) (mode : option GasMode) :
  enveloped up (getGas up networkId mode).
Proof.
  unfold getGas. envelope. apply guarded_request.
  intros Hp w r w' E. now apply Hp in E.
Qed.

Lemma getPrice_enveloped (assetId : jsstring) (currency : option jsstring) :
  enveloped up (getPrice up assetId currency).
Proof.
  unfold getPrice. envelope. apply guarded_request.
  intros Hp w r w' E. now apply Hp in E.
Qed.

Lemma getPriceHistory_enveloped (assetId : jsstring) (days : option Z)
    (currency : option jsstring) :
  enveloped up (getPriceHistory up assetId days currency).
Proof.
  unfold getPriceHistory. envelope. apply guarded_request.
  intros Hp w r w' E. now apply Hp in E.
Qed.

Lemma getHistory_enveloped (address assetId : jsstring)
    (page limit : option Z) :
  enveloped up (getHistory up address assetId page limit).
Proof.
  unfold getHistory. envelope. apply guarded_request.
  intros Hp w r w' E. now apply Hp in E.
Qed.

Lemma getNftOwners_enveloped (contractAddress networkId : jsstring)
    (tokenId : option jsstring) :
  enveloped up (getNftOwners up contractAddress networkId tokenId).
Proof.
  unfold getNftOwners. envelope. apply guarded_request.
  intros Hp w r w' E. now apply Hp in E.
Qed.

Lemma getNftsForOwner_enveloped (owner networkId : jsstring)
    (contractAddress : option jsstring) :
  enveloped up (getNftsForOwner up owner networkId contractAddress).
Proof.
  unfold getNftsForOwner. envelope. apply guarded_request.
  intros Hp w r w' E. now apply Hp in E.
Qed.

Lemma getTokenMetadata_enveloped (assetId : jsstring) :
  enveloped up (getTokenMetadata up assetId).
Proof.
  unfold getTokenMetadata. envelope. apply guarded_request.
  intros Hp w r w' E. now apply Hp in E.
Qed.

Lemma getNftMetadata_enveloped (assetId : jsstring) :
  enveloped up (getNftMetadata up assetId).
Proof.
  unfold getNftMetadata. envelope. apply guarded_request.
  intros Hp w r w' E. now apply Hp in E.
Qed.

Lemma getMultipleBalances_enveloped (address : jsstring)
    (assetIds : list jsstring) :
  enveloped up (getMultipleBalances up address assetIds).
Proof. unfold getMultipleBalances. envelope. Qed.

Lemma getMultiplePrices_enveloped (assetIds : list jsstring)
    (currency : option jsstring) :
  enveloped up (getMultiplePrices up assetIds currency).
Proof.
  unfold getMultiplePrices. envelope. apply guarded_request.
  intros Hp w r w' E. now apply Hp in E.
Qed.

Lemma getPortfolioSummary_enveloped (address : jsstring)
    (assetIds : list jsstring) (currency : option jsstring) :
  enveloped up (getPortfolioSummary up address assetIds currency).
Proof. unfold getPortfolioSummary. envelope. Qed.

End Enveloped.

(** ** What is thrown inside a method comes out as its failure envelope *)

Lemma caught (up : Upstream) (T : Type) (body : M (World up) (ApiResponse T))
    (c fallback : jsstring) (s s' : State (World up)) (e : JSError) :
  body s = (Throw e, s') ->
  failure_with_code c
    (fst (try_catch body (service_error up T c fallback) s)).
Proof.
  intros H. unfold try_catch. rewrite H. cbn.
  eexists. eexists. eexists. reflexivity.
Qed.

(** Runs the body of a method up to the exception the hypotheses name. *)
Ltac thrown :=
  intros; eapply caught;
  unfold bind, lift, record_call, request; cbn [world calls];
  repeat match goal with
         | H : parseAssetId _ = _ |- _ => rewrite H
         | H : AssetType_eqb _ _ = _ |- _ => rewrite H
         | H : streq _ _ = _ |- _ => rewrite H
         | H : _ = (Throw _, _) |- _ => rewrite H
         end;
  reflexivity.

(** C7.  Each of the twelve methods of the service returns an envelope
    from every state and for every argument; when the envelopes the
    Alchemy and CoinGecko providers return are well formed, the envelope
    returned has exactly one of [data] and [error], with [data] exactly
    when [success] holds; and an exception of the parser or of a forwarded
    provider call comes out as a failure envelope with the code of the
    method. *)
Theorem C7_every_method_returns_an_envelope (up : Upstream) :
  ((forall address assetId, enveloped up (getBalance up address assetId))
   /\ (forall networkId mode, enveloped up (getGas up networkId mode))
   /\ (forall assetId currency, enveloped up (getPrice up assetId currency))
   /\ (forall assetId days currency,
          enveloped up (getPriceHistory up assetId days currency))
   /\ (forall address assetId page limit,
          enveloped up (getHistory up address assetId page limit))
   /\ (forall contractAddress networkId tokenId,
          enveloped up (getNftOwners up contractAddress networkId tokenId))
   /\ (forall owner networkId contractAddress,
          enveloped up (getNftsForOwner up owner networkId contractAddress))
   /\ (forall assetId, enveloped up (getTokenMetadata up assetId))
   /\ (forall assetId, enveloped up (getNftMetadata up assetId))
   /\ (forall address assetIds,
          enveloped up (getMultipleBalances up address assetIds))
   /\ (forall assetIds currency,
          enveloped up (getMultiplePrices up assetIds currency))
   /\ (forall address assetIds currency,
          enveloped up (getPortfolioSummary up address assetIds currency)))
  /\ ((* the parser throws *)
      (forall address assetId s e,
          parseAssetId assetId = Throw e ->
          failure_with_code (str "BALANCE_SERVICE_ERROR")
            (fst (getBalance up address assetId s)))
      /\ (forall address assetId page limit s e,
             parseAssetId assetId = Throw e ->
             failure_with_code (str "HISTORY_SERVICE_ERROR")
               (fst (getHistory up address assetId page limit s)))
      /\ (forall assetId s e,
             parseAssetId assetId = Throw e ->
             failure_with_code (str "TOKEN_METADATA_SERVICE_ERROR")
               (fst (getTokenMetadata up assetId s)))
      /\ (forall assetId s e,
             parseAssetId assetId = Throw e ->
             failure_with_code (str "NFT_METADATA_SERVICE_ERROR")
               (fst (getNftMetadata up assetId s))))
  /\ ((* a provider call throws *)
      (forall address assetId s info e w,
          parseAssetId assetId = OK info ->
          AssetType_eqb (type info) bitcoin = false ->
          AlchemyProvider_getBalance up address assetId (world s)
            = (Throw e, w) ->
          failure_with_code (str "BALANCE_SERVICE_ERROR")
            (fst (getBalance up address assetId s)))
      /\ (forall networkId mode s e w,
             streq networkId (str "bitcoin") = false ->
             AlchemyProvider_getGas up networkId (default eip1559 mode)
               (world s) = (Throw e, w) ->
             failure_with_code (str "GAS_SERVICE_ERROR")
               (fst (getGas up networkId mode s)))
      /\ (forall assetId currency s e w,
             CoinGeckoProvider_getPrice up assetId
               (default (str "usd") currency) (world s) = (Throw e, w) ->
             failure_with_code (str "PRICE_SERVICE_ERROR")
               (fst (getPrice up assetId currency s)))
      /\ (forall assetId days currency s e w,
             CoinGeckoProvider_getPriceHistory up assetId (default 7 days)
               (default (str "usd") currency) (world s) = (Throw e, w) ->
             failure_with_code (str "PRICE_HISTORY_SERVICE_ERROR")
               (fst (getPriceHistory up assetId days currency s)))
      /\ (forall address assetId page limit s info e w,
             parseAssetId assetId = OK info ->
             AssetType_eqb (type info) bitcoin = false ->
             AlchemyProvider_getHistory up address assetId (default 1 page)
               (default 50 limit) (world s) = (Throw e, w) ->
             failure_with_code (str "HISTORY_SERVICE_ERROR")
               (fst (getHistory up address assetId page limit s)))
      /\ (forall contractAddress networkId tokenId s e w,
             streq networkId (str "bitcoin") = false ->
             AlchemyProvider_getNftOwners up contractAddress networkId
               tokenId (world s) = (Throw e, w) ->
             failure_with_code (str "NFT_OWNERS_SERVICE_ERROR")
               (fst (getNftOwners up contractAddress networkId tokenId s)))
      /\ (forall owner networkId contractAddress s e w,
             streq networkId (str "bitcoin") = false ->
             AlchemyProvider_getNftsForOwner up owner networkId
               contractAddress (world s) = (Throw e, w) ->
             failure_with_code (str "NFTS_FOR_OWNER_SERVICE_ERROR")
               (fst (getNftsForOwner up owner networkId contractAddress s)))
      /\ (forall assetId s info e w,
             parseAssetId assetId = OK info ->
             AssetType_eqb (type info) bitcoin = false ->
             AlchemyProvider_getTokenMetadata up assetId (world s)
               = (Throw e, w) ->
             failure_with_code (str "TOKEN_METADATA_SERVICE_ERROR")
               (fst (getTokenMetadata up assetId s)))
      /\ (forall assetId s info e w,
             parseAssetId assetId = OK info ->
             AssetType_eqb (type info) bitcoin = false ->
             AlchemyProvider_getNftMetadata up assetId (world s)
               = (Throw e, w) ->
             failure_with_code (str "NFT_METADATA_SERVICE_ERROR")
               (fst (getNftMetadata up assetId s)))
      /\ (forall assetIds currency s e w,
             CoinGeckoProvider_getMultiplePrices up assetIds
               (default (str "usd") currency) (world s) = (Throw e, w) ->
             failure_with_code (str "MULTIPLE_PRICES_SERVICE_ERROR")
               (fst (getMultiplePrices up assetIds currency s)))).
Proof.
  split; [|split].
  - repeat split; intros.
    + apply getBalance_enveloped.
    + apply getGas_enveloped.
    + apply getPrice_enveloped.
    + apply getPriceHistory_enveloped.
    + apply getHistory_enveloped.
    + apply getNftOwners_enveloped.
    + apply getNftsForOwner_enveloped.
    + apply getTokenMetadata_enveloped.
    + apply getNftMetadata_enveloped.
    + apply getMultipleBalances_enveloped.
    + apply getMultiplePrices_enveloped.
    + apply getPortfolioSummary_enveloped.
  - repeat split; thrown.
  - repeat split; thrown.
Qed.

Lemma sample_providers_well_formed : providers_well_formed sample_upstream.
Proof.
  unfold providers_well_formed, sample_upstream; cbn.
  repeat split; intros;
    match goal with
    | H : (OK _, _) = (OK _, _) |- _ => injection H as <- _
    end; try reflexivity.
  match goal with
  | |- context [if ?b then _ else _] => destruct b
  end; reflexivity.
Qed.

Lemma C7_every_method_returns_an_envelope_witness :
  providers_well_formed sample_upstream
  /\ exists r,
       fst (getBalance sample_upstream (str "A") (str "a:b:c:d") sample_state)
         = OK r
       /\ well_formed r = true.
Proof.
  split; [exact sample_providers_well_formed|].
  destruct (proj1 (proj1 (C7_every_method_returns_an_envelope
                            sample_upstream))
              (str "A") (str "a:b:c:d") sample_state) as (r & Hr & Hwf).
  exists r. split; [exact Hr|exact (Hwf sample_providers_well_formed)].
Defined.

(** ** Routing *)

(** The test the service makes, [assetInfo.type === 'bitcoin']. *)
Lemma AssetType_eqb_eq (a b : AssetType) : AssetType_eqb a b = true <-> a = b.
Proof. destruct a, b; simpl; split; congruence. Qed.


(** ** Joined sub-calls *)

Lemma own_property_obj_set (T : Type) (a k : jsstring) (v : T)
    (o : JSObject T) :
  a <> k ->
  own_property a (own (obj_set k v o)) = own_property a (own o).
Proof.
  intros Hak. unfold obj_set.
  destruct (streq k (str "__proto__")); cbn; [reflexivity|].
  apply streq_neq in Hak. now rewrite Hak.
Qed.

(** The loop of [getMultipleBalances] runs to its end, and an asset whose
    [getBalance] never succeeds gets no entry. *)
Lemma collect_balances_returns (up : Upstream) (address : jsstring)
    (assetIds : list jsstring) (results : JSObject BalanceResponse.t)
    (s : State (World up)) :
  exists results',
    fst (collect_balances up address results assetIds s) = OK results'
    /\ forall a,
         (forall s0 r, fst (getBalance up address a s0) = OK r ->
                       success r = false) ->
         own_property a (own results) = None ->
         own_property a (own results') = None.
Proof.
  revert results s.
  induction assetIds as [|x rest IH]; intros results s.
  - exists results. split; [reflexivity|auto].
  - cbn [collect_balances]. unfold bind at 1. unfold collect_balance.
    unfold bind at 1.
    destruct (getBalance_enveloped up address x s) as (r & Hr & _).
    destruct (getBalance up address x s) as [res s1] eqn:E.
    cbn in Hr. subst res.
    destruct (success r) eqn:Es; [destruct (data r) as [d|] eqn:Ed|];
      cbn [ret].
    + destruct (IH (obj_set x d results) s1) as (results' & Hrun & Hkeep).
      exists results'. split; [exact Hrun|].
      intros a Hfail Hnone. apply Hkeep; [exact Hfail|].
      rewrite own_property_obj_set; [exact Hnone|].
      intros ->. specialize (Hfail s r). rewrite E in Hfail.
      specialize (Hfail eq_refl). congruence.
    + destruct (IH results s1) as (results' & Hrun & Hkeep).
      exists results'. split; [exact Hrun|auto].
    + destruct (IH results s1) as (results' & Hrun & Hkeep).
      exists results'. split; [exact Hrun|auto].
Qed.

(** Every entry the loop of [getMultipleBalances] adds is the data of a
    sub-call of the run, for that asset, that succeeded. *)
Lemma collect_balances_entries (up : Upstream) (address : jsstring)
    (assetIds : list jsstring) (results : JSObject BalanceResponse.t)
    (s : State (World up)) :
  exists results',
    fst (collect_balances up address results assetIds s) = OK results'
    /\ forall a d,
         own_property a (own results') = Some d ->
         own_property a (own results) = Some d
         \/ exists r, In (a, r) (sub_calls up address assetIds s)
                      /\ kept r = Some d.
Proof.
  revert results s.
  induction assetIds as [|x rest IH]; intros results s.
  - exists results. split; [reflexivity|auto].
  - cbn [collect_balances sub_calls]. unfold bind at 1.
    unfold collect_balance. unfold bind at 1.
    destruct (getBalance_enveloped up address x s) as (r & Hr & _).
    destruct (getBalance up address x s) as [res s1] eqn:E.
    cbn [fst snd] in *. subst res.
    assert (forall results1,
               (forall a d,
                   own_property a (own results1) = Some d ->
                   own_property a (own results) = Some d
                   \/ (a = x /\ kept (OK r) = Some d)) ->
               exists results',
                 fst (collect_balances up address results1 rest s1)
                   = OK results'
                 /\ forall a d,
                      own_property a (own results') = Some d ->
                      own_property a (own results) = Some d
                      \/ exists r0,
                           In (a, r0)
                              ((x, OK r) :: sub_calls up address rest s1)
                           /\ kept r0 = Some d) as Hstep.
    { intros results1 H1.
      destruct (IH results1 s1) as (results' & Hrun & Hkeep).
      exists results'. split; [exact Hrun|].
      intros a d Hd. destruct (Hkeep a d Hd) as [Hold|(r0 & Hin & Hk)].
      - destruct (H1 a d Hold) as [Hres|[-> Hk]]; [now left|].
        right. exists (OK r). split; [now left|exact Hk].
      - right. exists r0. split; [now right|exact Hk]. }
    destruct (success r) eqn:Es; [destruct (data r) as [d0|] eqn:Ed|];
      cbn [ret]; apply Hstep; auto.
    intros a d. unfold obj_set.
    destruct (streq x (str "__proto__")); cbn [own]; [auto|].
    cbn [own_property]. case_streq a x; [|auto].
    intros [= <-]. right. split; [exact E0|].
    cbn [kept]. now rewrite Es.
Qed.

Lemma sub_calls_states (up : Upstream) (address : jsstring)
    (assetIds : list jsstring) (s : State (World up)) (a : jsstring)
    (r : result (ApiResponse BalanceResponse.t)) :
  In (a, r) (sub_calls up address assetIds s) ->
  In a assetIds /\ exists s0, r = fst (getBalance up address a s0).
Proof.
  revert s. induction assetIds as [|x rest IH]; intros s; cbn; [tauto|].
  intros [[= <- <-]|H].
  - split; [now left|now exists s].
  - destruct (IH _ H) as [Hin Hs]. split; [now right|exact Hs].
Qed.

(** With price data at hand the loop of [getPortfolioSummary] runs to
    its end. *)
Lemma portfolio_loop_returns (up : Upstream)
    (balances : JSObject BalanceResponse.t)
    (prices : JSObject (PriceResponse.t (Num up)))
    (acc : Num up * list (PortfolioEntry.t (Num up)))
    (assetIds : list jsstring) :
  exists acc', portfolio_loop up balances (Some prices) acc assetIds = OK acc'.
Proof.
  revert acc. induction assetIds as [|x rest IH]; intros acc.
  - now exists acc.
  - cbn [portfolio_loop]. unfold portfolio_step.
    match goal with
    | |- context [if ?b then _ else _] => destruct b
    end; apply IH.
Qed.

(** C5, as amended.  [getMultipleBalances] returns a success envelope
    whatever its sub-calls do, and a sub-call that does not succeed is
    dropped: every entry of the data is the data of a sub-call of this run,
    for that asset, that succeeded, so that an asset none of whose
    sub-calls in this run succeeds has no entry.  [getPortfolioSummary]
    joins it with [getMultiplePrices]: when the prices envelope is a
    failure it returns a failure envelope with the code
    PORTFOLIO_SUMMARY_SERVICE_ERROR; when the prices envelope is a success
    with data it returns a success envelope, whichever balances failed. *)
Theorem C5_joined_sub_calls (up : Upstream) (address : jsstring)
    (assetIds : list jsstring) (currency : option jsstring)
    (s : State (World up)) :
  (exists results t,
      fst (getMultipleBalances up address assetIds s)
        = OK (succeed results t)
      /\ (forall a d,
             own_property a (own results) = Some d ->
             exists r, In (a, r) (sub_calls up address assetIds s)
                       /\ kept r = Some d)
      /\ (forall a,
             (forall r, In (a, r) (sub_calls up address assetIds s) ->
                        kept r = None) ->
             own_property a (own results) = None)
      /\ forall a,
           (forall s0 r, fst (getBalance up address a s0) = OK r ->
                         success r = false) ->
           own_property a (own results) = None)
  /\ forall prices,
       fst (getMultiplePrices up assetIds (Some (default (str "usd") currency))
              (snd (getMultipleBalances up address assetIds s)))
         = OK prices ->
       (success prices = false ->
        exists t,
          fst (getPortfolioSummary up address assetIds currency s)
            = OK (failure _ (str "PORTFOLIO_SUMMARY_SERVICE_ERROR")
                    (str "Failed to fetch portfolio data")
                    (details_error
                       (new_Error (str "Failed to fetch portfolio data")))
                    t))
       /\ (success prices = true -> data prices <> None ->
           exists summary t,
             fst (getPortfolioSummary up address assetIds currency s)
               = OK (succeed summary t)).
Proof.
  assert (exists results s1,
             getMultipleBalances up address assetIds s
               = (OK (succeed results (clock up (world s1))), s1)
             /\ forall a d,
                  own_property a (own results) = Some d ->
                  exists r, In (a, r) (sub_calls up address assetIds s)
                            /\ kept r = Some d) as Hbal.
  { unfold getMultipleBalances, try_catch, bind.
    destruct (collect_balances_entries up address assetIds (empty_object _) s)
      as (results & Hrun & Hkeep).
    destruct (collect_balances up address (empty_object _) assetIds s)
      as [res s1]. cbn in Hrun. subst res. cbn.
    exists results, s1. split; [reflexivity|].
    intros a d Hd. destruct (Hkeep a d Hd) as [Hnone|H]; [|exact H].
    discriminate Hnone. }
  destruct Hbal as (results & s1 & Hbal & Hkeep).
  assert (forall a,
             (forall r, In (a, r) (sub_calls up address assetIds s) ->
                        kept r = None) ->
             own_property a (own results) = None) as Hdrop.
  { intros a Hfail.
    destruct (own_property a (own results)) as [d|] eqn:Hd; [|reflexivity].
    destruct (Hkeep a d Hd) as (r & Hin & Hk).
    rewrite (Hfail r Hin) in Hk. discriminate. }
  split.
  - rewrite Hbal. exists results, (clock up (world s1)).
    split; [reflexivity|]. split; [exact Hkeep|]. split; [exact Hdrop|].
    intros a Hfail. apply Hdrop. intros r Hin.
    destruct (sub_calls_states up address assetIds s a r Hin)
      as [_ [s0 ->]].
    specialize (Hfail s0). unfold kept.
    destruct (fst (getBalance up address a s0)) as [e|e]; [|reflexivity].
    now rewrite (Hfail e eq_refl).
  - intros prices Hprices. rewrite Hbal in Hprices. cbn [snd] in Hprices.
    destruct (getMultiplePrices up assetIds
                (Some (default (str "usd") currency)) s1)
      as [pr s2] eqn:Epr.
    cbn [fst] in Hprices. subst pr.
    split.
    + intros Hfail.
      unfold getPortfolioSummary, try_catch, bind. rewrite Hbal, Epr.
      cbn [success succeed negb orb]. rewrite Hfail. cbn.
      eexists. reflexivity.
    + intros Hsucc Hdata.
      unfold getPortfolioSummary, try_catch, bind. rewrite Hbal, Epr.
      cbn [success succeed negb orb data]. rewrite Hsucc. cbn [negb].
      destruct (data prices) as [pd|]; [|contradiction].
      unfold lift.
      destruct (portfolio_loop_returns up results pd (num_zero up, [])
                  assetIds) as [acc ->].
      cbn. eexists. eexists. reflexivity.
Qed.

Lemma C5_joined_sub_calls_witness :
  exists results t,
    fst (getMultipleBalances sample_upstream (str "A")
           [str "bitcoin"; str "polygon"] sample_state)
      = OK (succeed results t)
    /\ own_property (str "polygon") (own results) = None.
Proof.
  destruct (proj1 (C5_joined_sub_calls sample_upstream (str "A")
                     [str "bitcoin"; str "polygon"] None sample_state))
    as (results & t & Hrun & _ & Hdrop & _).
  exists results, t. split; [exact Hrun|].
  apply Hdrop. intros r [[= _ <-]|[[= <-]|[]]]. reflexivity.
Defined.

(** C5 as the specification states it fails: with one balance that
    fails and one that succeeds, [getMultipleBalances] and
    [getPortfolioSummary] return success envelopes that hold the one. *)
Lemma C5_joined_sub_calls_counterexample :
  (forall s, exists r,
      fst (getBalance sample_upstream (str "A") (str "polygon") s) = OK r
      /\ success r = false)
  /\ (exists r d,
         fst (getMultipleBalances sample_upstream (str "A")
                [str "bitcoin"; str "polygon"] sample_state) = OK r
         /\ success r = true
         /\ data r = Some d
         /\ map fst (own d) = [str "bitcoin"])
  /\ (exists r d,
         fst (getPortfolioSummary sample_upstream (str "A")
                [str "bitcoin"; str "polygon"] None sample_state) = OK r
         /\ success r = true
         /\ data r = Some d
         /\ map (@PortfolioEntry.assetId _) (PortfolioSummary.portfolio d)
            = [str "bitcoin"]).
Proof.
  split; [|split].
  - intros [w c]. cbn. eexists. split; reflexivity.
  - vm_compute. eexists. eexists. repeat split; reflexivity.
  - vm_compute. eexists. eexists. repeat split; reflexivity.
Qed.

Lemma sample_transactions_safe : Forall safe_outputs sample_transactions.
Proof.
  repeat constructor; cbn;
    try (intros o H; repeat destruct H as [<-|H]; cbn; (lia || contradiction));
    unfold total_output, MAX_SAFE_INTEGER; cbn; lia.
Qed.

Lemma sample_page_safe : safe_page 1 50.
Proof. unfold safe_page, safe_integer, MAX_SAFE_INTEGER. cbn. lia. Qed.

Lemma C8_bitcoin_history_classification_witness :
  safe_page 1 50
  /\ get_address_txs sample_upstream (str "A") ((1 - 1) * 50) 50
       (world sample_state) = (OK sample_transactions, 1%nat)
  /\ Forall safe_outputs sample_transactions
  /\ exists h t,
       fst (BitcoinProvider_getHistory sample_upstream (str "A") 1 50
              sample_state) = OK (succeed h t)
       /\ Forall2 (classified (str "A")) sample_transactions
            (HistoryResponse.transactions h).
Proof.
  split; [exact sample_page_safe|]. split; [reflexivity|].
  split; [exact sample_transactions_safe|].
  apply (C8_bitcoin_history_classification sample_upstream (str "A") 1 50
           sample_state sample_transactions 1%nat).
  - exact sample_page_safe.
  - reflexivity.
  - exact sample_transactions_safe.
Defined.

(** The three sample transactions, as [getHistory] reports them for A. *)
Lemma sample_history_values :
  option_map
    (map (fun t => (Transaction.type t, Transaction.value t)))
    (match fst (BitcoinProvider_getHistory sample_upstream (str "A") 1 50
                  sample_state) with
     | OK r => option_map HistoryResponse.transactions (data r)
     | Throw _ => None
     end)
  = Some [(send, str "450"); (receive, str "600"); (send, str "0")].
Proof. reflexivity. Qed.

(* ================================================================= *)
(** * Further properties of the code *)

Local Open Scope Z_scope.

(** ** More of the parser *)

Lemma includes_app (sep : ascii) (a b : jsstring) :
  includes sep (a ++ b) = includes sep a || includes sep b.
Proof. unfold includes. apply existsb_app. Qed.

(** No segment of a split holds the separator. *)
Lemma split_segments (sep : ascii) (s : jsstring) :
  Forall (fun w => includes sep w = false) (split sep s).
Proof.
  induction s as [|c s IH]; simpl; [repeat constructor|].
  destruct (Ascii.eqb c sep) eqn:E.
  - constructor; [reflexivity|exact IH].
  - destruct (split sep s) as [|w ws]; [repeat constructor; simpl|].
    + now rewrite Ascii.eqb_sym, E.
    + inversion IH as [|? ? Hw Hws]; subst. constructor; [|exact Hws].
      unfold includes in *. simpl. now rewrite Ascii.eqb_sym, E, Hw.
Qed.

(** What [parseCAIPAssetId] returns, by the network it resolved. *)
Lemma parseCAIPAssetId_eip155 (x chainPart assetPart : jsstring)
    (rest : list jsstring) (info : AssetInfo) :
  split "/" x = chainPart :: assetPart :: rest ->
  hd [] (split ":" chainPart) = str "eip155" ->
  parseCAIPAssetId x = OK info ->
  networkId info = resolve_chain (nth_error (split ":" chainPart) 1).
Proof.
  intros Hs Hc. unfold parseCAIPAssetId. rewrite Hs, Hc. cbv zeta.
  change (streq (str "eip155") (str "bip122")) with false.
  change (streq (str "eip155") (str "eip155")) with true. cbv iota.
  repeat match goal with
         | |- context [if ?b then _ else _] => destruct b
         end;
  try destruct (contract_and_token _); intros [= <-]; reflexivity.
Qed.

(** X1.  The chain reference of an eip155 identifier the parser accepts
    decides the network: a reference of the parser's table gives the
    registry entry whose chain id prints as that reference, and that the
    Alchemy and CoinGecko tables know too; a reference that names a member
    of [Object.prototype] gives that member, which is no string; any other
    reference gives [eip155:<reference>], which is in none of the three
    tables. *)
Theorem X1_eip155_network_resolution (x : jsstring) (info : AssetInfo) :
  includes "/" x = true ->
  chain_namespace x = str "eip155" ->
  parseAssetId x = OK info ->
  match own_property (show_opt (chain_reference x)) chainIdMap with
  | Some n =>
      networkId info = net n
      /\ exists nw,
           own_property n NETWORKS = Some nw
           /\ Network.id nw = n
           /\ toString (Network.chainId nw) = show_opt (chain_reference x)
           /\ own_property n ALCHEMY_NETWORKS <> None
           /\ own_property n COINGECKO_COIN_IDS <> None
  | None =>
      if is_object_prototype_key (show_opt (chain_reference x))
      then networkId info = inherited_member (show_opt (chain_reference x))
      else
        networkId info = net (str "eip155:" ++ show_opt (chain_reference x))
        /\ table_get (str "eip155:" ++ show_opt (chain_reference x)) NETWORKS
           = falsy
        /\ table_get (str "eip155:" ++ show_opt (chain_reference x))
             ALCHEMY_NETWORKS = falsy
        /\ table_get (str "eip155:" ++ show_opt (chain_reference x))
             COINGECKO_COIN_IDS = falsy
  end.
Proof.
  intros Hslash Hns Hparse. unfold parseAssetId in Hparse.
  rewrite Hslash in Hparse.
  destruct (split_includes "/" x Hslash) as (cp & ap & rest & Hs).
  unfold chain_namespace in Hns. unfold chain_reference.
  rewrite Hs in *. cbn [hd] in *.
  rewrite (parseCAIPAssetId_eip155 x cp ap rest info Hs Hns Hparse).
  unfold resolve_chain.
  set (ref := show_opt (nth_error (split ":" cp) 1)).
  unfold chainIdMap. cbn [own_property].
  repeat match goal with
         | |- context [if streq ref ?k then _ else _] => case_streq ref k
         end;
    try (split; [reflexivity|];
         eexists; split; [reflexivity|];
         repeat split; try discriminate;
         match goal with H : ref = _ |- _ => now rewrite H end).
  destruct (is_object_prototype_key ref); [reflexivity|].
  repeat split.
Qed.

Lemma X1_eip155_network_resolution_witness :
  includes "/" (str "eip155:137/erc20:0xabc") = true
  /\ chain_namespace (str "eip155:137/erc20:0xabc") = str "eip155"
  /\ parseAssetId (str "eip155:137/erc20:0xabc") =
       OK (mkAssetInfo (str "eip155:137/erc20:0xabc") (net (str "polygon"))
             (Some (str "0xabc")) None erc20)
  /\ exists nw,
       own_property (str "polygon") NETWORKS = Some nw
       /\ Network.id nw = str "polygon"
       /\ toString (Network.chainId nw) = str "137"
       /\ own_property (str "polygon") ALCHEMY_NETWORKS <> None
       /\ own_property (str "polygon") COINGECKO_COIN_IDS <> None.
Proof.
  split; [reflexivity|]. split; [reflexivity|]. split; [reflexivity|].
  exact (proj2 (X1_eip155_network_resolution (str "eip155:137/erc20:0xabc")
                  (mkAssetInfo (str "eip155:137/erc20:0xabc")
                     (net (str "polygon")) (Some (str "0xabc")) None erc20)
                  eq_refl eq_refl eq_refl)).
Defined.

(** X2.  A CAIP identifier whose chain namespace is neither bip122 nor
    eip155 is rejected with the message that names the namespace, whatever
    its asset part: the chain is looked at first. *)
Theorem X2_unsupported_chain_namespace (x : jsstring) :
  includes "/" x = true ->
  chain_namespace x <> str "bip122" ->
  chain_namespace x <> str "eip155" ->
  parseAssetId x =
    Throw (new_Error (str "Unsupported chain namespace: " ++ chain_namespace x)).
Proof.
  intros Hslash H1 H2. unfold parseAssetId. rewrite Hslash.
  destruct (split_includes "/" x Hslash) as (cp & ap & rest & Hs).
  unfold chain_namespace in *. unfold parseCAIPAssetId.
  rewrite Hs in *. cbn [hd] in *.
  apply streq_neq in H1, H2. now rewrite H1, H2.
Qed.

Lemma X2_unsupported_chain_namespace_witness :
  includes "/" (str "solana:mainnet/slip44:501") = true
  /\ parseAssetId (str "solana:mainnet/slip44:501") =
       Throw (new_Error (str "Unsupported chain namespace: solana")).
Proof.
  split; [reflexivity|].
  apply (X2_unsupported_chain_namespace (str "solana:mainnet/slip44:501"));
    [reflexivity | discriminate | discriminate].
Defined.

Lemma contract_and_token_cases (r : jsstring) :
  (exists c t, split ":" r = [c; t]
               /\ contract_and_token r = (Some c, Some t))
  \/ (List.length (split ":" r) <> 2%nat
      /\ contract_and_token r = (Some r, None)).
Proof.
  unfold contract_and_token.
  destruct (split ":" r) as [|a [|b [|c l]]]; simpl;
    try (right; split; [lia|reflexivity]).
  left. now exists a, b.
Qed.

(** X3.  For the asset namespaces erc721 and erc1155 the token id is
    present exactly when the asset reference has two colon-separated
    parts; the reference is then the contract address, a colon and the
    token id, neither of which holds a colon.  In every other case the
    whole reference, colons included, is the contract address. *)
Theorem X3_nft_reference_split (x : jsstring) (info : AssetInfo) :
  includes "/" x = true ->
  parseAssetId x = OK info ->
  type info = erc721 \/ type info = erc1155 ->
  match tokenId info with
  | Some t =>
      exists c, contractAddress info = Some c
                /\ asset_reference x = c ++ str ":" ++ t
                /\ includes ":" c = false /\ includes ":" t = false
  | None =>
      contractAddress info = Some (asset_reference x)
      /\ List.length (split ":" (asset_reference x)) <> 2%nat
  end.
Proof.
  intros Hslash Hparse Htype. unfold parseAssetId in Hparse.
  rewrite Hslash in Hparse.
  destruct (split_includes "/" x Hslash) as (cp & ap & rest & Hs).
  unfold asset_reference. unfold parseCAIPAssetId in Hparse.
  rewrite Hs in *. cbn [nth].
  set (ref := join (str ":") (tl (split ":" ap))) in *.
  assert (forall c t, contract_and_token ref = (c, t) ->
            match t with
            | Some t' =>
                exists c', c = Some c' /\ ref = c' ++ str ":" ++ t'
                           /\ includes ":" c' = false
                           /\ includes ":" t' = false
            | None => c = Some ref /\ List.length (split ":" ref) <> 2%nat
            end) as Hcut.
  { intros c t Hct.
    destruct (contract_and_token_cases ref)
      as [(c' & t' & Hsp & E) | (Hlen & E)];
      rewrite E in Hct; injection Hct as <- <-.
    - exists c'. split; [reflexivity|].
      pose proof (join_split ":" ref) as Hj.
      pose proof (split_segments ":" ref) as Hseg.
      rewrite Hsp in Hj, Hseg. simpl in Hj.
      inversion Hseg as [|? ? Hc Hseg']; subst.
      inversion Hseg' as [|? ? Ht _]; subst.
      repeat split; [now symmetry|exact Hc|exact Ht].
    - now split. }
  revert Hparse.
  repeat match goal with
         | |- context [if ?b then _ else _] => destruct b
         end; try discriminate;
  try (intros [= <-]; simpl in Htype; destruct Htype; discriminate);
  try (match goal with
       | |- context [match ?n with net _ => _ | inherited_member _ => _ end]
         => destruct n
       end;
       repeat match goal with
              | |- context [if ?b then _ else _] => destruct b
              end;
       intros [= <-]; simpl in Htype; destruct Htype; discriminate);
  destruct (contract_and_token ref) as [c t] eqn:E;
  intros [= <-]; cbn [tokenId contractAddress]; exact (Hcut c t eq_refl).
Qed.

Lemma X3_nft_reference_split_witness :
  exists c,
    Some (str "0xABC") = Some c
    /\ asset_reference (str "eip155:1/erc1155:0xABC:7") = c ++ str ":" ++ str "7"
    /\ includes ":" c = false /\ includes ":" (str "7") = false.
Proof.
  exact (X3_nft_reference_split (str "eip155:1/erc1155:0xABC:7")
           (mkAssetInfo (str "eip155:1/erc1155:0xABC:7")
              (net (str "ethereum")) (Some (str "0xABC")) (Some (str "7"))
              erc1155)
           eq_refl eq_refl (or_intror eq_refl)).
Defined.

(** A reference with a second colon is kept whole as the contract. *)
Lemma nft_reference_with_two_colons :
  parseAssetId (str "eip155:1/erc721:0xABC:123:4") =
    OK (mkAssetInfo (str "eip155:1/erc721:0xABC:123:4")
          (net (str "ethereum")) (Some (str "0xABC:123:4")) None erc721).
Proof. reflexivity. Qed.

(** The legacy parser on one, two and three segments without a slash. *)
Lemma includes_str_false (sep : ascii) (a b : jsstring) :
  includes sep a = false -> includes sep b = false ->
  includes sep (a ++ b) = false.
Proof. intros Ha Hb. now rewrite includes_app, Ha, Hb. Qed.

Lemma has_colon_not_bitcoin (a b : jsstring) :
  streq (a ++ ":"%char :: b) (str "bitcoin") = false.
Proof.
  apply streq_neq. intros E.
  assert (includes ":" (a ++ ":"%char :: b) = true) as H.
  { rewrite includes_app. simpl. apply orb_true_r. }
  rewrite E in H. discriminate.
Qed.

(** X4.  Parsing what [buildAssetId] builds gives the components back:
    for a network name other than [bitcoin] and a contract address and
    token id that are not empty, none of them with a colon or a slash, the
    network alone parses as a native asset, with the contract as an erc20
    asset, and with the token id as well as an erc721 asset; and whatever
    is built for the network [bitcoin] parses as the bitcoin asset. *)
Theorem X4_parse_after_build (n c t : jsstring) :
  n <> str "bitcoin" -> c <> [] -> t <> [] ->
  includes ":" n = false -> includes "/" n = false ->
  includes ":" c = false -> includes "/" c = false ->
  includes ":" t = false -> includes "/" t = false ->
  parseAssetId (buildAssetId n None None)
    = OK (mkAssetInfo (buildAssetId n None None) (net n) None None native)
  /\ parseAssetId (buildAssetId n (Some c) None)
     = OK (mkAssetInfo (buildAssetId n (Some c) None) (net n) (Some c) None
             erc20)
  /\ parseAssetId (buildAssetId n (Some c) (Some t))
     = OK (mkAssetInfo (buildAssetId n (Some c) (Some t)) (net n) (Some c)
             (Some t) erc721)
  /\ forall c' t',
       parseAssetId (buildAssetId (str "bitcoin") c' t')
       = OK (mkAssetInfo (str "bitcoin") (net (str "bitcoin")) None None
               bitcoin).
Proof.
  intros Hn Hc Ht Hn1 Hn2 Hc1 Hc2 Ht1 Ht2.
  assert (streq n (str "bitcoin") = false) as Hnb by now apply streq_neq.
  assert (truthy c = true) as Hct by (destruct c; [contradiction|reflexivity]).
  assert (truthy t = true) as Htt by (destruct t; [contradiction|reflexivity]).
  unfold buildAssetId, truthy_opt, show_opt. rewrite Hnb, Hct, Htt.
  cbn [negb]. change (str ":") with [":"%char]. cbn [app].
  repeat split.
  - unfold parseAssetId. rewrite Hn2, Hnb.
    now rewrite (split_without ":" n Hn1).
  - unfold parseAssetId.
    rewrite includes_app, Hn2. cbn [includes existsb orb].
    change (existsb (Ascii.eqb "/") c) with (includes "/" c). rewrite Hc2.
    cbn. rewrite has_colon_not_bitcoin.
    rewrite (split_at_first ":" n c Hn1), (split_without ":" c Hc1).
    reflexivity.
  - unfold parseAssetId.
    rewrite includes_app, Hn2. cbn [includes existsb orb].
    change (existsb (Ascii.eqb "/") (c ++ ":"%char :: t))
      with (includes "/" (c ++ ":"%char :: t)).
    rewrite includes_app, Hc2. cbn [includes existsb orb].
    change (existsb (Ascii.eqb "/") t) with (includes "/" t). rewrite Ht2.
    cbn. rewrite has_colon_not_bitcoin.
    rewrite (split_at_first ":" n _ Hn1), (split_at_first ":" c t Hc1),
      (split_without ":" t Ht1).
    reflexivity.
Qed.

Lemma X4_parse_after_build_witness :
  parseAssetId (buildAssetId (str "polygon") (Some (str "0xabc"))
                  (Some (str "9")))
  = OK (mkAssetInfo (str "polygon:0xabc:9") (net (str "polygon"))
          (Some (str "0xabc")) (Some (str "9")) erc721).
Proof.
  apply (X4_parse_after_build (str "polygon") (str "0xabc") (str "9"));
    (discriminate || reflexivity).
Defined.

(** X5.  A legacy identifier the parser accepts is typed by the number
    of its segments alone, the literal [bitcoin] apart: bitcoin exactly for
    that literal, native for any other single segment, erc20 for two
    segments and erc721 for three, never erc1155; and the record keeps the
    identifier as it was given. *)
Theorem X5_legacy_type_by_segments (x : jsstring) (info : AssetInfo) :
  includes "/" x = false ->
  parseAssetId x = OK info ->
  assetId info = x
  /\ (type info = bitcoin <-> x = str "bitcoin")
  /\ (type info = native <->
      x <> str "bitcoin" /\ List.length (segments x) = 1%nat)
  /\ (type info = erc20 <-> List.length (segments x) = 2%nat)
  /\ (type info = erc721 <-> List.length (segments x) = 3%nat)
  /\ type info <> erc1155.
Proof.
  intros Hslash Hparse.
  destruct (parseAssetId_legacy x info Hslash Hparse)
    as [[Hx ->] | [Hx [(p0 & Hs & ->) | [(p0 & p1 & Hs & ->)
                                       | (p0 & p1 & p2 & Hs & ->)]]]];
    cbn [assetId type].
  - subst x. rewrite (legacy_bitcoin_segments : segments _ = _).
    repeat split; intros; try discriminate; try reflexivity;
      try (exfalso; intuition congruence).
  - rewrite Hs.
    repeat split; intros; try discriminate; try reflexivity; try assumption;
      try solve [exfalso; simpl in *; intuition (congruence || lia)].
  - rewrite Hs.
    repeat split; intros; try discriminate; try reflexivity; try assumption;
      try solve [exfalso; simpl in *; intuition (congruence || lia)].
  - rewrite Hs.
    repeat split; intros; try discriminate; try reflexivity; try assumption;
      try solve [exfalso; simpl in *; intuition (congruence || lia)].
Qed.

Lemma X5_legacy_type_by_segments_witness :
  includes "/" (str "base:0xabc") = false
  /\ parseAssetId (str "base:0xabc") =
       OK (mkAssetInfo (str "base:0xabc") (net (str "base"))
             (Some (str "0xabc")) None erc20)
  /\ (erc20 = erc20 <-> List.length (segments (str "base:0xabc")) = 2%nat).
Proof.
  split; [reflexivity|]. split; [reflexivity|].
  apply (X5_legacy_type_by_segments (str "base:0xabc")
           (mkAssetInfo (str "base:0xabc") (net (str "base"))
              (Some (str "0xabc")) None erc20) eq_refl eq_refl).
Defined.

(** ** More of the unit conversion *)

(** Positional notation: the value read after [acc], and the bound on
    the value of the digits alone. *)
Lemma digits_value_decimal (s : jsstring) :
  all_decimal s ->
  (forall acc,
      digits_value 10 acc s
      = Some (acc * 10 ^ Z.of_nat (List.length s) + decimal_value s))
  /\ 0 <= decimal_value s < 10 ^ Z.of_nat (List.length s).
Proof.
  induction 1 as [|c s Hc Hs [IHv IHb]].
  - change (decimal_value []) with 0.
    change (Z.of_nat (List.length (@nil ascii))) with 0.
    rewrite Z.pow_0_r. split; [intros acc; cbn [digits_value]; f_equal|]; lia.
  - destruct (decimal_digit_value c Hc) as (d & Hd & Hrange).
    assert (forall acc,
               digits_value 10 acc (c :: s)
               = Some (acc * 10 ^ Z.of_nat (List.length (c :: s))
                       + (d * 10 ^ Z.of_nat (List.length s)
                          + decimal_value s))) as Hv.
    { intros acc. cbn [digits_value List.length]. rewrite Hd.
      replace (d <? 10) with true by (symmetry; apply Z.ltb_lt; lia).
      rewrite IHv, Nat2Z.inj_succ, Z.pow_succ_r by lia. f_equal. ring. }
    assert (decimal_value (c :: s)
            = d * 10 ^ Z.of_nat (List.length s) + decimal_value s) as Hcs.
    { unfold decimal_value at 1. rewrite Hv. lia. }
    rewrite Hcs. split; [exact Hv|].
    cbn [List.length]. rewrite Nat2Z.inj_succ, Z.pow_succ_r by lia.
    set (P := 10 ^ Z.of_nat (List.length s)) in *.
    assert (0 <= d * P <= 9 * P) by (split; [apply Z.mul_nonneg_nonneg; lia
                                            |apply Z.mul_le_mono_nonneg_r; lia]).
    lia.
Qed.

Lemma decimal_value_cons (c : ascii) (s : jsstring) (d : Z) :
  all_decimal s -> digit_value c = Some d -> 0 <= d < 10 ->
  decimal_value (c :: s) = d * 10 ^ Z.of_nat (List.length s) + decimal_value s.
Proof.
  intros Hs Hd Hr. unfold decimal_value at 1. cbn [digits_value].
  rewrite Hd. replace (d <? 10) with true by (symmetry; apply Z.ltb_lt; lia).
  rewrite (proj1 (digits_value_decimal s Hs)). cbv beta iota. ring.
Qed.

Lemma decimal_value_app (a b : jsstring) :
  all_decimal a -> all_decimal b ->
  decimal_value (a ++ b)
  = decimal_value a * 10 ^ Z.of_nat (List.length b) + decimal_value b.
Proof.
  intros Ha Hb. unfold decimal_value at 1. rewrite digits_value_app.
  rewrite (proj1 (digits_value_decimal a Ha)).
  rewrite (proj1 (digits_value_decimal b Hb)). cbv beta iota. ring.
Qed.

Lemma zeros_decimal (k : nat) : all_decimal (repeat "0"%char k).
Proof. apply Forall_forall. intros c Hc. apply repeat_spec in Hc. now subst. Qed.

Lemma decimal_value_zeros (k : nat) : decimal_value (repeat "0"%char k) = 0.
Proof. unfold decimal_value. now rewrite zeros_value. Qed.

Lemma decimal_value_toString (n : Z) : 0 <= n -> decimal_value (toString n) = n.
Proof. intros H. unfold decimal_value. now rewrite toString_value. Qed.

(** [BigInt] reads a string of decimal digits, the empty one too, as
    the number it writes. *)
Lemma BigInt_decimal (s : jsstring) :
  all_decimal s -> BigInt s = OK (decimal_value s).
Proof.
  intros Hs. destruct s as [|c s]; [reflexivity|].
  unfold BigInt, decimal_value.
  rewrite StringToBigInt_decimal by (discriminate || assumption).
  now rewrite (proj1 (digits_value_decimal (c :: s) Hs)).
Qed.

Lemma human_to_base_shape (decimals : nat) (i f : jsstring) :
  includes "." i = false -> includes "." f = false ->
  human_to_base decimals (i ++ str "." ++ f) =
    match BigInt i with
    | Throw e => Throw e
    | OK whole =>
        match BigInt (firstn decimals (padEnd decimals "0" f)) with
        | Throw e => Throw e
        | OK part => OK (toString (whole * 10 ^ Z.of_nat decimals + part))
        end
    end.
Proof.
  intros Hi Hf. unfold human_to_base.
  change (str ".") with ["."%char]. cbn [app].
  now rewrite (split_at_first "." i f Hi), (split_without "." f Hf).
Qed.

(** The value [human_to_base] computes of a well-formed amount. *)
Lemma human_to_base_value (decimals : nat) (i f : jsstring) :
  all_decimal i -> all_decimal f ->
  (List.length f <= decimals)%nat ->
  human_to_base decimals (i ++ str "." ++ f)
  = OK (toString
          (decimal_value i * 10 ^ Z.of_nat decimals
           + decimal_value f
             * 10 ^ Z.of_nat (decimals - List.length f)))
  /\ human_to_base decimals i
     = OK (toString (decimal_value i * 10 ^ Z.of_nat decimals)).
Proof.
  intros Hi Hf Hlen. split.
  - rewrite human_to_base_shape by now apply decimal_no_point.
    rewrite (BigInt_decimal i Hi).
    unfold padEnd.
    rewrite firstn_all2 by (rewrite length_app, repeat_length; lia).
    rewrite BigInt_decimal by (apply Forall_app; split;
                               [assumption|apply zeros_decimal]).
    rewrite decimal_value_app by (assumption || apply zeros_decimal).
    rewrite decimal_value_zeros, repeat_length. do 2 f_equal. ring.
  - unfold human_to_base.
    rewrite (split_without "." i (decimal_no_point i Hi)). cbn [hd nth].
    unfold padEnd. cbn [app List.length]. rewrite Nat.sub_0_r.
    rewrite firstn_all2 by (rewrite repeat_length; lia).
    rewrite (BigInt_decimal i Hi), BigInt_zeros. do 2 f_equal. ring.
Qed.

(** X6.  [etherToWei] and [bitcoinToSatoshi] read a decimal amount
    exactly: for digits [i], a point and at most 18 (or 8) digits [f],
    the result is the number [i] writes times [10^18] (or [10^8]) plus the
    number [f] writes scaled by the places it leaves free; without a point
    it is the number [i] writes times the unit.  An empty [i] or [f] counts
    as zero. *)
Theorem X6_human_to_base_value (i f : jsstring) :
  all_decimal i -> all_decimal f ->
  ((List.length f <= 18)%nat ->
   etherToWei (i ++ str "." ++ f)
   = OK (toString (decimal_value i * 10 ^ 18
                   + decimal_value f
                     * 10 ^ Z.of_nat (18 - List.length f))))
  /\ ((List.length f <= 8)%nat ->
      bitcoinToSatoshi (i ++ str "." ++ f)
      = OK (toString (decimal_value i * 10 ^ 8
                      + decimal_value f
                        * 10 ^ Z.of_nat (8 - List.length f))))
  /\ etherToWei i = OK (toString (decimal_value i * 10 ^ 18))
  /\ bitcoinToSatoshi i = OK (toString (decimal_value i * 10 ^ 8)).
Proof.
  intros Hi Hf. repeat split; intros;
    rewrite ?etherToWei_shape, ?bitcoinToSatoshi_shape.
  - exact (proj1 (human_to_base_value 18 i f Hi Hf H)).
  - exact (proj1 (human_to_base_value 8 i f Hi Hf H)).
  - exact (proj2 (human_to_base_value 18 i [] Hi (Forall_nil _)
                    ltac:(simpl; lia))).
  - exact (proj2 (human_to_base_value 8 i [] Hi (Forall_nil _)
                    ltac:(simpl; lia))).
Qed.

Lemma str_decimal_12 : all_decimal (str "12").
Proof. repeat constructor. Qed.

Lemma str_decimal_5 : all_decimal (str "5").
Proof. repeat constructor. Qed.

Lemma X6_human_to_base_value_witness :
  etherToWei (str "12" ++ str "." ++ str "5")
  = OK (toString (decimal_value (str "12") * 10 ^ 18
                  + decimal_value (str "5")
                    * 10 ^ Z.of_nat (18 - List.length (str "5")))).
Proof.
  apply (X6_human_to_base_value (str "12") (str "5")
           str_decimal_12 str_decimal_5).
  simpl. lia.
Defined.

Lemma hd_split_app (sep : ascii) (f g : jsstring) :
  includes sep f = false ->
  hd [] (split sep (f ++ g)) = f ++ hd [] (split sep g).
Proof.
  unfold includes. induction f as [|c f IH]; simpl; [reflexivity|].
  rewrite (Ascii.eqb_sym sep c). intros H. apply orb_false_iff in H.
  destruct H as [-> H]. specialize (IH H).
  destruct (split sep (f ++ g)) as [|w ws] eqn:E.
  - now apply split_not_nil in E.
  - simpl in *. now rewrite IH.
Qed.

Lemma human_to_base_truncates (decimals : nat) (i f g : jsstring) :
  includes "." i = false -> includes "." f = false ->
  List.length f = decimals ->
  human_to_base decimals (i ++ str "." ++ f ++ g)
  = human_to_base decimals (i ++ str "." ++ f).
Proof.
  intros Hi Hf Hlen. rewrite (human_to_base_shape decimals i f Hi Hf).
  unfold human_to_base. change (str ".") with ["."%char]. cbn [app].
  rewrite (split_at_first "." i (f ++ g) Hi). cbn [hd].
  replace (nth 1 (i :: split "." (f ++ g)) [])
    with (hd [] (split "." (f ++ g)))
    by (now destruct (split "." (f ++ g))).
  rewrite (hd_split_app "." f g Hf).
  assert (forall rest, firstn decimals (f ++ rest) = f) as Hcut.
  { intros rest. subst decimals.
    rewrite firstn_app, firstn_all, Nat.sub_diag. cbn [firstn].
    apply app_nil_r. }
  unfold padEnd. now rewrite <- app_assoc, !Hcut.
Qed.

(** X7.  [etherToWei] and [bitcoinToSatoshi] truncate: whatever follows
    the 18th (or 8th) character of the fractional part, digits or not, is
    ignored, so that the result, or the exception, is that of the amount cut
    there. *)
Theorem X7_human_to_base_truncates (i f g : jsstring) :
  includes "." i = false -> includes "." f = false ->
  (List.length f = 18%nat ->
   etherToWei (i ++ str "." ++ f ++ g) = etherToWei (i ++ str "." ++ f))
  /\ (List.length f = 8%nat ->
      bitcoinToSatoshi (i ++ str "." ++ f ++ g)
      = bitcoinToSatoshi (i ++ str "." ++ f)).
Proof.
  intros Hi Hf. split; intros Hlen;
    rewrite ?etherToWei_shape, ?bitcoinToSatoshi_shape;
    now apply human_to_base_truncates.
Qed.

Lemma X7_human_to_base_truncates_witness :
  bitcoinToSatoshi (str "1" ++ str "." ++ str "12345678" ++ str "9 BTC")
  = bitcoinToSatoshi (str "1" ++ str "." ++ str "12345678").
Proof.
  apply (X7_human_to_base_truncates (str "1") (str "12345678")
           (str "9 BTC")); reflexivity.
Defined.

(** A decimal digit is the character of its value. *)
Lemma decimal_char_of_value (c : ascii) (d : Z) :
  is_decimal c = true -> digit_value c = Some d -> c = digit_char d.
Proof.
  intros H. apply decimal_cases in H. simpl in H.
  repeat (destruct H as [H|H];
          [subst c; vm_compute; intros [= <-]; reflexivity|]).
  contradiction.
Qed.

(** Two strings of as many decimal digits that write the same number are
    the same string. *)
Lemma decimal_value_injective (s1 s2 : jsstring) :
  all_decimal s1 -> all_decimal s2 ->
  List.length s1 = List.length s2 ->
  decimal_value s1 = decimal_value s2 -> s1 = s2.
Proof.
  intros H1. revert s2.
  induction H1 as [|c1 s1 Hc1 Hs1 IH]; intros s2 H2 Hlen Hval;
    destruct H2 as [|c2 s2 Hc2 Hs2]; try discriminate; [reflexivity|].
  injection Hlen as Hlen.
  destruct (decimal_digit_value c1 Hc1) as (d1 & Hd1 & Hr1).
  destruct (decimal_digit_value c2 Hc2) as (d2 & Hd2 & Hr2).
  rewrite (decimal_value_cons c1 s1 d1 Hs1 Hd1 Hr1) in Hval.
  rewrite (decimal_value_cons c2 s2 d2 Hs2 Hd2 Hr2) in Hval.
  pose proof (proj2 (digits_value_decimal s1 Hs1)) as B1.
  pose proof (proj2 (digits_value_decimal s2 Hs2)) as B2.
  rewrite Hlen in *.
  set (P := 10 ^ Z.of_nat (List.length s2)) in *.
  assert (d1 = d2) as Hd.
  { destruct (Z.lt_trichotomy d1 d2) as [L|[E|L]]; [exfalso|exact E|exfalso].
    - assert ((d1 + 1) * P <= d2 * P)
        by (apply Z.mul_le_mono_nonneg_r; lia).
      lia.
    - assert ((d2 + 1) * P <= d1 * P)
        by (apply Z.mul_le_mono_nonneg_r; lia).
      lia. }
  subst d2. assert (decimal_value s1 = decimal_value s2) as Hv by lia.
  f_equal.
  - rewrite (decimal_char_of_value c1 d1 Hc1 Hd1).
    now rewrite (decimal_char_of_value c2 d1 Hc2 Hd2).
  - now apply IH.
Qed.

(** The remainder printed in a fixed width is the string of that width
    that writes it. *)
Lemma padStart_toString_decimal (s : jsstring) :
  all_decimal s -> s <> [] ->
  padStart (List.length s) "0" (toString (decimal_value s)) = s.
Proof.
  intros Hs Hne.
  pose proof (proj2 (digits_value_decimal s Hs)) as B.
  assert (1 <= List.length s)%nat as Hlen
    by (destruct s; [contradiction|simpl; lia]).
  apply decimal_value_injective.
  - apply padStart_decimal, toString_decimal. lia.
  - exact Hs.
  - apply padStart_length. rewrite toString_nonneg by lia.
    apply to_digits_length; lia.
  - unfold padStart.
    rewrite decimal_value_app
      by (apply zeros_decimal || apply toString_decimal; lia).
    rewrite decimal_value_zeros, decimal_value_toString by lia. lia.
Qed.

Lemma drop_zeros_zeros (k : nat) (s : jsstring) :
  drop_zeros (repeat "0"%char k ++ s) = drop_zeros s.
Proof. induction k as [|k IH]; simpl; [reflexivity|exact IH]. Qed.

(** Stripping removes exactly the zeros appended to a text that does
    not end in one. *)
Lemma strip_appended_zeros (f : jsstring) (k : nat) :
  ends_with_zero f = false ->
  strip_trailing_zeros (f ++ repeat "0"%char k) = f.
Proof.
  unfold ends_with_zero, strip_trailing_zeros. intros H.
  rewrite rev_app_distr, rev_repeat, drop_zeros_zeros.
  destruct (rev f) as [|c r] eqn:E.
  - simpl. apply (f_equal (@rev ascii)) in E.
    now rewrite rev_involutive in E.
  - cbn [drop_zeros]. rewrite H, <- E. apply rev_involutive.
Qed.

(** A text of decimal digits that does not end in a zero, and is not
    empty, writes a positive number. *)
Lemma decimal_value_positive (f : jsstring) :
  all_decimal f -> f <> [] -> ends_with_zero f = false ->
  0 < decimal_value f.
Proof.
  intros Hf Hne Hz. unfold ends_with_zero in Hz.
  destruct (rev f) as [|c r] eqn:E.
  - apply (f_equal (@rev ascii)) in E. rewrite rev_involutive in E.
    contradiction.
  - apply (f_equal (@rev ascii)) in E. rewrite rev_involutive in E.
    simpl in E. subst f.
    apply Forall_app in Hf. destruct Hf as [Hr Hc].
    inversion Hc as [|? ? Hc' _]; subst.
    rewrite decimal_value_app by assumption.
    pose proof (proj2 (digits_value_decimal (rev r) Hr)) as B.
    destruct (decimal_digit_value c Hc') as (d & Hd & Hrange).
    rewrite (decimal_value_cons c [] d (Forall_nil _) Hd Hrange).
    assert (d <> 0) as Hnz.
    { intros ->. rewrite (decimal_char_of_value c 0 Hc' Hd) in Hz.
      discriminate. }
    cbn [List.length]. change (decimal_value []) with 0. simpl Z.of_nat.
    lia.
Qed.

(** Reading a canonical amount and printing the result gives the amount
    back, for any positive count of decimals. *)
Lemma human_round_trip (decimals : nat) (n : Z) (f : jsstring) :
  (1 <= decimals)%nat -> 0 <= n ->
  all_decimal f -> ends_with_zero f = false ->
  (List.length f <= decimals)%nat ->
  let human := if streq f [] then toString n
               else toString n ++ str "." ++ f in
  exists base,
    human_to_base decimals human = OK base
    /\ base_to_human decimals base = OK human.
Proof.
  intros Hd Hn Hf Hz Hlen.
  assert (0 < 10 ^ Z.of_nat decimals) as Hp by (apply Z.pow_pos_nonneg; lia).
  pose proof (toString_decimal n Hn) as Hi.
  destruct (human_to_base_value decimals (toString n) f Hi Hf Hlen)
    as [Hfrac Hwhole].
  rewrite decimal_value_toString in Hfrac, Hwhole by lia.
  case_streq f (@nil ascii); cbv zeta.
  - eexists. split; [exact Hwhole|].
    rewrite base_to_human_nonneg by nia.
    rewrite Z.mod_mul, Z.div_mul by lia. reflexivity.
  - eexists. split; [exact Hfrac|].
    set (k := (decimals - List.length f)%nat) in *.
    set (s := f ++ repeat "0"%char k).
    assert (all_decimal s) as Hs
      by (apply Forall_app; split; [assumption|apply zeros_decimal]).
    assert (List.length s = decimals) as Hslen
      by (unfold s, k; rewrite length_app, repeat_length; lia).
    assert (decimal_value s = decimal_value f * 10 ^ Z.of_nat k) as Hsv.
    { unfold s. rewrite decimal_value_app by (assumption || apply zeros_decimal).
      rewrite decimal_value_zeros, repeat_length. ring. }
    rewrite <- Hsv.
    pose proof (proj2 (digits_value_decimal s Hs)) as B. rewrite Hslen in B.
    pose proof (decimal_value_positive f Hf E Hz) as Hpos.
    assert (0 < 10 ^ Z.of_nat k) as Hk by (apply Z.pow_pos_nonneg; lia).
    assert (0 < decimal_value s) as Hspos by (rewrite Hsv; nia).
    rewrite base_to_human_nonneg by nia.
    replace ((n * 10 ^ Z.of_nat decimals + decimal_value s)
               mod 10 ^ Z.of_nat decimals) with (decimal_value s)
      by (rewrite Z.add_comm, Z.mod_add, Z.mod_small; lia).
    replace ((n * 10 ^ Z.of_nat decimals + decimal_value s)
               / 10 ^ Z.of_nat decimals) with n
      by (rewrite Z.add_comm, Z.div_add, Z.div_small; lia).
    replace (decimal_value s =? 0) with false
      by (symmetry; apply Z.eqb_neq; lia).
    rewrite <- Hslen at 1.
    rewrite padStart_toString_decimal
      by (assumption || (unfold s; destruct f; [contradiction|discriminate])).
    unfold s. now rewrite strip_appended_zeros.
Qed.

(** X8.  Printing is the inverse of reading on canonical amounts: for a
    natural number [n] and at most 18 (or 8) decimal digits [f] that do not
    end in a zero, [weiToEther (etherToWei h)] is [h] where [h] is [n]
    printed, followed by a point and [f] unless [f] is empty; and likewise
    [satoshiToBitcoin (bitcoinToSatoshi h)]. *)
Theorem X8_human_unit_round_trip (n : Z) (f : jsstring) :
  0 <= n -> all_decimal f -> ends_with_zero f = false ->
  let human := if streq f [] then toString n
               else toString n ++ str "." ++ f in
  ((List.length f <= 18)%nat ->
   exists wei, etherToWei human = OK wei /\ weiToEther wei = OK human)
  /\ ((List.length f <= 8)%nat ->
      exists satoshi,
        bitcoinToSatoshi human = OK satoshi
        /\ satoshiToBitcoin satoshi = OK human).
Proof.
  intros Hn Hf Hz human. split; intros Hlen.
  - destruct (human_round_trip 18 n f ltac:(lia) Hn Hf Hz Hlen)
      as (b & H1 & H2).
    exists b. now rewrite etherToWei_shape, weiToEther_shape.
  - destruct (human_round_trip 8 n f ltac:(lia) Hn Hf Hz Hlen)
      as (b & H1 & H2).
    exists b. now rewrite bitcoinToSatoshi_shape, satoshiToBitcoin_shape.
Qed.

Lemma str_decimal_0625 : all_decimal (str "0625").
Proof. repeat constructor. Qed.

Lemma X8_human_unit_round_trip_witness :
  exists satoshi,
    bitcoinToSatoshi (toString 21 ++ str "." ++ str "0625") = OK satoshi
    /\ satoshiToBitcoin satoshi = OK (toString 21 ++ str "." ++ str "0625").
Proof.
  apply (X8_human_unit_round_trip 21 (str "0625") ltac:(lia)
           str_decimal_0625 eq_refl).
  simpl. lia.
Defined.

(** ** Address validation *)

(** Lower-casing keeps a hexadecimal digit one, leaves no capital, and
    changes nothing the second time. *)
Lemma lower_unit_hex (c : ascii) :
  is_hex_digit c = true ->
  is_hex_digit (lower_unit c) = true
  /\ in_range 65 90 (lower_unit c) = false
  /\ lower_unit (lower_unit c) = lower_unit c.
Proof.
  destruct c as [[] [] [] [] [] [] [] []]; vm_compute;
    intros H; try discriminate H; repeat split.
Qed.

Lemma toLowerCase_hex (s : jsstring) :
  forallb is_hex_digit s = true ->
  forallb is_hex_digit (toLowerCase s) = true
  /\ no_capital (toLowerCase s)
  /\ toLowerCase (toLowerCase s) = toLowerCase s.
Proof.
  unfold no_capital, toLowerCase.
  induction s as [|c s IH]; simpl; [repeat split; constructor|].
  intros H. apply andb_true_iff in H. destruct H as [Hc Hs].
  destruct (lower_unit_hex c Hc) as (H1 & H2 & H3).
  destruct (IH Hs) as (I1 & I2 & I3).
  rewrite H1, I1, H3, I3. repeat split. now constructor.
Qed.

Lemma isValidEthereumAddress_shape (a : jsstring) :
  isValidEthereumAddress a = true <->
  exists digits, a = "0"%char :: "x"%char :: digits
                 /\ List.length digits = 40%nat
                 /\ forallb is_hex_digit digits = true.
Proof.
  unfold isValidEthereumAddress. split.
  - destruct a as [|z [|x digits]]; try discriminate.
    intros H. repeat (apply andb_true_iff in H; destruct H as [H ?]).
    apply Ascii.eqb_eq in H, H2. apply Nat.eqb_eq in H1. subst.
    now exists digits.
  - intros (digits & -> & Hlen & Hhex). rewrite Hlen, Hhex. reflexivity.
Qed.

(** X9.  [toChecksumAddress] throws exactly on what
    [isValidEthereumAddress] rejects.  What it returns is the address in
    lower case: still a valid address of 42 characters, without a capital
    letter (so never a mixed-case checksum), and a fixed point of the
    function. *)
Theorem X9_toChecksumAddress (a : jsstring) :
  match toChecksumAddress a with
  | OK r =>
      isValidEthereumAddress a = true
      /\ r = toLowerCase a
      /\ isValidEthereumAddress r = true
      /\ List.length r = 42%nat
      /\ no_capital r
      /\ toChecksumAddress r = OK r
  | Throw e =>
      isValidEthereumAddress a = false
      /\ e = new_Error (str "Invalid Ethereum address")
  end.
Proof.
  unfold toChecksumAddress.
  destruct (isValidEthereumAddress a) eqn:Hv; cbn [negb]; [|now split].
  apply isValidEthereumAddress_shape in Hv.
  destruct Hv as (digits & -> & Hlen & Hhex).
  destruct (toLowerCase_hex digits Hhex) as (H1 & H2 & H3).
  assert (isValidEthereumAddress
            (toLowerCase ("0"%char :: "x"%char :: digits)) = true) as Hr.
  { apply isValidEthereumAddress_shape. exists (toLowerCase digits).
    repeat split; [|exact H1]. unfold toLowerCase. now rewrite length_map. }
  repeat split; try assumption.
  - unfold toLowerCase. rewrite length_map. simpl. now rewrite Hlen.
  - unfold no_capital. change (toLowerCase ("0"%char :: "x"%char :: digits))
      with ("0"%char :: "x"%char :: toLowerCase digits).
    repeat constructor. exact H2.
  - rewrite Hr. cbn [negb]. f_equal.
    change (toLowerCase ("0"%char :: "x"%char :: digits))
      with ("0"%char :: "x"%char :: toLowerCase digits).
    change (toLowerCase ("0"%char :: "x"%char :: toLowerCase digits))
      with ("0"%char :: "x"%char :: toLowerCase (toLowerCase digits)).
    now rewrite H3.
Qed.

Lemma length_between_iff (lo hi : nat) (s : jsstring) :
  length_between lo hi s = true <->
  (lo <= List.length s <= hi)%nat.
Proof.
  unfold length_between. rewrite andb_true_iff, !Nat.leb_le. tauto.
Qed.

Lemma base58_excludes (c : ascii) :
  is_base58_digit c = true ->
  c <> "0"%char /\ c <> "O"%char /\ c <> "I"%char /\ c <> "l"%char.
Proof.
  destruct c as [[] [] [] [] [] [] [] []]; vm_compute;
    intros H; try discriminate H; repeat split; discriminate.
Qed.

(** X10.  No string is both an Ethereum and a Bitcoin address for the
    two validators.  A valid Ethereum address has 42 characters; a valid
    Bitcoin address has 26 to 35 characters, starts with 1 or 3 and holds
    none of the characters 0, O, I and l after it, or has 42 to 62
    characters and starts with bc1. *)
Theorem X10_address_validators (a : jsstring) :
  (isValidEthereumAddress a = true ->
   List.length a = 42%nat /\ isValidBitcoinAddress a = false)
  /\ (isValidBitcoinAddress a = true ->
      isValidEthereumAddress a = false
      /\ ((exists first rest,
              a = first :: rest
              /\ (first = "1"%char \/ first = "3"%char)
              /\ (26 <= List.length a <= 35)%nat
              /\ Forall (fun c => c <> "0"%char /\ c <> "O"%char
                                  /\ c <> "I"%char /\ c <> "l"%char) rest)
          \/ (exists rest,
                 a = "b"%char :: "c"%char :: "1"%char :: rest
                 /\ (42 <= List.length a <= 62)%nat))).
Proof.
  assert (isValidEthereumAddress a = true ->
          isValidBitcoinAddress a = false) as Hdisjoint.
  { intros H. apply isValidEthereumAddress_shape in H.
    destruct H as (digits & -> & _ & _). now destruct digits. }
  split.
  - intros H. split; [|now apply Hdisjoint].
    apply isValidEthereumAddress_shape in H.
    destruct H as (digits & -> & Hlen & _). simpl. now rewrite Hlen.
  - intros H. split.
    + destruct (isValidEthereumAddress a) eqn:E; [|reflexivity].
      rewrite (Hdisjoint eq_refl) in H. discriminate.
    + unfold isValidBitcoinAddress in H. apply orb_true_iff in H.
      destruct H as [H|H].
      * left. destruct a as [|first rest]; [discriminate|].
        repeat (apply andb_true_iff in H; destruct H as [H ?]).
        exists first, rest. split; [reflexivity|].
        apply length_between_iff in H1.
        split; [|split; [simpl; lia|]].
        -- apply orb_true_iff in H.
           destruct H as [H|H]; apply Ascii.eqb_eq in H; auto.
        -- apply Forall_forall. intros c Hc. apply base58_excludes.
           rewrite forallb_forall in H0. now apply H0.
      * right. destruct a as [|b [|c [|one rest]]]; try discriminate.
        repeat (apply andb_true_iff in H; destruct H as [H ?]).
        apply Ascii.eqb_eq in H, H3, H2. subst.
        apply length_between_iff in H1.
        exists rest. split; [reflexivity|simpl; lia].
Qed.

Lemma X10_address_validators_witness :
  List.length (str "0x52908400098527886E0F7030069857D2E4169EE7") = 42%nat
  /\ isValidBitcoinAddress (str "0x52908400098527886E0F7030069857D2E4169EE7")
     = false.
Proof.
  apply (X10_address_validators
           (str "0x52908400098527886E0F7030069857D2E4169EE7")).
  reflexivity.
Defined.

(** ** Coin identifiers *)

Lemma hd_split_prefix (sep : ascii) (a b : jsstring) :
  includes sep a = true ->
  hd [] (split sep (a ++ b)) = hd [] (split sep a).
Proof.
  unfold includes. induction a as [|c a IH]; simpl; [discriminate|].
  rewrite (Ascii.eqb_sym sep c).
  destruct (Ascii.eqb c sep); simpl; [reflexivity|].
  intros H. specialize (IH H).
  destruct (split sep (a ++ b)) as [|w ws] eqn:E1;
    [now apply split_not_nil in E1|].
  destruct (split sep a) as [|v vs] eqn:E2;
    [now apply split_not_nil in E2|].
  simpl in *. now rewrite IH.
Qed.

(** A string with a character in it is none of the strings without. *)
Lemma streq_by_character (sep : ascii) (x k : jsstring) :
  includes sep x = true -> includes sep k = false -> streq x k = false.
Proof. intros Hx Hk. apply streq_neq. intros ->. congruence. Qed.

(** An identifier with a slash or a colon in it is no key of the coin
    table and no member of [Object.prototype]. *)
Lemma coin_table_misses (sep : ascii) (x : jsstring) :
  sep = "/"%char \/ sep = ":"%char ->
  includes sep x = true ->
  streq x (str "bitcoin") = false
  /\ table_get x COINGECKO_COIN_IDS = falsy.
Proof.
  intros Hsep Hx.
  assert (forall k, includes sep k = false -> streq x k = false) as Hk
    by (intros k; now apply streq_by_character).
  split; [apply Hk; destruct Hsep; subst; reflexivity|].
  unfold table_get, obj_get, COINGECKO_COIN_IDS, is_object_prototype_key,
    object_prototype_keys.
  cbn [own_property own proto map existsb].
  rewrite !Hk by (destruct Hsep; subst; reflexivity).
  reflexivity.
Qed.

Lemma caip_cut (x : jsstring) :
  includes "/" x = true ->
  exists chainPart assetPart rest tail,
    split "/" x = chainPart :: assetPart :: rest
    /\ x = chainPart ++ "/"%char :: tail.
Proof.
  intros Hslash.
  destruct (split_includes "/" x Hslash) as (cp & ap & rest & Hs).
  exists cp, ap, rest. pose proof (join_split "/" x) as Hj.
  rewrite Hs in Hj. cbn [join app] in Hj.
  eexists. split; [exact Hs|]. symmetry. exact Hj.
Qed.

(** X11.  The coin identifier of a CAIP identifier: [bitcoin] for the
    chain namespace bip122, whatever the asset; for eip155 with the asset
    namespace slip44 and a chain reference that is neither in the table nor
    a member name of [Object.prototype], [ethereum]; for eip155 with a chain
    reference and any other asset namespace, the text [eip155], whatever
    the chain and the contract. *)
Theorem X11_coin_id_of_caip (x : jsstring) :
  includes "/" x = true ->
  (chain_namespace x = str "bip122" ->
   getCoinGeckoId x = OK (coin (str "bitcoin")))
  /\ (chain_namespace x = str "eip155" ->
      asset_namespace x = str "slip44" ->
      own_property (show_opt (chain_reference x)) coin_chainIdMap = None ->
      is_object_prototype_key (show_opt (chain_reference x)) = false ->
      getCoinGeckoId x = OK (coin (str "ethereum")))
  /\ (chain_namespace x = str "eip155" ->
      asset_namespace x <> str "slip44" ->
      chain_reference x <> None ->
      getCoinGeckoId x = OK (coin (str "eip155"))).
Proof.
  intros Hslash.
  destruct (caip_cut x Hslash) as (cp & ap & rest & tail & Hs & Hx).
  unfold getCoinGeckoId, chain_namespace, asset_namespace, chain_reference.
  rewrite Hslash, Hs. cbn [hd nth].
  repeat split.
  - intros ->. reflexivity.
  - intros -> -> Hown Hproto.
    change (streq (str "eip155") (str "bip122")) with false.
    change (streq (str "eip155") (str "eip155")) with true.
    change (streq (str "slip44") (str "slip44")) with true.
    cbn [andb]. unfold coin_or, table_get, obj_get. cbn [own proto].
    now rewrite Hown, Hproto.
  - intros Hns Hasset Href.
    rewrite Hns.
    change (streq (str "eip155") (str "bip122")) with false.
    change (streq (str "eip155") (str "eip155")) with true.
    apply streq_neq in Hasset. rewrite Hasset. cbn [andb].
    unfold coin_id_legacy.
    destruct (coin_table_misses "/" x (or_introl eq_refl) Hslash) as [-> ->].
    assert (includes ":" cp = true) as Hcolon.
    { destruct (includes ":" cp) eqn:E; [reflexivity|].
      rewrite (split_without ":" cp E) in Href. now contradiction Href. }
    assert (includes ":" x = true) as Hxc
      by (rewrite Hx, includes_app, Hcolon; reflexivity).
    rewrite Hxc.
    replace (hd [] (split ":" x)) with (str "eip155")
      by (rewrite Hx, (hd_split_prefix ":" cp _ Hcolon); now rewrite Hns).
    reflexivity.
Qed.

Lemma X11_coin_id_of_caip_witness :
  includes "/" (str "eip155:137/erc20:0xabc") = true
  /\ getCoinGeckoId (str "eip155:137/erc20:0xabc") = OK (coin (str "eip155")).
Proof.
  split; [reflexivity|].
  apply (X11_coin_id_of_caip (str "eip155:137/erc20:0xabc"));
    (reflexivity || discriminate).
Defined.

Lemma coin_table_values (n c : jsstring) :
  own_property n COINGECKO_COIN_IDS = Some c ->
  truthy c = true
  /\ (n = str "bitcoin" -> c = str "bitcoin").
Proof.
  unfold COINGECKO_COIN_IDS. cbn [own_property].
  repeat match goal with
         | |- context [if streq n ?k then _ else _] => case_streq n k
         end; intros [= <-]; split; try reflexivity; intros Hb;
    first [reflexivity | contradiction | (rewrite Hb in *; discriminate)].
Qed.

(** X12.  A legacy token identifier gets the coin identifier of its
    network: for a network the coin table knows, [network:rest], with no
    slash in it, has the coin of the network, whatever contract and token
    id [rest] names, the same coin the network alone has. *)
Theorem X12_coin_id_of_legacy_token (n rest c : jsstring) :
  includes "/" n = false -> includes ":" n = false ->
  includes "/" rest = false ->
  own_property n COINGECKO_COIN_IDS = Some c ->
  getCoinGeckoId (n ++ str ":" ++ rest) = OK (coin c)
  /\ getCoinGeckoId n = OK (coin c).
Proof.
  intros Hn1 Hn2 Hr Hown.
  destruct (coin_table_values n c Hown) as [Hc Hb].
  change (str ":") with [":"%char]. cbn [app].
  unfold getCoinGeckoId. rewrite Hn1.
  assert (includes "/" (n ++ ":"%char :: rest) = false) as Hx1
    by (rewrite includes_app, Hn1; exact Hr).
  assert (includes ":" (n ++ ":"%char :: rest) = true) as Hx2
    by (rewrite includes_app; cbn; apply orb_true_r).
  rewrite Hx1. unfold coin_id_legacy.
  destruct (coin_table_misses ":" _ (or_intror eq_refl) Hx2) as [-> ->].
  rewrite Hx2, (split_at_first ":" n rest Hn2). cbn [hd].
  unfold coin_or, table_get, obj_get. cbn [own proto]. rewrite Hown, Hc.
  split; [reflexivity|].
  case_streq n (str "bitcoin"); [now rewrite (Hb E)|reflexivity].
Qed.

Lemma X12_coin_id_of_legacy_token_witness :
  getCoinGeckoId (str "polygon" ++ str ":" ++ str "0xabc:7")
  = OK (coin (str "matic-network")).
Proof.
  apply (X12_coin_id_of_legacy_token (str "polygon") (str "0xabc:7")
           (str "matic-network")); reflexivity.
Defined.

(** The network the parser resolves for an eip155 chain reference is in
    the coin table only through the parser's table, and then the price
    provider's own table gives its coin. *)
Lemma resolve_chain_coin (ref : option jsstring) (n c : jsstring) :
  resolve_chain ref = net n ->
  own_property n COINGECKO_COIN_IDS = Some c ->
  n <> str "bitcoin"
  /\ coin_or (show_opt ref) coin_chainIdMap (str "ethereum") = coin c.
Proof.
  unfold resolve_chain, coin_or, table_get, obj_get.
  cbn [own proto]. set (key := show_opt ref).
  unfold chainIdMap, coin_chainIdMap. cbn [own_property].
  repeat match goal with
         | |- context [if streq key ?k then _ else _] => case_streq key k
         end;
    try (intros [= <-]; intros [= <-]; split; [discriminate|reflexivity]).
  destruct (is_object_prototype_key key); [discriminate|].
  intros [= <-]. intros H. exfalso. revert H.
  unfold COINGECKO_COIN_IDS. cbn. discriminate.
Qed.

(** X13.  The price provider and the parser agree on coins: an
    identifier the parser types as bitcoin has the coin [bitcoin], and one
    it types as native on a network the coin table knows has the coin the
    table gives for that network, under either grammar. *)
Theorem X13_coin_id_agrees_with_parser (x : jsstring) (info : AssetInfo) :
  parseAssetId x = OK info ->
  (type info = bitcoin -> getCoinGeckoId x = OK (coin (str "bitcoin")))
  /\ (type info = native ->
      forall n c,
        networkId info = net n ->
        own_property n COINGECKO_COIN_IDS = Some c ->
        getCoinGeckoId x = OK (coin c)).
Proof.
  intros Hparse. destruct (includes "/" x) eqn:Hslash.
  - (* CAIP *)
    unfold parseAssetId in Hparse. rewrite Hslash in Hparse.
    destruct (split_includes "/" x Hslash) as (cp & ap & rest & Hs).
    unfold parseCAIPAssetId in Hparse. unfold getCoinGeckoId.
    rewrite Hslash, Hs in *.
    set (ref := join (str ":") (tl (split ":" ap))) in *.
    destruct (contract_and_token ref) as [ct tk].
    case_streq (hd [] (split ":" cp)) (str "bip122").
    + revert Hparse.
      change (streq (str "bitcoin") (str "bitcoin")) with true.
      repeat match goal with
             | |- context [if ?b then _ else _] => destruct b
             end; try discriminate; intros [= <-]; cbn [type];
        split; intros; reflexivity || discriminate.
    + case_streq (hd [] (split ":" cp)) (str "eip155");
        [|discriminate].
      revert Hparse.
      case_streq (hd [] (split ":" ap)) (str "slip44").
      * cbn [andb].
        destruct (resolve_chain (nth_error (split ":" cp) 1))
          as [n|k] eqn:Hres; intros [= <-]; cbn [type networkId].
        -- pose proof (resolve_chain_coin
                         (nth_error (split ":" cp) 1) n) as Hcoin.
           specialize (fun c => Hcoin c Hres).
           change ["b"%char; "i"%char; "t"%char; "c"%char; "o"%char;
                   "i"%char; "n"%char] with (str "bitcoin").
           case_streq n (str "bitcoin").
           ++ split; [intros _|discriminate].
              exfalso. subst n.
              destruct (Hcoin (str "bitcoin") eq_refl) as [Hne _].
              now apply Hne.
           ++ split; [discriminate|].
              intros _ n' c [= <-] Hown.
              now rewrite (proj2 (Hcoin c Hown)).
        -- split; [discriminate|]. intros _ n c. discriminate.
      * repeat match goal with
               | |- context [if ?b then _ else _] => destruct b
               end; try discriminate; intros [= <-]; cbn [type];
          split; discriminate.
  - (* legacy *)
    unfold getCoinGeckoId. rewrite Hslash. unfold coin_id_legacy.
    destruct (parseAssetId_legacy x info Hslash Hparse)
      as [[Hx ->] | [Hx [(p0 & Hs & ->) | [(p0 & p1 & Hs & ->)
                                         | (p0 & p1 & p2 & Hs & ->)]]]];
      cbn [type networkId]; try (split; discriminate).
    + subst x. split; [reflexivity|discriminate].
    + split; [discriminate|]. intros _ n c [= <-] Hown.
      pose proof (join_split ":" x) as Hj. fold (segments x) in Hj.
      rewrite Hs in Hj. cbn [join] in Hj. subst p0.
      apply streq_neq in Hx. rewrite Hx.
      unfold table_get, obj_get. cbn [own proto]. now rewrite Hown.
Qed.

Lemma X13_coin_id_agrees_with_parser_witness :
  parseAssetId (str "eip155:137/slip44:966") =
    OK (mkAssetInfo (str "eip155:137/slip44:966") (net (str "polygon"))
          None None native)
  /\ getCoinGeckoId (str "eip155:137/slip44:966")
     = OK (coin (str "matic-network")).
Proof.
  split; [reflexivity|].
  exact (proj2 (X13_coin_id_agrees_with_parser (str "eip155:137/slip44:966")
                  (mkAssetInfo (str "eip155:137/slip44:966")
                     (net (str "polygon")) None None native) eq_refl)
           eq_refl (str "polygon") (str "matic-network") eq_refl eq_refl).
Defined.

(** ** The Bitcoin provider: balances and pages of history *)

Lemma message_or_truthy (e : JSError) (fallback : jsstring) :
  truthy fallback = true ->
  truthy (message_or e fallback) = true
  /\ (forall text, thrown_message e = Some text -> truthy text = true ->
                   message_or e fallback = text)
  /\ (truthy_opt (thrown_message e) = false ->
      message_or e fallback = fallback).
Proof.
  intros Hf. unfold message_or, truthy_opt.
  destruct (thrown_message e) as [m|].
  - destruct (truthy m) eqn:E; repeat split; try assumption;
      try reflexivity; try discriminate.
    + now intros text [= <-].
    + intros text [= <-]. congruence.
  - repeat split; try assumption; try reflexivity. discriminate.
Qed.

(** The run of [getBalance] on an answered request. *)
Lemma BitcoinProvider_getBalance_answers (up : Upstream)
    (address : jsstring) (s : State (World up)) (stats : ChainStats)
    (w : World up) (human : jsstring) :
  get_address up address (world s) = (OK stats, w) ->
  satoshiToBitcoin (toString (funded_txo_sum stats - spent_txo_sum stats))
    = OK human ->
  BitcoinProvider_getBalance up address s
  = (OK (succeed
           {| BalanceResponse.balance :=
                toString (funded_txo_sum stats - spent_txo_sum stats);
              BalanceResponse.balanceFormatted := human;
              BalanceResponse.assetId := str "bitcoin";
              BalanceResponse.networkId := str "bitcoin";
              BalanceResponse.timestamp := clock up w |} (clock up w)),
     {| world := w; calls := calls s ++ [bitcoin_getBalance address] |}).
Proof.
  intros Hreq Hto.
  unfold BitcoinProvider_getBalance, bind, try_catch, record_call, request,
    lift, ret, Date_now. cbn [world calls].
  rewrite Hreq. cbn [world calls]. now rewrite Hto.
Qed.

(** X14.  When the upstream answers with two sums that are safe
    integers, with a difference that is safe and not negative, [getBalance]
    of the Bitcoin provider returns a success envelope for the asset and
    the network bitcoin whose [balance] is the difference in satoshi and
    whose [balanceFormatted] denotes the same amount: [bitcoinToSatoshi]
    gives [balance] back.  The call is logged once, and the world is the
    one the request has left. *)
Theorem X14_bitcoin_balance (up : Upstream) (address : jsstring)
    (s : State (World up)) (stats : ChainStats) (w : World up) :
  get_address up address (world s) = (OK stats, w) ->
  safe_stats stats ->
  spent_txo_sum stats <= funded_txo_sum stats ->
  exists b t,
    fst (BitcoinProvider_getBalance up address s) = OK (succeed b t)
    /\ snd (BitcoinProvider_getBalance up address s)
       = {| world := w; calls := calls s ++ [bitcoin_getBalance address] |}
    /\ BalanceResponse.balance b
       = toString (funded_txo_sum stats - spent_txo_sum stats)
    /\ bitcoinToSatoshi (BalanceResponse.balanceFormatted b)
       = OK (BalanceResponse.balance b)
    /\ BalanceResponse.assetId b = str "bitcoin"
    /\ BalanceResponse.networkId b = str "bitcoin".
Proof.
  intros Hreq _ Hle.
  destruct (unit_round_trip 8 (funded_txo_sum stats - spent_txo_sum stats))
    as (human & Hto & Hback); [lia | lia |].
  rewrite <- satoshiToBitcoin_shape in Hto.
  rewrite <- bitcoinToSatoshi_shape in Hback.
  rewrite (BitcoinProvider_getBalance_answers up address s stats w human
             Hreq Hto).
  eexists. eexists. split; [reflexivity|]. cbn.
  repeat split. exact Hback.
Qed.

Lemma sample_stats_safe : safe_stats (mkChainStats 150000000 50000000).
Proof. unfold safe_stats, safe_integer, MAX_SAFE_INTEGER. cbn. lia. Qed.

Lemma X14_bitcoin_balance_witness :
  exists b t,
    fst (BitcoinProvider_getBalance sample_upstream (str "A") sample_state)
      = OK (succeed b t)
    /\ BalanceResponse.balance b = str "100000000"
    /\ bitcoinToSatoshi (BalanceResponse.balanceFormatted b)
       = OK (BalanceResponse.balance b).
Proof.
  destruct (X14_bitcoin_balance sample_upstream (str "A") sample_state
              (mkChainStats 150000000 50000000) 1%nat)
    as (b & t & Hrun & _ & Hbalance & Hback & _).
  - reflexivity.
  - exact sample_stats_safe.
  - simpl. lia.
  - exists b, t. split; [exact Hrun|]. split; [exact Hbalance|exact Hback].
Defined.

(** X15.  The two methods of the Bitcoin provider never throw.  When
    their request fails they return a failure envelope with the method's
    code, the details of the upstream's error response, and a message that
    is never empty: that of the error when it has one, the method's own
    text otherwise.  When their request is answered with numbers within the
    safe integers they return a success envelope: for the balance, two sums
    and a difference that are safe; for the history, on a safe page,
    transactions whose outputs are not negative and add up to a safe
    integer. *)
Theorem X15_bitcoin_provider_failures (up : Upstream) (address : jsstring)
    (page limit : Z) (s : State (World up)) :
  safe_page page limit ->
  (exists r,
      fst (BitcoinProvider_getBalance up address s) = OK r
      /\ match fst (get_address up address (world s)) with
         | OK stats => safe_stats stats -> success r = true
         | Throw e =>
             exists m,
               r = failure _ (str "BITCOIN_BALANCE_FETCH_ERROR") m
                     (response_details e)
                     (clock up (snd (get_address up address (world s))))
               /\ truthy m = true
               /\ (truthy_opt (thrown_message e) = false ->
                   m = str "Failed to fetch Bitcoin balance")
               /\ (forall text, thrown_message e = Some text ->
                                truthy text = true -> m = text)
         end)
  /\ (exists r,
         fst (BitcoinProvider_getHistory up address page limit s) = OK r
         /\ match fst (get_address_txs up address ((page - 1) * limit) limit
                         (world s)) with
            | OK txs => Forall safe_outputs txs -> success r = true
            | Throw e =>
                exists m,
                  r = failure _ (str "BITCOIN_HISTORY_FETCH_ERROR") m
                        (response_details e)
                        (clock up
                           (snd (get_address_txs up address
                                   ((page - 1) * limit) limit (world s))))
                  /\ truthy m = true
                  /\ (truthy_opt (thrown_message e) = false ->
                      m = str "Failed to fetch Bitcoin transaction history")
                  /\ (forall text, thrown_message e = Some text ->
                                   truthy text = true -> m = text)
            end).
Proof.
  intros _. split.
  - unfold BitcoinProvider_getBalance, bind, try_catch, record_call, request,
      lift, ret, Date_now. cbn [world calls].
    destruct (get_address up address (world s)) as [[stats|e] w];
      cbn [fst snd world calls].
    + rewrite satoshiToBitcoin_shape.
      destruct (base_to_human_returns 8
                  (funded_txo_sum stats - spent_txo_sum stats)) as [h ->].
      cbn. eexists. split; reflexivity.
    + eexists. split; [reflexivity|]. eexists. split; [reflexivity|].
      destruct (message_or_truthy e (str "Failed to fetch Bitcoin balance")
                  eq_refl) as (H1 & H2 & H3).
      repeat split; assumption.
  - unfold BitcoinProvider_getHistory, bind, try_catch, record_call, request,
      lift, ret, Date_now. cbn [world calls].
    destruct (get_address_txs up address ((page - 1) * limit) limit (world s))
      as [[txs|e] w]; cbn [fst snd world calls].
    + destruct (map_history_entry address txs) as (ts & -> & _).
      cbn. eexists. split; reflexivity.
    + eexists. split; [reflexivity|]. eexists. split; [reflexivity|].
      destruct (message_or_truthy e
                  (str "Failed to fetch Bitcoin transaction history")
                  eq_refl) as (H1 & H2 & H3).
      repeat split; assumption.
Qed.

Lemma X15_bitcoin_provider_failures_witness :
  exists r,
    fst (BitcoinProvider_getHistory sample_upstream (str "A") 1 50
           sample_state) = OK r
    /\ success r = true.
Proof.
  destruct (proj2 (X15_bitcoin_provider_failures sample_upstream (str "A")
                     1 50 sample_state sample_page_safe))
    as (r & Hr & Hsafe).
  exists r. split; [exact Hr|]. apply Hsafe. exact sample_transactions_safe.
Defined.

Lemma map_history_entry_hashes (address : jsstring) (txs : list RawTx)
    (ts : list Transaction.t) :
  map_result (history_entry address) txs = OK ts ->
  map Transaction.hash ts = map txid txs
  /\ List.length ts = List.length txs.
Proof.
  revert ts. induction txs as [|tx txs IH]; intros ts; simpl.
  - intros [= <-]. split; reflexivity.
  - destruct (history_entry address tx) as [t|e] eqn:Ht; [|discriminate].
    destruct (map_result (history_entry address) txs) as [ts'|e];
      [|discriminate].
    intros [= <-]. destruct (IH ts' eq_refl) as [Hh Hl]. simpl.
    split; [|now rewrite Hl]. f_equal; [|exact Hh].
    unfold history_entry in Ht.
    destruct (satoshiToBitcoin _) in Ht; [|discriminate].
    now injection Ht as <-.
Qed.

(** X16.  A page of Bitcoin history, for a page, a limit and an offset
    that are safe integers: the transactions are asked for at the offset
    [(page - 1) * limit], and when the upstream answers with transactions
    whose outputs are not negative and add up to a safe integer, they come
    back as one entry for each transaction, in order and under its hash,
    with [total] the number of entries of this page and [page] and [limit]
    as they were given. *)
Theorem X16_bitcoin_history_page (up : Upstream) (address : jsstring)
    (page limit : Z) (s : State (World up)) (txs : list RawTx)
    (w : World up) :
  safe_page page limit ->
  get_address_txs up address ((page - 1) * limit) limit (world s)
    = (OK txs, w) ->
  Forall safe_outputs txs ->
  exists h,
    BitcoinProvider_getHistory up address page limit s
      = (OK (succeed h (clock up w)),
         {| world := w;
            calls := calls s ++ [bitcoin_getHistory address page limit] |})
    /\ map Transaction.hash (HistoryResponse.transactions h) = map txid txs
    /\ HistoryResponse.total h = Z.of_nat (List.length txs)
    /\ HistoryResponse.page h = page
    /\ HistoryResponse.limit h = limit
    /\ HistoryResponse.assetId h = str "bitcoin"
    /\ HistoryResponse.networkId h = str "bitcoin".
Proof.
  intros _ Hreq _.
  destruct (map_history_entry address txs) as (ts & Hts & _).
  destruct (map_history_entry_hashes address txs ts Hts) as [Hh Hl].
  unfold BitcoinProvider_getHistory, bind, try_catch, record_call, request,
    lift, ret, Date_now. cbn [world calls].
  rewrite Hreq. cbn [world calls]. rewrite Hts. cbn [world calls].
  eexists. split; [reflexivity|]. cbn.
  repeat split; [exact Hh|now rewrite Hl].
Qed.

Lemma X16_bitcoin_history_page_witness :
  exists h,
    fst (BitcoinProvider_getHistory sample_upstream (str "A") 2 20
           sample_state) = OK (succeed h 1)
    /\ HistoryResponse.total h
       = Z.of_nat (List.length sample_transactions)
    /\ HistoryResponse.page h = 2.
Proof.
  destruct (X16_bitcoin_history_page sample_upstream (str "A") 2 20
              sample_state sample_transactions 1%nat)
    as (h & Hrun & _ & Htotal & Hpage & _).
  - unfold safe_page, safe_integer, MAX_SAFE_INTEGER. cbn. lia.
  - reflexivity.
  - exact sample_transactions_safe.
  - exists h. split; [now rewrite Hrun|]. split; assumption.
Defined.

Lemma fold_outputs_nonneg (outs : list TxOut) :
  (forall o, In o outs -> 0 <= out_value o) ->
  0 <= fold_right Z.add 0 (map out_value outs).
Proof.
  induction outs as [|o outs IH]; simpl; intros H; [lia|].
  pose proof (H o (or_introl eq_refl)).
  assert (0 <= fold_right Z.add 0 (map out_value outs))
    by (apply IH; intros o' Ho'; apply H; now right).
  lia.
Qed.

Lemma satoshi_round_trip (z : Z) :
  0 <= z ->
  exists human,
    satoshiToBitcoin (toString z) = OK human
    /\ bitcoinToSatoshi human = OK (toString z).
Proof.
  intros Hz. rewrite satoshiToBitcoin_shape.
  destruct (unit_round_trip 8 z) as (human & H1 & H2); [lia|lia|].
  exists human. split; [exact H1|now rewrite bitcoinToSatoshi_shape].
Qed.

(** X17.  Every entry of the Bitcoin history, for a transaction whose
    outputs are not negative and add up to a safe integer: [valueFormatted]
    denotes the amount of [value], as [bitcoinToSatoshi] gives [value]
    back; the hash is the transaction's; the gas price is [0]; the status
    is [success] for a confirmed transaction and [pending] otherwise, never
    [failed]; a received entry is paid to the address, and a sent entry of
    a value other than [0] is paid by it. *)
Theorem X17_history_entry_fields (address : jsstring) (tx : RawTx)
    (t : Transaction.t) :
  history_entry address tx = OK t ->
  safe_outputs tx ->
  bitcoinToSatoshi (Transaction.valueFormatted t) = OK (Transaction.value t)
  /\ Transaction.hash t = txid tx
  /\ Transaction.gasPrice t = str "0"
  /\ Transaction.status t
     = (if confirmed (tx_status tx) then status_success else status_pending)
  /\ (Transaction.type t = receive -> Transaction.to t = address)
  /\ (Transaction.type t = send -> Transaction.value t <> str "0" ->
      Transaction.from t = address).
Proof.
  intros Hentry [Hpos _]. unfold history_entry in Hentry.
  pose proof (find_pays_to address (vout tx)) as Hfind.
  destruct (find (spends_from address) (vin tx)) as [i|];
    destruct (find (pays_to address) (vout tx)) as [o|];
    cbn [is_some negb andb] in Hentry.
  - change (satoshiToBitcoin (str "0")) with (OK (A := jsstring) (str "0"))
      in Hentry.
    injection Hentry as <-. cbn.
    repeat split; try reflexivity; try discriminate. congruence.
  - destruct (satoshi_round_trip
                (fold_left (fun sum output => sum + out_value output)
                   (vout tx) 0)) as (human & H1 & H2).
    { rewrite reduce_total. pose proof (fold_outputs_nonneg (vout tx) Hpos).
      lia. }
    rewrite H1 in Hentry. injection Hentry as <-. cbn.
    repeat split; try reflexivity; try discriminate. exact H2.
  - destruct (Hfind o eq_refl) as [Hin _].
    destruct (satoshi_round_trip (out_value o) (Hpos o Hin))
      as (human & H1 & H2).
    rewrite H1 in Hentry. injection Hentry as <-. cbn.
    repeat split; try reflexivity; try discriminate. exact H2.
  - change (satoshiToBitcoin (str "0")) with (OK (A := jsstring) (str "0"))
      in Hentry.
    injection Hentry as <-. cbn.
    repeat split; try reflexivity; try discriminate. congruence.
Qed.

Lemma X17_history_entry_fields_witness :
  exists t,
    hd_error (map (history_entry (str "A")) sample_transactions)
      = Some (OK t)
    /\ bitcoinToSatoshi (Transaction.valueFormatted t)
       = OK (Transaction.value t)
    /\ Transaction.from t = str "A".
Proof.
  destruct (history_entry (str "A")
              (hd (mkRawTx [] [] [] None (mkTxStatus false None None))
                  sample_transactions)) as [t|e] eqn:E;
    [|discriminate E].
  exists t. split; [cbn [sample_transactions map hd_error]; now rewrite <- E|].
  destruct (X17_history_entry_fields (str "A") _ t E)
    as (Hv & _ & _ & _ & _ & Hfrom).
  - exact (Forall_inv sample_transactions_safe).
  - split; [exact Hv|]. apply Hfrom.
    + revert E. vm_compute. now intros [= <-].
    + revert E. vm_compute. intros [= <-]. discriminate.
Defined.

(** ** The Bitcoin provider: the forwarded requests *)

(** What a method that forwards the body of one request returns. *)
Lemma forwarded (up : Upstream)
    (client_get : jsstring -> World up -> result (Json up) * World up)
    (path c fallback : jsstring) (s : State (World up)) :
  try_catch
    (response <- request (client_get path) ;;
     now <- Date_now up ;;
     ret (succeed response now))
    (fetch_error up (Json up) c fallback) s
  = (OK match fst (client_get path (world s)) with
        | OK body =>
            succeed body (clock up (snd (client_get path (world s))))
        | Throw e =>
            failure _ c (message_or e fallback) (response_details e)
              (clock up (snd (client_get path (world s))))
        end,
     {| world := snd (client_get path (world s)); calls := calls s |}).
Proof.
  unfold try_catch, bind, request, ret, Date_now, fetch_error.
  destruct (client_get path (world s)) as [[body|e] w]; reflexivity.
Qed.

(** X18.  [getNetworkStats] outlives the loss of the block: when the
    requests for the height of the tip and for the hash at that height are
    answered, it returns a success envelope with both, and [blockInfo] is
    the body of the third request when that is answered and absent when it
    fails.  When the first request fails the second is not made, and the
    envelope is a failure with the code BITCOIN_NETWORK_STATS_ERROR. *)
Theorem X18_network_stats (up : Upstream)
    (client_get : jsstring -> World up -> result (Json up) * World up)
    (template : Json up -> jsstring) (s : State (World up)) :
  (forall h w1 b w2,
      client_get (str "/blocks/tip/height") (world s) = (OK h, w1) ->
      client_get (block_height_path up template h) w1 = (OK b, w2) ->
      BitcoinProvider_getNetworkStats up client_get template s
      = (OK (succeed
               {| NetworkStats.currentHeight := h;
                  NetworkStats.blockHash := b;
                  NetworkStats.blockInfo :=
                    match fst (client_get (str "/block/" ++ template b) w2)
                    with
                    | OK info => Some info
                    | Throw _ => None
                    end |}
               (clock up (snd (client_get (str "/block/" ++ template b) w2)))),
         {| world := snd (client_get (str "/block/" ++ template b) w2);
            calls := calls s |}))
  /\ (forall e w1,
         client_get (str "/blocks/tip/height") (world s) = (Throw e, w1) ->
         BitcoinProvider_getNetworkStats up client_get template s
         = (OK (failure _ (str "BITCOIN_NETWORK_STATS_ERROR")
                  (message_or e (str "Failed to fetch Bitcoin network stats"))
                  (response_details e) (clock up w1)),
            {| world := w1; calls := calls s |})).
Proof.
  split.
  - intros h w1 b w2 H1 H2.
    unfold BitcoinProvider_getNetworkStats, BitcoinProvider_getBlock.
    unfold try_catch at 1. unfold bind at 1. unfold request at 1.
    rewrite H1. unfold bind at 1. unfold request at 1. cbn [world calls].
    rewrite H2. unfold bind at 1. rewrite forwarded. cbn [world calls].
    destruct (client_get (str "/block/" ++ template b) w2) as [[info|e] w3];
      reflexivity.
  - intros e w1 H1.
    unfold BitcoinProvider_getNetworkStats.
    unfold try_catch at 1. unfold bind at 1. unfold request at 1.
    rewrite H1. reflexivity.
Qed.

Lemma X18_network_stats_witness :
  exists stats t,
    fst (BitcoinProvider_getNetworkStats sample_upstream sample_client_get
           sample_template sample_state) = OK (succeed stats t)
    /\ NetworkStats.blockInfo stats = None.
Proof.
  eexists. eexists.
  rewrite (proj1 (X18_network_stats sample_upstream sample_client_get
                    sample_template sample_state) tt 1%nat tt 2%nat
             eq_refl eq_refl).
  split; reflexivity.
Defined.

(** X19.  [getTransaction], [getBlock] and [getAddressInfo] never throw:
    each makes one request, to its own path, and returns a success envelope
    with the body as it came when the request is answered, and a failure
    envelope with its own code when the request fails, with the message of
    the error, or its own text if that is missing or empty, and the body of
    the upstream's error response for details. *)
Theorem X19_forwarded_requests (up : Upstream)
    (client_get : jsstring -> World up -> result (Json up) * World up)
    (id : jsstring) (s : State (World up)) :
  let answer path c fallback :=
    (OK match fst (client_get path (world s)) with
        | OK body =>
            succeed body (clock up (snd (client_get path (world s))))
        | Throw e =>
            failure _ c
              (if truthy_opt (thrown_message e)
               then show_opt (thrown_message e) else fallback)
              (response_details e)
              (clock up (snd (client_get path (world s))))
        end,
     {| world := snd (client_get path (world s)); calls := calls s |}) in
  BitcoinProvider_getTransaction up client_get id s
  = answer (str "/tx/" ++ id) (str "BITCOIN_TX_FETCH_ERROR")
      (str "Failed to fetch Bitcoin transaction")
  /\ BitcoinProvider_getBlock up client_get id s
     = answer (str "/block/" ++ id) (str "BITCOIN_BLOCK_FETCH_ERROR")
         (str "Failed to fetch Bitcoin block")
  /\ BitcoinProvider_getAddressInfo up client_get id s
     = answer (str "/address/" ++ id) (str "BITCOIN_ADDRESS_INFO_ERROR")
         (str "Failed to fetch Bitcoin address info").
Proof.
  assert (forall e fallback,
             message_or e fallback
             = if truthy_opt (thrown_message e)
               then show_opt (thrown_message e) else fallback) as Hm.
  { intros e fallback. unfold message_or, truthy_opt, show_opt.
    now destruct (thrown_message e). }
  cbv zeta.
  unfold BitcoinProvider_getTransaction, BitcoinProvider_getBlock,
    BitcoinProvider_getAddressInfo.
  rewrite !forwarded.
  repeat split;
    match goal with
    | |- context [client_get ?p (world s)] =>
        destruct (client_get p (world s)) as [[body|e] w]
    end; cbn [fst snd]; now rewrite ?Hm.
Qed.

(** ** The service: what it answers without a provider *)

(** X20.  What the service answers for Bitcoin without asking anyone:
    for an identifier that parses to the type bitcoin, under either
    grammar, [getTokenMetadata] returns the fixed record of Bitcoin, with
    eight decimals, and [getNftMetadata] a failure envelope with the code
    UNSUPPORTED_ASSET_TYPE; on the network [bitcoin], [getNftOwners] and
    [getNftsForOwner] return a failure envelope with the code
    UNSUPPORTED_NETWORK.  No provider is called and nothing is requested:
    the state is as before. *)
Theorem X20_bitcoin_short_circuits (up : Upstream) (assetId : jsstring)
    (info : AssetInfo) (contract owner : jsstring)
    (token filter : option jsstring) (s : State (World up)) :
  parseAssetId assetId = OK info ->
  type info = bitcoin ->
  getTokenMetadata up assetId s
  = (OK (succeed
           {| TokenMetadataResponse.name := str "Bitcoin";
              TokenMetadataResponse.symbol := str "BTC";
              TokenMetadataResponse.decimals := 8;
              TokenMetadataResponse.totalSupply := None;
              TokenMetadataResponse.contractAddress := None;
              TokenMetadataResponse.assetId := str "bitcoin";
              TokenMetadataResponse.networkId := str "bitcoin";
              TokenMetadataResponse.type := native;
              TokenMetadataResponse.logo := None |}
           (clock up (world s))), s)
  /\ getNftMetadata up assetId s
     = (OK (failure _ (str "UNSUPPORTED_ASSET_TYPE")
              (str "NFTs not supported on Bitcoin") details_null
              (clock up (world s))), s)
  /\ getNftOwners up contract (str "bitcoin") token s
     = (OK (failure _ (str "UNSUPPORTED_NETWORK")
              (str "NFTs not supported on Bitcoin") details_null
              (clock up (world s))), s)
  /\ getNftsForOwner up owner (str "bitcoin") filter s
     = (OK (failure _ (str "UNSUPPORTED_NETWORK")
              (str "NFTs not supported on Bitcoin") details_null
              (clock up (world s))), s).
Proof.
  intros Hparse Htype.
  unfold getTokenMetadata, getNftMetadata, getNftOwners, getNftsForOwner,
    try_catch, bind, lift, unsupported, ret, Date_now.
  rewrite Hparse, Htype. repeat split; reflexivity.
Qed.

Lemma X20_bitcoin_short_circuits_witness :
  fst (getNftMetadata sample_upstream
         (str "bip122:000000000019d6689c085ae165831e93/slip44:0")
         sample_state)
  = OK (failure _ (str "UNSUPPORTED_ASSET_TYPE")
          (str "NFTs not supported on Bitcoin") details_null 0).
Proof.
  rewrite (proj1 (proj2
    (X20_bitcoin_short_circuits sample_upstream
       (str "bip122:000000000019d6689c085ae165831e93/slip44:0")
       (mkAssetInfo
          (str "bip122:000000000019d6689c085ae165831e93/slip44:0")
          (net (str "bitcoin")) None None bitcoin)
       [] [] None None sample_state eq_refl eq_refl))).
  reflexivity.
Defined.

(** X21.  An identifier the parser rejects: [getBalance], [getHistory],
    [getTokenMetadata] and [getNftMetadata] each return a failure envelope
    with their own code, the parser's message, or their own text if that is
    empty, and the error itself for details; no provider is called and the
    state is as before. *)
Theorem X21_unparsable_identifier (up : Upstream)
    (address assetId : jsstring) (page limit : option Z) (e : JSError)
    (s : State (World up)) :
  parseAssetId assetId = Throw e ->
  getBalance up address assetId s
  = (OK (failure _ (str "BALANCE_SERVICE_ERROR")
           (message_or e (str "Failed to get balance")) (details_error e)
           (clock up (world s))), s)
  /\ getHistory up address assetId page limit s
     = (OK (failure _ (str "HISTORY_SERVICE_ERROR")
              (message_or e (str "Failed to get transaction history"))
              (details_error e) (clock up (world s))), s)
  /\ getTokenMetadata up assetId s
     = (OK (failure _ (str "TOKEN_METADATA_SERVICE_ERROR")
              (message_or e (str "Failed to get token metadata"))
              (details_error e) (clock up (world s))), s)
  /\ getNftMetadata up assetId s
     = (OK (failure _ (str "NFT_METADATA_SERVICE_ERROR")
              (message_or e (str "Failed to get NFT metadata"))
              (details_error e) (clock up (world s))), s).
Proof.
  intros Hparse.
  unfold getBalance, getHistory, getTokenMetadata, getNftMetadata,
    try_catch, bind, lift, service_error, ret, Date_now.
  rewrite Hparse. repeat split; reflexivity.
Qed.

Lemma X21_unparsable_identifier_witness :
  exists e m,
    parseAssetId (str "solana:mainnet/slip44:501") = Throw e
    /\ fst (getBalance sample_upstream (str "A")
              (str "solana:mainnet/slip44:501") sample_state)
       = OK (failure _ (str "BALANCE_SERVICE_ERROR") m (details_error e) 0)
    /\ m = str "Unsupported chain namespace: solana".
Proof.
  eexists. eexists. split; [reflexivity|].
  rewrite (proj1 (X21_unparsable_identifier sample_upstream (str "A")
                    (str "solana:mainnet/slip44:501") None None _
                    sample_state eq_refl)).
  split; reflexivity.
Defined.

(** ** The service: several assets at once *)




Lemma fold_left_snoc (A B : Type) (f : A -> B -> A) (l : list B) (b : B)
    (a : A) :
  fold_left f (l ++ [b]) a = f (fold_left f l a) b.
Proof. now rewrite fold_left_app. Qed.

(** What the loop of [getPortfolioSummary] keeps true of its total and its
    entries. *)
Lemma portfolio_loop_invariant (up : Upstream)
    (balances : JSObject BalanceResponse.t)
    (prices : option (JSObject (PriceResponse.t (Num up))))
    (assetIds : list jsstring)
    (acc acc' : Num up * list (PortfolioEntry.t (Num up))) :
  portfolio_loop up balances prices acc assetIds = OK acc' ->
  map (@PortfolioEntry.assetId _) (snd acc')
  = map (@PortfolioEntry.assetId _) (snd acc)
    ++ filter (in_portfolio up balances prices) assetIds
  /\ (fst acc = sum_of_values up (snd acc) ->
      fst acc' = sum_of_values up (snd acc'))
  /\ (Forall (listed up balances prices) (snd acc) ->
      Forall (listed up balances prices) (snd acc')).
Proof.
  revert acc. induction assetIds as [|x rest IH]; intros acc.
  - cbn. intros [= <-]. rewrite app_nil_r. auto.
  - cbn [portfolio_loop filter]. unfold portfolio_step, in_portfolio.
    destruct prices as [prices|]; [|discriminate].
    fold (in_portfolio up balances (Some prices)).
    destruct (is_truthy (obj_get BalanceResponse_field x balances)
              && is_truthy (obj_get (PriceResponse_field up) x prices)).
    + intros Hloop. apply IH in Hloop. cbn [fst snd] in Hloop.
      destruct Hloop as (Hids & Hsum & Hval).
      split; [|split].
      * rewrite Hids, map_app. cbn. now rewrite <- app_assoc.
      * intros Hacc. apply Hsum. unfold sum_of_values.
        rewrite map_app. cbn [map PortfolioEntry.value].
        rewrite fold_left_snoc. now rewrite Hacc.
      * intros Hacc. apply Hval. apply Forall_app. split; [exact Hacc|].
        constructor; [|constructor].
        cbn. repeat split; reflexivity.
    + apply IH.
Qed.

(** [getMultipleBalances] returns a success envelope with the object its
    loop has filled. *)
Lemma getMultipleBalances_succeeds (up : Upstream) (address : jsstring)
    (assetIds : list jsstring) (s : State (World up)) :
  exists results s1,
    getMultipleBalances up address assetIds s
    = (OK (succeed results (clock up (world s1))), s1).
Proof.
  unfold getMultipleBalances, try_catch, bind.
  destruct (collect_balances_returns up address assetIds (empty_object _) s)
    as (results & Hrun & _).
  destruct (collect_balances up address (empty_object _) assetIds s)
    as [res s1]. cbn in Hrun. subst res. cbn.
  now exists results, s1.
Qed.

(** X23.  A portfolio summary that succeeds is read off the two maps its
    sub-calls have returned in this run, the balances and the prices: its
    entries are those of the assets asked for that have a truthy balance
    and a truthy price there, in the order of the request and once for each
    time the asset is asked for; each entry carries the formatted balance
    of its asset, its price and the change of the price in a day, and for
    its value the balance times the price; the total is the sum of the
    values, added up from zero in that order; the currency is the one asked
    for, [usd] if none. *)
Theorem X23_portfolio_summary (up : Upstream) (address : jsstring)
    (assetIds : list jsstring) (currency : option jsstring)
    (s : State (World up)) (summary : PortfolioSummary.t (Num up)) (t : Z) :
  fst (getPortfolioSummary up address assetIds currency s)
    = OK (succeed summary t) ->
  exists balancesResult pricesResult balances,
    fst (getMultipleBalances up address assetIds s) = OK balancesResult
    /\ fst (getMultiplePrices up assetIds
              (Some (default (str "usd") currency))
              (snd (getMultipleBalances up address assetIds s)))
       = OK pricesResult
    /\ data balancesResult = Some balances
    /\ map (@PortfolioEntry.assetId _) (PortfolioSummary.portfolio summary)
       = filter (in_portfolio up balances (data pricesResult)) assetIds
    /\ Forall (listed up balances (data pricesResult))
         (PortfolioSummary.portfolio summary)
    /\ PortfolioSummary.totalValue summary
       = sum_of_values up (PortfolioSummary.portfolio summary)
    /\ PortfolioSummary.currency summary = default (str "usd") currency.
Proof.
  destruct (getMultipleBalances_succeeds up address assetIds s)
    as (results & s1 & Hbal).
  unfold getPortfolioSummary, try_catch. unfold bind at 1.
  rewrite Hbal. cbn [fst snd]. unfold bind at 1.
  destruct (getMultiplePrices up assetIds
              (Some (default (str "usd") currency)) s1) as [[pr|e] s2];
    [|cbn; discriminate].
  cbn [success succeed data negb orb fst].
  destruct (negb (success pr)); [cbn; discriminate|].
  unfold bind at 1, lift.
  destruct (portfolio_loop up results (data pr) (num_zero up, [])
              assetIds) as [acc|e] eqn:Hloop; [|cbn; discriminate].
  apply portfolio_loop_invariant in Hloop. cbn [fst snd map app] in Hloop.
  destruct Hloop as (Hids & Hsum & Hval).
  cbn. intros [= <- _]. cbn.
  exists (succeed results (clock up (world s1))), pr, results.
  split; [reflexivity|]. split; [reflexivity|]. split; [reflexivity|].
  split; [exact Hids|]. split; [apply Hval; constructor|].
  split; [now apply Hsum|reflexivity].
Qed.

Lemma X23_portfolio_summary_witness :
  fst (getPortfolioSummary sample_upstream (str "A")
         [str "bitcoin"; str "a:b:c:d"; str "ethereum"] None sample_state)
    = OK (succeed sample_summary 3)
  /\ map (@PortfolioEntry.assetId _)
       (PortfolioSummary.portfolio sample_summary)
     = [str "bitcoin"; str "ethereum"]
  /\ PortfolioSummary.totalValue sample_summary
     = sum_of_values sample_upstream
         (PortfolioSummary.portfolio sample_summary).
Proof.
  assert (fst (getPortfolioSummary sample_upstream (str "A")
                 [str "bitcoin"; str "a:b:c:d"; str "ethereum"] None
                 sample_state) = OK (succeed sample_summary 3)) as H
    by (vm_compute; reflexivity).
  split; [exact H|]. split; [reflexivity|].
  destruct (X23_portfolio_summary sample_upstream (str "A")
              [str "bitcoin"; str "a:b:c:d"; str "ethereum"] None
              sample_state sample_summary 3 H)
    as (_ & _ & _ & _ & _ & _ & _ & _ & Htotal & _).
  exact Htotal.
Defined.

(** ** The controller *)

Lemma handled_by (up : Upstream) (T : Type) (missing : bool)
    (m fallback : jsstring) (service : M (World up) (ApiResponse T)) :
  enveloped up service ->
  handled up
    (try_catch
       (if missing then BlockchainController.invalid_params up T m
        else result <- service ;; BlockchainController.send up result)
       (BlockchainController.controller_error up T fallback))
    missing service.
Proof.
  intros Hservice s. unfold try_catch.
  destruct missing.
  - eexists. split; [reflexivity|]. split; [reflexivity|].
    split; [reflexivity|]. eexists. reflexivity.
  - unfold bind. destruct (Hservice s) as (r & Hr & _).
    destruct (service s) as [res s1]. cbn in Hr. subst res.
    exists {| http_status := if success r then 200 else 400;
              http_body := r |}.
    repeat split.
Qed.

(** X24.  The handlers of the balance, the token metadata, the NFT
    metadata and the NFTs of an owner always answer, with the status 200
    for a success envelope and 400 for a failure, never 500: without a
    parameter, or with an empty one, they answer INVALID_PARAMS and the
    service is not called; otherwise they answer with the envelope of the
    service, unchanged. *)
Theorem X24_controller_status (up : Upstream)
    (address assetId owner networkId : option jsstring) :
  handled up
    (BlockchainController.getBalance up address assetId)
    (BlockchainController.param_missing address
     || BlockchainController.param_missing assetId)
    (getBalance up (BlockchainController.param_value address)
       (BlockchainController.param_value assetId))
  /\ handled up
       (BlockchainController.getTokenMetadata up assetId)
       (BlockchainController.param_missing assetId)
       (getTokenMetadata up (BlockchainController.param_value assetId))
  /\ handled up
       (BlockchainController.getNftMetadata up assetId)
       (BlockchainController.param_missing assetId)
       (getNftMetadata up (BlockchainController.param_value assetId))
  /\ handled up
       (BlockchainController.getNftsForOwner up owner networkId)
       (BlockchainController.param_missing owner
        || BlockchainController.param_missing networkId)
       (getNftsForOwner up (BlockchainController.param_value owner)
          (BlockchainController.param_value networkId) None).
Proof.
  repeat split; apply handled_by.
  - apply getBalance_enveloped.
  - apply getTokenMetadata_enveloped.
  - apply getNftMetadata_enveloped.
  - apply getNftsForOwner_enveloped.
Qed.

(** ** The service: the methods that only forward *)

Lemma forwards (up : Upstream) (T : Type) (c : Call)
    (provider : World up -> result (ApiResponse T) * World up)
    (code fallback : jsstring) (s : State (World up)) :
  try_catch (record_call c ;; request provider)
    (service_error up T code fallback) s
  = forwarded_call up c provider code fallback s.
Proof.
  unfold forwarded_call, try_catch, bind, record_call, request,
    service_error, ret, Date_now. cbn [world calls].
  destruct (provider (world s)) as [[r|e] w]; reflexivity.
Qed.

(** X25.  The methods of the service that only forward.  [getPrice],
    [getPriceHistory] and [getMultiplePrices] always call the CoinGecko
    provider, once, with [usd] and seven days where the caller names no
    currency and no number of days; [getGas], [getNftOwners] and
    [getNftsForOwner] call the Alchemy provider, once, for every network
    other than the text [bitcoin], with [eip1559] where the caller names no
    mode.  Each returns the provider's envelope as it is, and the failure
    envelope of its own code should the provider throw. *)
Theorem X25_forwarding_methods (up : Upstream)
    (assetId networkId contract owner : jsstring)
    (assetIds : list jsstring) (currency token filter : option jsstring)
    (days : option Z) (mode : option GasMode) (s : State (World up)) :
  networkId <> str "bitcoin" ->
  getPrice up assetId currency s
  = forwarded_call up
      (coingecko_getPrice assetId (default (str "usd") currency))
      (CoinGeckoProvider_getPrice up assetId (default (str "usd") currency))
      (str "PRICE_SERVICE_ERROR") (str "Failed to get price") s
  /\ getPriceHistory up assetId days currency s
     = forwarded_call up
         (coingecko_getPriceHistory assetId (default 7 days)
            (default (str "usd") currency))
         (CoinGeckoProvider_getPriceHistory up assetId (default 7 days)
            (default (str "usd") currency))
         (str "PRICE_HISTORY_SERVICE_ERROR")
         (str "Failed to get price history") s
  /\ getMultiplePrices up assetIds currency s
     = forwarded_call up
         (coingecko_getMultiplePrices assetIds
            (default (str "usd") currency))
         (CoinGeckoProvider_getMultiplePrices up assetIds
            (default (str "usd") currency))
         (str "MULTIPLE_PRICES_SERVICE_ERROR")
         (str "Failed to get multiple prices") s
  /\ getGas up networkId mode s
     = forwarded_call up
         (alchemy_getGas networkId (default eip1559 mode))
         (AlchemyProvider_getGas up networkId (default eip1559 mode))
         (str "GAS_SERVICE_ERROR") (str "Failed to get gas price") s
  /\ getNftOwners up contract networkId token s
     = forwarded_call up
         (alchemy_getNftOwners contract networkId token)
         (AlchemyProvider_getNftOwners up contract networkId token)
         (str "NFT_OWNERS_SERVICE_ERROR") (str "Failed to get NFT owners") s
  /\ getNftsForOwner up owner networkId filter s
     = forwarded_call up
         (alchemy_getNftsForOwner owner networkId filter)
         (AlchemyProvider_getNftsForOwner up owner networkId filter)
         (str "NFTS_FOR_OWNER_SERVICE_ERROR")
         (str "Failed to fetch NFTs for owner") s.
Proof.
  intros Hnet. apply streq_neq in Hnet.
  unfold getPrice, getPriceHistory, getMultiplePrices, getGas, getNftOwners,
    getNftsForOwner.
  cbv zeta. rewrite Hnet.
  repeat split; apply forwards.
Qed.

Lemma X25_forwarding_methods_witness :
  calls (snd (getGas sample_upstream
                (str "bip122:000000000019d6689c085ae165831e93") None
                sample_state))
  = [alchemy_getGas (str "bip122:000000000019d6689c085ae165831e93") eip1559].
Proof.
  rewrite (proj1 (proj2 (proj2 (proj2
    (X25_forwarding_methods sample_upstream [] 
       (str "bip122:000000000019d6689c085ae165831e93") [] [] [] None None
       None None None sample_state ltac:(discriminate)))))).
  reflexivity.
Defined.

(** ** From the request to the answer *)

(** X26.  A request for a balance, with both parameters, from the route
    to the answer: an identifier the parser rejects is answered with the
    status 400 and the service's code BALANCE_SERVICE_ERROR under the
    parser's message; an identifier of the type bitcoin whose address the
    upstream knows, with two sums and a difference that are safe integers,
    is answered with the status 200 and the difference of the sums, in
    satoshi. *)
Theorem X26_balance_request (up : Upstream) (address assetId : jsstring)
    (s : State (World up)) :
  truthy address = true -> truthy assetId = true ->
  (forall e,
      parseAssetId assetId = Throw e ->
      fst (BlockchainController.getBalance up (Some address) (Some assetId) s)
      = OK {| http_status := 400;
              http_body :=
                failure _ (str "BALANCE_SERVICE_ERROR")
                  (message_or e (str "Failed to get balance"))
                  (details_error e) (clock up (world s)) |})
  /\ (forall info stats w,
         parseAssetId assetId = OK info -> type info = bitcoin ->
         get_address up address (world s) = (OK stats, w) ->
         safe_stats stats ->
         exists b,
           fst (BlockchainController.getBalance up (Some address)
                  (Some assetId) s)
           = OK {| http_status := 200;
                   http_body := succeed b (clock up w) |}
           /\ BalanceResponse.balance b
              = toString (funded_txo_sum stats - spent_txo_sum stats)).
Proof.
  intros Ha Hi.
  unfold BlockchainController.getBalance, BlockchainController.param_missing,
    truthy_opt, BlockchainController.param_value.
  rewrite Ha, Hi. cbn [negb orb].
  unfold try_catch at 1. unfold bind at 1.
  split.
  - intros e Hparse.
    unfold getBalance, try_catch, bind, lift, service_error, ret, Date_now.
    now rewrite Hparse.
  - intros info stats w Hparse Htype Hreq _.
    destruct (base_to_human_returns 8
                (funded_txo_sum stats - spent_txo_sum stats)) as [human Hto].
    rewrite <- satoshiToBitcoin_shape in Hto.
    eexists. split.
    + unfold getBalance, try_catch, bind, lift.
      rewrite Hparse, Htype. cbn [AssetType_eqb].
      rewrite (BitcoinProvider_getBalance_answers up address s stats w human
                 Hreq Hto).
      reflexivity.
    + reflexivity.
Qed.

Lemma X26_balance_request_witness :
  fst (BlockchainController.getBalance sample_upstream (Some (str "A"))
         (Some (str "a:b:c:d")) sample_state)
  = OK {| http_status := 400;
          http_body :=
            failure _ (str "BALANCE_SERVICE_ERROR")
              (str "Invalid assetId format: a:b:c:d")
              (details_error
                 (new_Error (str "Invalid assetId format: a:b:c:d"))) 0 |}
  /\ exists b,
       fst (BlockchainController.getBalance sample_upstream (Some (str "A"))
              (Some (str "bitcoin")) sample_state)
       = OK {| http_status := 200; http_body := succeed b 1 |}
       /\ BalanceResponse.balance b = str "100000000".
Proof.
  split.
  - exact (proj1 (X26_balance_request sample_upstream (str "A")
                    (str "a:b:c:d") sample_state eq_refl eq_refl)
             (new_Error (str "Invalid assetId format: a:b:c:d")) eq_refl).
  - exact (proj2 (X26_balance_request sample_upstream (str "A")
                    (str "bitcoin") sample_state eq_refl eq_refl)
             (mkAssetInfo (str "bitcoin") (net (str "bitcoin")) None None
                bitcoin)
             (mkChainStats 150000000 50000000) 1%nat eq_refl eq_refl eq_refl
             sample_stats_safe).
Defined.

(** ** Amounts below zero *)

Lemma drop_zeros_keeps (c : ascii) (s : jsstring) :
  c <> "0"%char -> In c s -> In c (drop_zeros s).
Proof.
  intros Hc. induction s as [|x s IH]; simpl; [auto|].
  destruct (Ascii.eqb_spec x "0") as [->|Hx].
  - intros [E|H]; [congruence|auto].
  - auto.
Qed.

Lemma strip_keeps (c : ascii) (s : jsstring) :
  c <> "0"%char -> In c s -> In c (strip_trailing_zeros s).
Proof.
  intros Hc H. unfold strip_trailing_zeros.
  apply -> in_rev. apply drop_zeros_keeps; [exact Hc|].
  now apply -> in_rev.
Qed.

(** Below zero the remainder keeps its sign, and the sign is printed
    where the remainder is, behind the point. *)
Lemma base_to_human_negative (decimals : nat) (z : Z) :
  z < 0 -> Z.rem z (10 ^ Z.of_nat decimals) <> 0 ->
  exists frac,
    base_to_human decimals (toString z)
    = OK (toString (Z.quot z (10 ^ Z.of_nat decimals)) ++ str "." ++ frac)
    /\ In "-"%char frac.
Proof.
  intros Hz Hr. unfold base_to_human. rewrite BigInt_toString. cbv zeta.
  assert (0 < 10 ^ Z.of_nat decimals) as Hp by (apply Z.pow_pos_nonneg; lia).
  assert (Z.rem z (10 ^ Z.of_nat decimals) < 0) as Hneg.
  { pose proof (Z.rem_nonneg (- z) (10 ^ Z.of_nat decimals)
                  ltac:(lia) ltac:(lia)) as H.
    rewrite Z.rem_opp_l in H by lia. lia. }
  apply Z.eqb_neq in Hr. rewrite Hr.
  set (frac := strip_trailing_zeros
                 (padStart decimals "0"
                    (toString (Z.rem z (10 ^ Z.of_nat decimals))))).
  assert (In "-"%char frac) as Hin.
  { apply strip_keeps; [discriminate|].
    unfold padStart. apply in_or_app. right.
    unfold toString. apply Z.ltb_lt in Hneg. rewrite Hneg. now left. }
  exists frac. split; [|exact Hin].
  destruct frac as [|c rest]; [contradiction|reflexivity].
Qed.

(** X27.  Amounts below zero are misprinted: when a negative number of
    wei or satoshi is no whole number of ether or bitcoin, [weiToEther] and
    [satoshiToBitcoin] print the quotient rounded towards zero, which
    loses the sign of an amount between minus one and zero, then a point,
    and a fractional part with a minus sign in it. *)
Theorem X27_negative_amounts (z : Z) :
  z < 0 ->
  (Z.rem z (10 ^ 18) <> 0 ->
   exists frac,
     weiToEther (toString z)
     = OK (toString (Z.quot z (10 ^ 18)) ++ str "." ++ frac)
     /\ In "-"%char frac)
  /\ (Z.rem z (10 ^ 8) <> 0 ->
      exists frac,
        satoshiToBitcoin (toString z)
        = OK (toString (Z.quot z (10 ^ 8)) ++ str "." ++ frac)
        /\ In "-"%char frac).
Proof.
  intros Hz. split; intros Hr.
  - rewrite weiToEther_shape. now apply (base_to_human_negative 18).
  - rewrite satoshiToBitcoin_shape. now apply (base_to_human_negative 8).
Qed.

Lemma X27_negative_amounts_witness :
  exists frac,
    satoshiToBitcoin (str "-150000000") = OK (str "-1" ++ str "." ++ frac)
    /\ In "-"%char frac.
Proof.
  exact (proj2 (X27_negative_amounts (-150000000) ltac:(lia))
           ltac:(discriminate)).
Defined.
